(** * ScanFlowEbayWeb: the Keepa evaluation engine

    A shallow embedding of [fetcher/src/keepaApi.ts] (ISBN utilities, price
    extraction, Amazon first-party stockout analysis, fee calculation and the
    multiplier-based decision), of the decision table of
    [fetcher/src/config.ts], and of the crawler's [isValidIsbn13].

    Conventions of the embedding:
    - a JS string is a [list ascii] of its code units (those below 256);
      [string] is used for the literals of reason texts;
    - Keepa's [number[]] histories and statistics hold integers (minutes since
      the Keepa epoch, cents, ranks): [list Z];
    - dollar amounts and durations are JS doubles in the source; they are
      idealised here as exact rationals [Q], and the one division whose
      divisor the caller controls ([amazonPrice / buyPriceDollars]) lands in
      [jsnum], which keeps the infinities and NaN of the source;
    - [parseInt] on one character yields [option Z], [None] standing for NaN;
    - [null] and [undefined] are [None];
    - [Date.now()] is an explicit argument [now] (milliseconds);
    - [toFixed] and [toLocaleString] are parameters of [evaluateBook].

    The file has two parts: the embedding with the notions the properties
    are stated with, then the properties C1 to C10 and their lemmas. *)

From Stdlib Require Import ZArith QArith Qround List Ascii String Bool Lia Lqa.
From Stdlib Require Import DecimalString.
Import ListNotations.

Local Open Scope Z_scope.

(** ** JS strings as lists of code units *)

Definition jsstr := list ascii.

Definition str (s : string) : jsstr := list_ascii_of_string s.

Definition code (c : ascii) : Z := Z.of_nat (nat_of_ascii c).

(** [\d] *)
Definition isDigit (c : ascii) : bool := (48 <=? code c) && (code c <=? 57).

(** [\s] on code units below 256: TAB, LF, VT, FF, CR, SP, NBSP *)
Definition isSpace (c : ascii) : bool :=
  ((9 <=? code c) && (code c <=? 13)) || (code c =? 32) || (code c =? 160).

(** [[-\s]] *)
Definition isSeparator (c : ascii) : bool := (code c =? 45) || isSpace c.

(** [s.replace(/[-\s]/g, '')] *)
Definition stripSeparators (s : jsstr) : jsstr :=
  filter (fun c => negb (isSeparator c)) s.

(** [c.toUpperCase()] on one code unit, as far as the comparison with ['X']
    can see: ['x'] is the only other code unit that upper-cases to ['X']. *)
Definition toUpperCase (c : ascii) : ascii :=
  if (97 <=? code c) && (code c <=? 122)
  then ascii_of_nat (nat_of_ascii c - 32) else c.

Definition isX (c : ascii) : bool := code c =? 88.

(** [parseInt(ch, 10)] where [ch] is [s[i]]: a digit gives its value,
    anything else (also [undefined]) gives NaN. *)
Definition parseInt10 (ch : option ascii) : option Z :=
  match ch with
  | Some c => if isDigit c then Some (code c - 48) else None
  | None => None
  end.

Definition charAt (s : jsstr) (i : nat) : option ascii := nth_error s i.

(** [String(n)] of an integer, and of NaN *)
Definition numToString (n : option Z) : jsstr :=
  match n with
  | Some z => str (NilZero.string_of_int (Z.to_int z))
  | None => str "NaN"
  end.

(** The character of a decimal digit *)
Definition digitChar (k : Z) : ascii := ascii_of_nat (Z.to_nat (k + 48)).

(** [s.substring(a, b)] for [a <= b] *)
Definition substring (a b : nat) (s : jsstr) : jsstr := firstn (b - a) (skipn a s).

Fixpoint startsWith (p s : jsstr) : bool :=
  match p, s with
  | [], _ => true
  | a :: p', b :: s' => Ascii.eqb a b && startsWith p' s'
  | _ :: _, [] => false
  end.

(** The accumulation loop [for (i = 0; i < n; i++) sum += parseInt(s[i], 10) * w(i)];
    a NaN digit poisons the sum. *)
Definition weightedSum (s : jsstr) (n : nat) (w : nat -> Z) : option Z :=
  fold_left
    (fun acc i =>
       match acc, parseInt10 (charAt s i) with
       | Some a, Some d => Some (a + d * w i)
       | _, _ => None
       end)
    (seq 0 n) (Some 0).

Definition weight13 (i : nat) : Z := if Nat.even i then 1 else 3.
Definition weight10 (i : nat) : Z := 10 - Z.of_nat i.

(** [(10 - (sum % 10)) % 10] *)
Definition check13 (sum : option Z) : option Z :=
  option_map (fun s => Z.rem (10 - Z.rem s 10) 10) sum.

(** ** ISBN utilities *)

Definition isbn10to13 (isbn10 : jsstr) : option jsstr :=
  let clean := stripSeparators isbn10 in
  if negb (List.length clean =? 10)%nat then None
  else
    let base := str "978" ++ substring 0 9 clean in
    let sum := weightedSum base 12 weight13 in
    let checkDigit := check13 sum in
    Some (base ++ numToString checkDigit).

Definition isbn13to10 (isbn13 : jsstr) : option jsstr :=
  let clean := stripSeparators isbn13 in
  if negb (List.length clean =? 13)%nat || negb (startsWith (str "978") clean) then None
  else
    let base := substring 3 12 clean in
    let sum := weightedSum base 9 weight10 in
    let remainder := option_map (fun s => Z.rem s 11) sum in
    let checkDigit :=
      match remainder with
      | Some 0 => str "0"
      | Some 1 => str "X"
      | Some r => numToString (Some (11 - r))
      | None => numToString None
      end in
    Some (base ++ checkDigit).

Record Validation := { valid : bool; error : option string }.

(** [/^\d+X?$/i.test(s)] *)
Fixpoint digitsThenOptX (s : jsstr) : bool :=
  match s with
  | [] => true
  | c :: rest =>
      match rest with
      | [] => isDigit c || isX (toUpperCase c)
      | _ :: _ => isDigit c && digitsThenOptX rest
      end
  end.

Definition matchesIsbnChars (s : jsstr) : bool :=
  match s with
  | [] => false
  | c :: rest => isDigit c && digitsThenOptX rest
  end.

Definition natToString (n : nat) : string := NilZero.string_of_uint (Nat.to_uint n).

Definition validateIsbn (isbn : jsstr) : Validation :=
  let clean := stripSeparators isbn in
  match clean with
  | [] => {| valid := false; error := Some "ISBN is empty"%string |}
  | _ =>
    if negb (matchesIsbnChars clean)
    then {| valid := false;
            error := Some "ISBN must contain only digits (and X for ISBN-10)"%string |}
    else if (List.length clean =? 10)%nat then
      let sum := weightedSum clean 9 weight10 in
      let lastChar := option_map toUpperCase (charAt clean 9) in
      let sum :=
        match sum, lastChar with
        | Some s, Some c =>
            if isX c then Some (s + 10)
            else option_map (fun d => s + d) (parseInt10 (Some c))
        | _, _ => None
        end in
      match sum with
      | Some s =>
          if negb (Z.rem s 11 =? 0)
          then {| valid := false; error := Some "Invalid ISBN-10 checksum"%string |}
          else {| valid := true; error := None |}
      | None => {| valid := false; error := Some "Invalid ISBN-10 checksum"%string |}
      end
    else if (List.length clean =? 13)%nat then
      let sum := weightedSum clean 12 weight13 in
      let checkDigit := check13 sum in
      match checkDigit, parseInt10 (charAt clean 12) with
      | Some a, Some b =>
          if negb (a =? b)
          then {| valid := false; error := Some "Invalid ISBN-13 checksum"%string |}
          else {| valid := true; error := None |}
      | _, _ => {| valid := false; error := Some "Invalid ISBN-13 checksum"%string |}
      end
    else {| valid := false;
            error := Some ("ISBN must be 10 or 13 digits (got "
                           ++ natToString (List.length clean) ++ ")")%string |}
  end.

(** The crawler's own ISBN-13 check ([isValidIsbn13] of the eBay search
    service), which does test the Bookland prefix. *)
Definition isValidIsbn13 (isbn : jsstr) : bool :=
  if negb (List.length isbn =? 13)%nat || negb (forallb isDigit isbn) then false
  else if negb (startsWith (str "978") isbn) && negb (startsWith (str "979") isbn) then false
  else
    let sum := weightedSum isbn 12 weight13 in
    let checkDigit := check13 sum in
    match checkDigit, parseInt10 (charAt isbn 12) with
    | Some a, Some b => a =? b
    | _, _ => false
    end.

(** ** JS numbers *)

(** The value of a JS division: a finite number, one of the infinities, or NaN. *)
Inductive jsnum := Fin (q : Q) | PInf | NInf | NaN.

Definition Qlt_bool (a b : Q) : bool := negb (Qle_bool b a).

(** [a / b] on finite operands *)
Definition jsdiv (a b : Q) : jsnum :=
  if Qeq_bool b 0 then
    if Qlt_bool 0 a then PInf else if Qlt_bool a 0 then NInf else NaN
  else Fin (a / b).

(** [x < y]; every comparison with NaN is false *)
Definition jslt (x y : jsnum) : bool :=
  match x, y with
  | NaN, _ | _, NaN => false
  | Fin a, Fin b => Qlt_bool a b
  | NInf, NInf => false
  | NInf, _ => true
  | _, PInf => match x with PInf => false | _ => true end
  | _, _ => false
  end.

(** [x >= y] *)
Definition jsge (x y : jsnum) : bool :=
  match x, y with
  | NaN, _ | _, NaN => false
  | Fin a, Fin b => Qle_bool b a
  | PInf, _ => true
  | _, NInf => true
  | _, _ => false
  end.

(** [Math.round]: the nearest integer, ties towards +infinity *)
Definition mathRound (x : Q) : Z := Qfloor (x + (1 # 2)).

Definition ZToString (z : Z) : string := NilZero.string_of_int (Z.to_int z).

(** ** Configuration ([config.ts]) *)

Module DECISION.
Module BUY.
Definition MULTIPLIER : Q := 6.
Definition MAX_SALES_RANK : Z := 1500000.
Definition MAX_SALES_RANK_CHEAP : Z := 2000000.
Definition CHEAP_PRICE_THRESHOLD : Q := 6.
Definition MIN_DROPS_90 : Z := 3.
Definition HIGH_PROFIT_MIN_FBM : Q := 60.
Definition HIGH_PROFIT_MAX_RANK : Z := 1000000.
Definition HIGH_PROFIT_MIN_DROPS : Z := 10.
End BUY.
Module REVIEW.
Definition MULTIPLIER : Q := 4.
Definition MAX_SALES_RANK : Z := 2500000.
Definition MIN_DROPS_90 : Z := 2.
End REVIEW.
Module KNOCKOUT.
Definition MAX_SALES_RANK : Z := 3000000.
End KNOCKOUT.
End DECISION.

Module FEES.
Definition REFERRAL_FEE_PERCENT : Q := 15 # 100.
Definition CLOSING_FEE : Q := 180 # 100.
Definition FBA_FULFILLMENT_FEE : Q := 350 # 100.
Definition FBM_SHIPPING_COST : Q := 400 # 100.
End FEES.

(** Keepa CSV indices *)
Module CSV.
Definition AMAZON : nat := 0.
Definition NEW : nat := 1.
Definition USED : nat := 2.
Definition SALES_RANK : nat := 3.
Definition NEW_FBA : nat := 10.
Definition BUY_BOX : nat := 18.
End CSV.

(** Stats array indices *)
Module STATS.
Definition AMAZON : nat := 0.
Definition NEW : nat := 1.
Definition USED : nat := 2.
Definition SALES_RANK : nat := 3.
Definition NEW_FBA : nat := 10.
End STATS.

(** [new Date('2011-01-01').getTime()] *)
Definition KEEPA_BASE_TIME : Z := 1293840000000.

(** ** Types *)

Record KeepaStats := {
  avg : option (list Z);
  avg90 : option (list Z);
  stats_salesRankDrops90 : option Z
}.

Module KeepaProductRaw.
Record t := {
  asin : string;
  csv : option (list (option (list Z)));
  stats : option KeepaStats;
  binding : option string;
  packageWeight : option Z;
  itemWeight : option Z
}.
End KeepaProductRaw.
Import KeepaProductRaw.

Record PriceTriple := { fba : option Q; newFBM : option Q; used : option Q }.

Record AmazonPrices := { current : PriceTriple; avg180 : PriceTriple }.

Inductive Flag := green | yellow | red.

Module AmazonPresence.
Record t := {
  stockoutPercent : option Z;
  realisticPrice : option Q;
  amazonFlag : option Flag
}.
End AmazonPresence.
Import AmazonPresence.

Inductive Decision := BUY | REVIEW | REJECT.

Module EvaluationResult.
Record t := {
  decision : Decision;
  reason : string;
  amazonPrice : option Q;
  fbaProfit : option Q;
  fbmProfit : option Q;
  salesRank : option Z;
  salesRankDrops90 : Z;
  asin : string;
  amazonFlag : option Flag;
  weightLbs : option Q;
  binding : option string;
  multiplier : option jsnum
}.
End EvaluationResult.

(** ** Price extraction *)

(** [(raw.csv || [])[i]], a missing or null channel being absent *)
Definition channel (raw : KeepaProductRaw.t) (i : nat) : option (list Z) :=
  match csv raw with
  | Some c => match nth_error c i with Some (Some l) => Some l | _ => None end
  | None => None
  end.

Definition getLastPrice (c : option (list Z)) : option Q :=
  match c with
  | None => None
  | Some l =>
      if (List.length l <? 2)%nat then None
      else
        let price := last l 0 in
        if 0 <? price then Some (inject_Z price / 100)%Q else None
  end.

(** [a[i] > 0], false when [a[i]] is undefined *)
Definition positiveAt (a : list Z) (i : nat) : option Z :=
  match nth_error a i with
  | Some v => if 0 <? v then Some v else None
  | None => None
  end.

Definition getAmazonPrices (raw : KeepaProductRaw.t) : AmazonPrices :=
  let cur := {| fba := getLastPrice (channel raw CSV.NEW_FBA);
                newFBM := getLastPrice (channel raw CSV.NEW);
                used := getLastPrice (channel raw CSV.USED) |} in
  let cents (a : list Z) (i : nat) : option Q :=
    option_map (fun v => (inject_Z v / 100)%Q) (positiveAt a i) in
  let av :=
    match stats raw with
    | Some s =>
        match avg s with
        | Some a => {| fba := cents a STATS.NEW_FBA;
                       newFBM := cents a STATS.NEW;
                       used := cents a STATS.USED |}
        | None => {| fba := None; newFBM := None; used := None |}
        end
    | None => {| fba := None; newFBM := None; used := None |}
    end in
  {| current := cur; avg180 := av |}.

(** ** Amazon first-party stockout analysis *)

Definition keepaTime (t : Z) : Z := KEEPA_BASE_TIME + t * 60 * 1000.

(** [now - 90 * 24 * 60 * 60 * 1000] *)
Definition cutoff90Days (now : Z) : Z := now - 90 * 24 * 60 * 60 * 1000.

(** [(b - a) / (60 * 1000)]: a span of milliseconds in minutes *)
Definition minutes (a b : Z) : Q := (inject_Z (b - a) / inject_Z (60 * 1000))%Q.

(** The accumulators of the walk: [totalPeriods], [stockoutPeriods] and the
    array [buyBoxWhenAmazonOut]. *)
Record Walk := {
  totalPeriods : Q;
  stockoutPeriods : Q;
  buyBoxWhenAmazonOut : list Q
}.

Definition walk0 : Walk :=
  {| totalPeriods := 0; stockoutPeriods := 0; buyBoxWhenAmazonOut := [] |}.

(** The inner loop [for (j = 0; j < buyBox.length - 2; j += 2)]: the prices
    (dollars) of the buy-box samples stamped inside [periodStart, periodEnd],
    in order. *)
Fixpoint buyBoxDuring (periodStart periodEnd : Z) (buyBox : list Z) : list Q :=
  match buyBox with
  | bbT :: bbPrice :: rest =>
      match rest with
      | _ :: _ =>
          let bbTime := keepaTime bbT in
          (if (periodStart <=? bbTime) && (bbTime <=? periodEnd) && (0 <? bbPrice)
           then [(inject_Z bbPrice / 100)%Q] else [])
          ++ buyBoxDuring periodStart periodEnd rest
      | [] => []
      end
  | _ => []
  end.

(** [if (buyBox && buyBox.length >= 2) { ...inner loop... }] *)
Definition recordBuyBox (periodStart periodEnd : Z) (buyBox : option (list Z)) : list Q :=
  match buyBox with
  | Some bb => if (2 <=? List.length bb)%nat then buyBoxDuring periodStart periodEnd bb else []
  | None => []
  end.

(** One iteration of [for (i = 0; i < amazon1P.length - 2; i += 2)] on the
    pair [(t, price)] followed by a sample at [t']. *)
Definition walkStep (now : Z) (buyBox : option (list Z)) (t price t' : Z) (st : Walk) : Walk :=
  let time := keepaTime t in
  let nextTime := keepaTime t' in
  if nextTime <? cutoff90Days now then st
  else
    let periodStart := Z.max time (cutoff90Days now) in
    let periodEnd := Z.min nextTime now in
    let periodDuration := minutes periodStart periodEnd in
    if Qle_bool periodDuration 0 then st
    else
      let total := (totalPeriods st + periodDuration)%Q in
      if price =? -1 then
        {| totalPeriods := total;
           stockoutPeriods := (stockoutPeriods st + periodDuration)%Q;
           buyBoxWhenAmazonOut :=
             buyBoxWhenAmazonOut st ++ recordBuyBox periodStart periodEnd buyBox |}
      else
        {| totalPeriods := total;
           stockoutPeriods := stockoutPeriods st;
           buyBoxWhenAmazonOut := buyBoxWhenAmazonOut st |}.

Fixpoint walkHistory (now : Z) (buyBox : option (list Z)) (amazon1P : list Z) (st : Walk) : Walk :=
  match amazon1P with
  | t :: price :: rest =>
      match rest with
      | t' :: _ => walkHistory now buyBox rest (walkStep now buyBox t price t' st)
      | [] => st
      end
  | _ => st
  end.

(** [a[a.length - 2]] (read only when [a.length >= 2]) *)
Definition secondToLast (a : list Z) : Z := nth (List.length a - 2) a 0.

(** "Handle last period (from last data point to now)" *)
Definition lastPeriod (now : Z) (buyBox : option (list Z)) (amazon1P : list Z) (st : Walk) : Walk :=
  if (2 <=? List.length amazon1P)%nat then
    let lastTime := keepaTime (secondToLast amazon1P) in
    let lastPrice := last amazon1P 0 in
    if lastTime <? now then
      let periodStart := Z.max lastTime (cutoff90Days now) in
      let periodDuration := minutes periodStart now in
      if Qlt_bool 0 periodDuration then
        let total := (totalPeriods st + periodDuration)%Q in
        if lastPrice =? -1 then
          {| totalPeriods := total;
             stockoutPeriods := (stockoutPeriods st + periodDuration)%Q;
             buyBoxWhenAmazonOut :=
               buyBoxWhenAmazonOut st ++
               match buyBox with
               | Some bb =>
                   if (2 <=? List.length bb)%nat then
                     let lastBBPrice := last bb 0 in
                     if 0 <? lastBBPrice then [(inject_Z lastBBPrice / 100)%Q] else []
                   else []
               | None => []
               end |}
        else
          {| totalPeriods := total;
             stockoutPeriods := stockoutPeriods st;
             buyBoxWhenAmazonOut := buyBoxWhenAmazonOut st |}
      else st
    else st
  else st.

(** The state of the accumulators when both the loop and the last period are done. *)
Definition presenceWalk (now : Z) (buyBox : option (list Z)) (amazon1P : list Z) : Walk :=
  lastPeriod now buyBox amazon1P (walkHistory now buyBox amazon1P walk0).

(** [arr.sort((a, b) => a - b)] *)
Fixpoint insertSorted (x : Q) (l : list Q) : list Q :=
  match l with
  | [] => [x]
  | y :: l' => if Qle_bool x y then x :: l else y :: insertSorted x l'
  end.

Definition sortAscending (l : list Q) : list Q := fold_right insertSorted [] l.

(** Median of a non-empty array, the mean of the two middle values on even length *)
Definition median (l : list Q) : Q :=
  let sorted := sortAscending l in
  let mid := (List.length sorted / 2)%nat in
  if Nat.even (List.length sorted)
  then ((nth (mid - 1) sorted 0 + nth mid sorted 0) / 2)%Q
  else nth mid sorted 0%Q.

Definition flagOf (stockoutPercent : Z) : Flag :=
  if 50 <? stockoutPercent then green
  else if 20 <=? stockoutPercent then yellow
  else red.

Definition analyzeAmazonPresence (now : Z) (raw : KeepaProductRaw.t) : AmazonPresence.t :=
  let amazon1P := channel raw CSV.AMAZON in
  let buyBox := channel raw CSV.BUY_BOX in
  let newThirdParty := channel raw CSV.NEW in
  let nothing := {| stockoutPercent := None; realisticPrice := None; amazonFlag := None |} in
  match amazon1P with
  | None => nothing
  | Some amazon1P =>
    if (List.length amazon1P <? 2)%nat then nothing
    else
      let w := presenceWalk now buyBox amazon1P in
      let percent :=
        if Qlt_bool 0 (totalPeriods w)
        then Some (mathRound ((stockoutPeriods w / totalPeriods w) * 100)%Q)
        else None in
      let flag := option_map flagOf percent in
      let unpriced :=
        {| stockoutPercent := percent; realisticPrice := None; amazonFlag := flag |} in
      match buyBoxWhenAmazonOut w with
      | _ :: _ =>
          {| stockoutPercent := percent;
             realisticPrice := Some (median (buyBoxWhenAmazonOut w));
             amazonFlag := flag |}
      | [] =>
          match percent with
          | Some 0 =>
              match newThirdParty with
              | Some ntp =>
                  if (2 <=? List.length ntp)%nat then
                    let lastNewPrice := last ntp 0 in
                    if 0 <? lastNewPrice then
                      {| stockoutPercent := percent;
                         realisticPrice := Some (inject_Z lastNewPrice / 100)%Q;
                         amazonFlag := Some red |}
                    else unpriced
                  else unpriced
              | None => unpriced
              end
          | _ => unpriced
          end
      end
  end.

(** ** Sales rank metrics, weight, fees *)

Record Metrics := { avgSalesRank : option Z; metrics_salesRankDrops90 : Z }.

Definition getSalesRankMetrics (raw : KeepaProductRaw.t) : Metrics :=
  match stats raw with
  | None => {| avgSalesRank := None; metrics_salesRankDrops90 := 0 |}
  | Some s =>
      let drops := match stats_salesRankDrops90 s with Some d => d | None => 0 end in
      let from180 :=
        match avg s with Some a => positiveAt a STATS.SALES_RANK | None => None end in
      let from90 :=
        match avg90 s with Some a => positiveAt a STATS.SALES_RANK | None => None end in
      {| avgSalesRank := match from180 with Some r => Some r | None => from90 end;
         metrics_salesRankDrops90 := drops |}
  end.

Definition gramsPerPound : Q := 453592 # 1000.

Definition getWeightInPounds (raw : KeepaProductRaw.t) : option Q :=
  match itemWeight raw with
  | Some w => if 0 <? w then Some (inject_Z w / gramsPerPound)%Q else
      match packageWeight raw with
      | Some w' => if 0 <? w' then Some (inject_Z w' / gramsPerPound)%Q else None
      | None => None
      end
  | None =>
      match packageWeight raw with
      | Some w' => if 0 <? w' then Some (inject_Z w' / gramsPerPound)%Q else None
      | None => None
      end
  end.

Definition calculateFBAProfit (buyPrice sellPrice : Q) : Q :=
  let referralFee := (sellPrice * FEES.REFERRAL_FEE_PERCENT)%Q in
  let totalFees := (referralFee + FEES.CLOSING_FEE + FEES.FBA_FULFILLMENT_FEE)%Q in
  (sellPrice - buyPrice - totalFees)%Q.

Definition calculateFBMProfit (buyPrice sellPrice : Q) : Q :=
  let referralFee := (sellPrice * FEES.REFERRAL_FEE_PERCENT)%Q in
  let totalFees := (referralFee + FEES.CLOSING_FEE + FEES.FBM_SHIPPING_COST)%Q in
  (sellPrice - buyPrice - totalFees)%Q.

(** ** Decision logic *)

(** JS truthiness of a nullable number: present and not zero *)
Definition truthy (a : option Q) : bool :=
  match a with Some q => negb (Qeq_bool q 0) | None => false end.

(** [a || b] *)
Definition orElse (a b : option Q) : option Q := if truthy a then a else b.

(** [Math.min] *)
Definition Qmin (a b : Q) : Q := if Qle_bool a b then a else b.

(** "Determine the sell price to use": the realistic price of the stockout
    analysis, else the smaller of the 180-day average and the current price. *)
Definition sellPriceOf (prices : AmazonPrices) (amazonAnalysis : AmazonPresence.t) : option Q :=
  if truthy (realisticPrice amazonAnalysis) then realisticPrice amazonAnalysis
  else
    let avgPrice :=
      orElse (fba (avg180 prices)) (orElse (newFBM (avg180 prices)) (used (avg180 prices))) in
    let currentPrice :=
      orElse (fba (current prices)) (orElse (newFBM (current prices)) (used (current prices))) in
    match avgPrice, currentPrice with
    | Some a, Some c =>
        if truthy avgPrice && truthy currentPrice then Some (Qmin a c)
        else orElse avgPrice currentPrice
    | _, _ => orElse avgPrice currentPrice
    end.

Section Evaluate.

(** [Number.prototype.toFixed] and [Number.prototype.toLocaleString] are
    built-ins of the host; the engine only splices their output into the
    reason text. *)
Variable toFixed : jsnum -> nat -> string.
Variable toLocaleString : Z -> string.

Import EvaluationResult.

Local Infix "+++" := String.append (right associativity, at level 60).
Local Open Scope string_scope.
Local Open Scope list_scope.
Local Open Scope Z_scope.

Definition withReason (r : EvaluationResult.t) (d : Decision) (why : string) : EvaluationResult.t :=
  {| decision := d; reason := why;
     amazonPrice := amazonPrice r; fbaProfit := fbaProfit r; fbmProfit := fbmProfit r;
     salesRank := salesRank r; salesRankDrops90 := salesRankDrops90 r;
     asin := asin r; amazonFlag := amazonFlag r; weightLbs := weightLbs r;
     binding := binding r; multiplier := multiplier r |}.

(** [failedCriteria.join(', ')] *)
Definition join (parts : list string) : string := String.concat ", " parts.

Definition evaluateBook (now : Z) (raw : KeepaProductRaw.t) (buyPriceDollars : Q)
  : EvaluationResult.t :=
  let metrics := getSalesRankMetrics raw in
  let result :=
    {| decision := REJECT; reason := "";
       amazonPrice := None; fbaProfit := None; fbmProfit := None;
       salesRank := avgSalesRank metrics;
       salesRankDrops90 := metrics_salesRankDrops90 metrics;
       asin := KeepaProductRaw.asin raw; amazonFlag := None;
       weightLbs := getWeightInPounds raw;
       binding := match KeepaProductRaw.binding raw with
                  | Some b => if String.eqb b "" then None else Some b
                  | None => None
                  end;
       multiplier := None |} in
  let drops := metrics_salesRankDrops90 metrics in
  match avgSalesRank metrics with
  | None => withReason result REJECT "Unknown sales rank"
  | Some rank =>
    if rank =? 0 then withReason result REJECT "Unknown sales rank"
    else if DECISION.KNOCKOUT.MAX_SALES_RANK <? rank then
      withReason result REJECT ("Rank " +++ toLocaleString rank +++ " > 3M")
    else
      let prices := getAmazonPrices raw in
      let amazonAnalysis := analyzeAmazonPresence now raw in
      let flag := AmazonPresence.amazonFlag amazonAnalysis in
      let sell := sellPriceOf prices amazonAnalysis in
      let noPrice :=
        {| decision := REJECT; reason := "No Amazon price data";
           amazonPrice := None; fbaProfit := None; fbmProfit := None;
           salesRank := salesRank result; salesRankDrops90 := drops;
           asin := asin result; amazonFlag := flag; weightLbs := weightLbs result;
           binding := binding result; multiplier := None |} in
      match sell with
      | None => noPrice
      | Some price =>
        if negb (truthy sell) then noPrice
        else
          let m := jsdiv price buyPriceDollars in
          let mx := toFixed m 1 in
          let reviewX := ZToString (Qnum DECISION.REVIEW.MULTIPLIER) in
          let priced (d : Decision) (why : string) (profits : bool) :=
            {| decision := d; reason := why;
               amazonPrice := Some price;
               fbaProfit :=
                 if profits then Some (calculateFBAProfit buyPriceDollars price) else None;
               fbmProfit :=
                 if profits then Some (calculateFBMProfit buyPriceDollars price) else None;
               salesRank := salesRank result; salesRankDrops90 := drops;
               asin := asin result; amazonFlag := flag; weightLbs := weightLbs result;
               binding := binding result; multiplier := Some m |} in
          if jslt m (Fin DECISION.REVIEW.MULTIPLIER) then
            priced REJECT ("Multiplier " +++ mx +++ "x < " +++ reviewX +++ "x") false
          else if drops =? 0 then
            priced REJECT "No sales in 90 days (drops90 = 0)" true
          else
            let fbm := calculateFBMProfit buyPriceDollars price in
            let buyMaxRank :=
              if Qlt_bool buyPriceDollars DECISION.BUY.CHEAP_PRICE_THRESHOLD
              then DECISION.BUY.MAX_SALES_RANK_CHEAP
              else DECISION.BUY.MAX_SALES_RANK in
            let meetsBuy :=
              jsge m (Fin DECISION.BUY.MULTIPLIER) &&
              (rank <? buyMaxRank) &&
              (DECISION.BUY.MIN_DROPS_90 <=? drops) in
            let meetsReview :=
              jsge m (Fin DECISION.REVIEW.MULTIPLIER) &&
              (rank <? DECISION.REVIEW.MAX_SALES_RANK) &&
              (DECISION.REVIEW.MIN_DROPS_90 <=? drops) in
            let isHighProfit :=
              Qle_bool DECISION.BUY.HIGH_PROFIT_MIN_FBM fbm &&
              (rank <? DECISION.BUY.HIGH_PROFIT_MAX_RANK) &&
              (DECISION.BUY.HIGH_PROFIT_MIN_DROPS <=? drops) in
            let metricsStr :=
              mx +++ "x | Rank: " +++ toLocaleString rank +++ " | Drops: " +++ ZToString drops in
            if meetsBuy || isHighProfit then
              priced BUY
                (if isHighProfit
                 then metricsStr +++ " | HIGH_PROFIT FBM $" +++ toFixed (Fin fbm) 0
                 else metricsStr)
                true
            else if meetsReview then priced REVIEW metricsStr true
            else
              let failedCriteria :=
                (if jslt m (Fin DECISION.REVIEW.MULTIPLIER)
                 then [mx +++ "x < " +++ reviewX +++ "x"] else []) ++
                (if DECISION.REVIEW.MAX_SALES_RANK <=? rank
                 then ["rank " +++ toLocaleString rank +++ " > 2.5M"] else []) ++
                (if drops <? DECISION.REVIEW.MIN_DROPS_90
                 then ["drops " +++ ZToString drops +++ " < "
                       +++ ZToString DECISION.REVIEW.MIN_DROPS_90] else []) in
              let joined := join failedCriteria in
              priced REJECT (if String.eqb joined "" then metricsStr else joined) true
      end
  end.

End Evaluate.

(** ** Notions the properties are stated with *)

(** The normal form of a 10-character identifier: separators stripped and
    the check character upper-cased. *)
Definition normalForm10 (isbn : jsstr) : jsstr :=
  let clean := stripSeparators isbn in
  firstn 9 clean ++ map toUpperCase (skipn 9 clean).

(** A well-formed history: whole (time, value) pairs, times non-decreasing. *)
Fixpoint chronological (series : list Z) : bool :=
  match series with
  | [] => true
  | t :: _ :: rest =>
      match rest with
      | t' :: _ => (t <=? t') && chronological rest
      | [] => true
      end
  | [_] => false
  end.

(** [clamp lo hi x]: [x] brought into [[lo, hi]] *)
Definition clamp (lo hi x : Z) : Z := Z.min (Z.max x lo) hi.

(** The observed duration (milliseconds) of a history inside the trailing
    90-day window: the stretch of the window from the first sample on. *)
Definition observedMs (now : Z) (series : option (list Z)) : Z :=
  match series with
  | Some (t :: _ :: _) => now - clamp (cutoff90Days now) now (keepaTime t)
  | _ => 0
  end.

(** The value a history reports at the instant [tau] (milliseconds): that of
    the latest sample stamped at or before [tau]; [held] is the value in
    force before the first sample of [series]. *)
Fixpoint valueAt (series : list Z) (tau : Z) (held : option Z) : option Z :=
  match series with
  | t :: v :: rest => valueAt rest tau (if keepaTime t <=? tau then Some v else held)
  | _ => held
  end.

(** The channel never reports the out-of-stock sentinel inside the trailing window. *)
Definition neverOutOfStock (now : Z) (series : list Z) : Prop :=
  forall tau, cutoff90Days now <= tau < now -> valueAt series tau None <> Some (-1).

(** The single best available price of one row of the price table:
    FBA first, then third-party new, then used. *)
Definition bestAvailable (p : PriceTriple) : option Q :=
  match fba p with
  | Some a => Some a
  | None => match newFBM p with Some b => Some b | None => used p end
  end.

(** The price [evaluateBook] calls [amazonPrice] before its null test. *)
Definition sellPrice (now : Z) (raw : KeepaProductRaw.t) : option Q :=
  sellPriceOf (getAmazonPrices raw) (analyzeAmazonPresence now raw).


(** The tier reached once no knockout has fired. *)
Definition tierOf (buy : Q) (rank drops : Z) (price : Q) : Decision :=
  let m := jsdiv price buy in
  let buyMaxRank :=
    if Qlt_bool buy DECISION.BUY.CHEAP_PRICE_THRESHOLD
    then DECISION.BUY.MAX_SALES_RANK_CHEAP else DECISION.BUY.MAX_SALES_RANK in
  let meetsBuy :=
    jsge m (Fin DECISION.BUY.MULTIPLIER) && (rank <? buyMaxRank)
    && (DECISION.BUY.MIN_DROPS_90 <=? drops) in
  let isHighProfit :=
    Qle_bool DECISION.BUY.HIGH_PROFIT_MIN_FBM (calculateFBMProfit buy price)
    && (rank <? DECISION.BUY.HIGH_PROFIT_MAX_RANK)
    && (DECISION.BUY.HIGH_PROFIT_MIN_DROPS <=? drops) in
  let meetsReview :=
    jsge m (Fin DECISION.REVIEW.MULTIPLIER) && (rank <? DECISION.REVIEW.MAX_SALES_RANK)
    && (DECISION.REVIEW.MIN_DROPS_90 <=? drops) in
  if meetsBuy || isHighProfit then BUY else if meetsReview then REVIEW else REJECT.

(** The run ends before a sell price is settled: unknown rank, rank above
    the cap, or no usable price. *)
Definition unpriced (now : Z) (raw : KeepaProductRaw.t) : Prop :=
  match avgSalesRank (getSalesRankMetrics raw) with
  | None => True
  | Some rank =>
      rank = 0 \/ DECISION.KNOCKOUT.MAX_SALES_RANK < rank \/ truthy (sellPrice now raw) = false
  end.

(** The run settles on the sell price [price] for a book of rank [rank]. *)
Definition pricedAt (now : Z) (raw : KeepaProductRaw.t) (rank : Z) (price : Q) : Prop :=
  avgSalesRank (getSalesRankMetrics raw) = Some rank /\
  rank <> 0 /\ rank <= DECISION.KNOCKOUT.MAX_SALES_RANK /\
  sellPrice now raw = Some price /\ truthy (Some price) = true.

(** The fallback of the sell price in words: the smaller of the best
    180-day average and the best current price when both exist, else the one
    that exists. *)
Definition fallbackPrice (prices : AmazonPrices) : option Q :=
  match bestAvailable (avg180 prices), bestAvailable (current prices) with
  | Some a, Some c => Some (Qmin a c)
  | Some a, None => Some a
  | None, c => c
  end.

(** Every price of a row is usable when present. *)
Definition usableRow (p : PriceTriple) : Prop :=
  forall q, fba p = Some q \/ newFBM p = Some q \/ used p = Some q -> truthy (Some q) = true.

(** The accumulators make sense: the stockout time is part of the total
    time, and buy-box prices are only collected along with stockout time. *)
Definition sound (st : Walk) : Prop :=
  (0 <= stockoutPeriods st)%Q /\ (stockoutPeriods st <= totalPeriods st)%Q /\
  (buyBoxWhenAmazonOut st <> [] -> (0 < stockoutPeriods st)%Q).

(** The number of whole (time, value) samples of a history. *)
Definition sampleCount (series : option (list Z)) : nat :=
  match series with Some l => (List.length l / 2)%nat | None => 0%nat end.

(** The empty analysis. *)
Definition noPresence : AmazonPresence.t :=
  {| stockoutPercent := None; realisticPrice := None; amazonFlag := None |}.

(** ** Sample snapshots *)

(** A snapshot with the given histories and 180-day averages and no weight
    or binding. *)
Definition snapshot (histories : list (option (list Z))) (averages : list Z) (drops : Z)
  : KeepaProductRaw.t :=
  {| asin := "B000000000";
     csv := Some histories;
     stats := Some {| avg := Some averages; avg90 := None;
                      stats_salesRankDrops90 := Some drops |};
     binding := None; packageWeight := None; itemWeight := None |}.

(** Histories with only the channels AMAZON, NEW and NEW_FBA filled in. *)
Definition histories (amazon new newFba : option (list Z)) : list (option (list Z)) :=
  [amazon; new; None; None; None; None; None; None; None; None; newFba].

(** Host formatting that prints nothing but a mark. *)
Definition markFixed (x : jsnum) (digits : nat) : string := "#".
Definition markLocale (z : Z) : string := "#".

(** An evaluation instant: 8,000,000 minutes after the Keepa epoch. *)
Definition someday : Z := keepaTime 8000000.

(** A book ranked [rank] with [drops] drops whose only price is a current
    FBA offer of [cents]. *)
Definition fbaOffer (cents rank drops : Z) : KeepaProductRaw.t :=
  snapshot (histories None None (Some [7999000; cents])) [-1; -1; -1; rank] drops.

(** A current FBA offer of $30 and only a third-party-new 180-day average, $20. *)
Definition fbaTodayNewOnAverage : KeepaProductRaw.t :=
  snapshot (histories None None (Some [7999000; 3000])) [-1; 2000; -1; 900000] 5.

(** A current third-party-new offer of $20 and only an FBA 180-day average, $30. *)
Definition newTodayFbaOnAverage : KeepaProductRaw.t :=
  snapshot (histories None (Some [7999000; 2000]) None)
    [-1; -1; -1; 900000; -1; -1; -1; -1; -1; -1; 3000] 5.

(** A first-party history out of stock between minutes 7,950,000 and
    7,990,000, inside the window of [someday]. *)
Definition outOfStockLately : KeepaProductRaw.t :=
  snapshot (histories (Some [7900000; 1500; 7950000; -1; 7990000; 1600]) (Some [10; 1800]) None)
    [-1; -1; -1; 900000] 5.

(** A first-party history whose only out-of-stock stretch, minutes 7,800,000
    to 7,850,000, ended before the window of [someday] opened. *)
Definition outOfStockLongAgo : KeepaProductRaw.t :=
  snapshot (histories (Some [7800000; -1; 7850000; 1500; 7990000; 1600]) (Some [10; 1800]) None)
    [-1; -1; -1; 900000] 5.

(** A first-party history of a single sample. *)
Definition oneSample : KeepaProductRaw.t :=
  snapshot (histories (Some [7900000; 1500]) (Some [10; 1800]) None) [-1; -1; -1; 900000] 5.

(** ** The crawler's ISBN checks and ISBN extraction ([ebayApi.ts]) *)

(** The loop of [isValidIsbn10] over the first nine characters: it leaves
    with [false] ([None] here) at the first character that is no digit. *)
Fixpoint isbn10Digits (isbn : jsstr) (indices : list nat) (sum : Z) : option Z :=
  match indices with
  | [] => Some sum
  | i :: rest =>
      match charAt isbn i with
      | Some c =>
          if isDigit c then isbn10Digits isbn rest (sum + (code c - 48) * weight10 i)
          else None
      | None => None
      end
  end.

Definition isValidIsbn10 (isbn : jsstr) : bool :=
  if negb (List.length isbn =? 10)%nat then false
  else
    match isbn10Digits isbn (seq 0 9) 0, charAt isbn 9 with
    | Some sum, Some c9 =>
        let last := toUpperCase c9 in
        let total :=
          if isX last then Some (sum + 10)
          else option_map (fun d => sum + d) (parseInt10 (Some last)) in
        match total with
        | Some t => Z.rem t 11 =? 0
        | None => false
        end
    | _, _ => false
    end.

Definition isValidIsbn (isbn : jsstr) : bool := isValidIsbn10 isbn || isValidIsbn13 isbn.

(** [c.toLowerCase()] on one code unit below 256 *)
Definition toLowerCase (c : ascii) : ascii :=
  if ((65 <=? code c) && (code c <=? 90))
     || ((192 <=? code c) && (code c <=? 222) && negb (code c =? 215))
  then ascii_of_nat (nat_of_ascii c + 32) else c.

(** [s.includes(p)] *)
Fixpoint includes (p s : jsstr) : bool :=
  startsWith p s || match s with [] => false | _ :: s' => includes p s' end.

Record Aspect := { aspect_name : jsstr; aspect_value : jsstr }.

(** The fields of an eBay item that [extractISBN] reads. *)
Record EbayItem := {
  item_isbn : option (list jsstr);
  item_gtin : option jsstr;
  localizedAspects : option (list Aspect)
}.

(** [const clean = v.replace(/[-\s]/g, ''); if (isValidIsbn(clean)) return clean;] *)
Definition validated (v : jsstr) : option jsstr :=
  let clean := stripSeparators v in
  if isValidIsbn clean then Some clean else None.

Definition extractISBN (item : EbayItem) : option jsstr :=
  let strategy1 :=
    match item_isbn item with
    | Some (first :: _) => validated first
    | _ => None
    end in
  match strategy1 with
  | Some isbn => Some isbn
  | None =>
    let strategy2 :=
      match item_gtin item with
      | Some gtin => match gtin with [] => None | _ => validated gtin end
      | None => None
      end in
    match strategy2 with
    | Some isbn => Some isbn
    | None =>
      match localizedAspects item with
      | Some aspects =>
          match find (fun a => includes (str "isbn") (map toLowerCase (aspect_name a))) aspects with
          | Some isbnAspect => validated (aspect_value isbnAspect)
          | None => None
          end
      | None => None
      end
    end
  end.

(** [s] with the character at index [i] replaced by [c] *)
Fixpoint replaceAt (i : nat) (c : ascii) (s : jsstr) : jsstr :=
  match s, i with
  | [], _ => []
  | _ :: s', O => c :: s'
  | x :: s', S i' => x :: replaceAt i' c s'
  end.

(** The value of the check character of a 10-character identifier *)
Definition checkValue (c : ascii) : Z := if isX (toUpperCase c) then 10 else code c - 48.

(** ** Notions for the further properties of the analysis *)

(** Every sample of a history carries the out-of-stock sentinel. *)
Fixpoint alwaysOut (series : list Z) : bool :=
  match series with
  | _ :: v :: rest => (v =? -1) && alwaysOut rest
  | _ => true
  end.

(** The six entries of a price table *)
Definition priceEntries (p : AmazonPrices) : list (option Q) :=
  [fba (current p); newFBM (current p); used (current p);
   fba (avg180 p); newFBM (avg180 p); used (avg180 p)].

(** A first-party history that is out of stock throughout. *)
Definition neverInStock : KeepaProductRaw.t :=
  snapshot (histories (Some [7900000; -1; 7950000; -1]) (Some [10; 1800]) None)
    [-1; -1; -1; 900000] 5.

(** The order of the decisions: REJECT below REVIEW below BUY *)
Definition decisionRank (d : Decision) : Z :=
  match d with REJECT => 0 | REVIEW => 1 | BUY => 2 end.

(** ** The evaluation loop ([fetcher/src/evaluate.ts])

    [evaluatePendingBooks] walks the pending books one after the other,
    awaiting Keepa and the database in turn.  Its collaborators' answers are
    inputs of the embedding: each pending book comes with what
    [getProductByIsbn] resolves to for it and with the clock reading of its
    evaluation.  The writes of [updateBookEvaluation] are collected in
    order; console output is left out. *)

Record PendingBook := { book_isbn : string; book_price : Z; book_shipping : Z }.

(** The fields handed to [updateBookEvaluation]; [undefined] is [None]. *)
Module BookUpdate.
Record t := {
  decision : Decision;
  asin : option string;
  amazon_price : option Z;
  sales_rank : option Z;
  sales_rank_drops_90 : option Z;
  fba_profit : option Z;
  fbm_profit : option Z;
  amazon_flag : option Flag;
  book_type : option string;
  weight_oz : option Q
}.
End BookUpdate.

Module Tally.
Record t := { evaluated : Z; buy : Z; review : Z; reject : Z; noData : Z }.
End Tally.

Record Job := {
  job_book : PendingBook;
  job_keepa : option KeepaProductRaw.t;
  job_clock : Z
}.

Definition noDataUpdate : BookUpdate.t :=
  {| BookUpdate.decision := REJECT; BookUpdate.asin := None;
     BookUpdate.amazon_price := None; BookUpdate.sales_rank := None;
     BookUpdate.sales_rank_drops_90 := None; BookUpdate.fba_profit := None;
     BookUpdate.fbm_profit := None; BookUpdate.amazon_flag := None;
     BookUpdate.book_type := None; BookUpdate.weight_oz := None |}.

(** "Convert dollars to cents for DB storage" *)
Definition toCents (dollars : option Q) : option Z :=
  option_map (fun d => mathRound (d * 100)) dollars.

Definition updateOfResult (result : EvaluationResult.t) : BookUpdate.t :=
  {| BookUpdate.decision := EvaluationResult.decision result;
     BookUpdate.asin := Some (EvaluationResult.asin result);
     BookUpdate.amazon_price := toCents (EvaluationResult.amazonPrice result);
     BookUpdate.sales_rank := EvaluationResult.salesRank result;
     BookUpdate.sales_rank_drops_90 := Some (EvaluationResult.salesRankDrops90 result);
     BookUpdate.fba_profit := toCents (EvaluationResult.fbaProfit result);
     BookUpdate.fbm_profit := toCents (EvaluationResult.fbmProfit result);
     BookUpdate.amazon_flag := EvaluationResult.amazonFlag result;
     BookUpdate.book_type := EvaluationResult.binding result;
     BookUpdate.weight_oz :=
       option_map (fun w => (inject_Z (mathRound (w * 16 * 10)) / 10)%Q)
                  (EvaluationResult.weightLbs result) |}.

Section EvaluateLoop.

Variable toFixed : jsnum -> nat -> string.
Variable toLocaleString : Z -> string.

(** "Buy price in dollars (price + shipping are stored in cents)" *)
Definition buyPriceDollars (book : PendingBook) : Q :=
  (inject_Z (book_price book + book_shipping book) / 100)%Q.

Definition LoopState : Type := Tally.t * list (string * BookUpdate.t).

(** One turn of the [for (const book of pending)] loop. *)
Definition evaluateNext (st : LoopState) (job : Job) : LoopState :=
  let '(n, writes) := st in
  let book := job_book job in
  match job_keepa job with
  | None =>
      ({| Tally.evaluated := Tally.evaluated n + 1; Tally.buy := Tally.buy n;
          Tally.review := Tally.review n; Tally.reject := Tally.reject n;
          Tally.noData := Tally.noData n + 1 |},
       writes ++ [(book_isbn book, noDataUpdate)])
  | Some raw =>
      let result :=
        evaluateBook toFixed toLocaleString (job_clock job) raw (buyPriceDollars book) in
      let n' :=
        match EvaluationResult.decision result with
        | BUY =>
            {| Tally.evaluated := Tally.evaluated n + 1; Tally.buy := Tally.buy n + 1;
               Tally.review := Tally.review n; Tally.reject := Tally.reject n;
               Tally.noData := Tally.noData n |}
        | REVIEW =>
            {| Tally.evaluated := Tally.evaluated n + 1; Tally.buy := Tally.buy n;
               Tally.review := Tally.review n + 1; Tally.reject := Tally.reject n;
               Tally.noData := Tally.noData n |}
        | REJECT =>
            {| Tally.evaluated := Tally.evaluated n + 1; Tally.buy := Tally.buy n;
               Tally.review := Tally.review n; Tally.reject := Tally.reject n + 1;
               Tally.noData := Tally.noData n |}
        end in
      (n', writes ++ [(book_isbn book, updateOfResult result)])
  end.

Definition evaluatePendingBooks (pending : list Job) : LoopState :=
  fold_left evaluateNext pending
    ({| Tally.evaluated := 0; Tally.buy := 0; Tally.review := 0; Tally.reject := 0;
        Tally.noData := 0 |}, []).

(** What the loop is expected to write for one pending book. *)
Definition writeFor (job : Job) : string * BookUpdate.t :=
  (book_isbn (job_book job),
   match job_keepa job with
   | None => noDataUpdate
   | Some raw =>
       updateOfResult
         (evaluateBook toFixed toLocaleString (job_clock job) raw
            (buyPriceDollars (job_book job)))
   end).

End EvaluateLoop.

(** The number of writes that carry decision [d]. *)
Definition decisionEqb (a b : Decision) : bool :=
  match a, b with
  | BUY, BUY | REVIEW, REVIEW | REJECT, REJECT => true
  | _, _ => false
  end.

Definition written (d : Decision) (writes : list (string * BookUpdate.t)) : Z :=
  Z.of_nat (List.length
    (filter (fun w => decisionEqb (BookUpdate.decision (snd w)) d) writes)).

(** The number of pending books Keepa has no product for. *)
Definition unanswered (pending : list Job) : Z :=
  Z.of_nat (List.length
    (filter (fun j => match job_keepa j with None => true | Some _ => false end) pending)).

(** Two pending books, the first unknown to Keepa. *)
Definition twoJobs : list Job :=
  [ {| job_book := {| book_isbn := "9780306406157"; book_price := 400; book_shipping := 100 |};
       job_keepa := None; job_clock := someday |};
    {| job_book := {| book_isbn := "9780131103627"; book_price := 400; book_shipping := 100 |};
       job_keepa := Some (fbaOffer 3500 900000 5); job_clock := someday |} ].

(** ** The stand-alone script ([src/app/api/books/save/route.ts])

    The script carries its own copy of the decision, in cents: the price is
    the cheaper of the current and the 180-day figure of the first channel
    that has one, and the rank may be unknown. *)

Module Script.

Module CONFIG.
Module BUY.
Definition MULTIPLIER : Q := 6.
Definition MAX_SALES_RANK : Z := 1500000.
Definition MIN_DROPS_90 : Z := 3.
Definition HIGH_BUY_PRICE_THRESHOLD : Z := 3000.
Definition HIGH_BUY_PRICE_MIN_MULT : Q := 3.
Definition HIGH_BUY_PRICE_MAX_RANK : Z := 1000000.
Definition HIGH_BUY_PRICE_MIN_DROPS : Z := 10.
Definition HIGH_PROFIT_THRESHOLD : Z := 10000.
Definition HIGH_PROFIT_MAX_RANK : Z := 1000000.
Definition HIGH_PROFIT_MIN_DROPS : Z := 10.
End BUY.
Module REVIEW.
Definition MULTIPLIER : Q := 4.
Definition MAX_SALES_RANK : Z := 2500000.
Definition MIN_DROPS_90 : Z := 2.
End REVIEW.
Definition REFERRAL_FEE_PERCENT : Q := 15 # 100.
Definition CLOSING_FEE : Z := 180.
Definition FBA_FULFILLMENT_FEE : Z := 350.
Definition FBM_SHIPPING_COST : Z := 400.
End CONFIG.

Record Stats := {
  stats_avg180 : option (list Z);
  stats_avg90 : option (list Z);
  stats_current : option (list Z);
  salesRankDrops90 : option Z
}.

Record Product := {
  product_csv : option (list (option (list Z)));
  product_stats : option Stats
}.

(** [csv[i]] when [csv] is set *)
Definition history (product : Product) (i : nat) : option (list Z) :=
  match product_csv product with
  | Some c => match nth_error c i with Some (Some l) => Some l | _ => None end
  | None => None
  end.

(** [currentPrices]: the last entry of a history of two entries or more,
    when positive *)
Definition currentPrice (product : Product) (i : nat) : option Z :=
  match history product i with
  | Some l =>
      if (2 <=? List.length l)%nat then
        let lastPrice := last l 0 in
        if 0 <? lastPrice then Some lastPrice else None
      else None
  | None => None
  end.

(** [avgPrices] *)
Definition avgPrice (product : Product) (i : nat) : option Z :=
  match product_stats product with
  | Some s => match stats_avg180 s with Some a => positiveAt a i | None => None end
  | None => None
  end.

(** [if (current && avg) Math.min(current, avg) else current || avg] *)
Definition finalPrice (current avg : option Z) : option Z :=
  match current, avg with
  | Some c, Some a =>
      if negb (c =? 0) && negb (a =? 0) then Some (Z.min c a)
      else if negb (c =? 0) then current else avg
  | Some c, None => if negb (c =? 0) then current else avg
  | None, _ => avg
  end.

(** [a || b] on prices *)
Definition orPrice (a b : option Z) : option Z :=
  match a with
  | Some v => if v =? 0 then b else a
  | None => b
  end.

Definition getKeepaPrice (product : Product) : option Z :=
  let final (i : nat) := finalPrice (currentPrice product i) (avgPrice product i) in
  orPrice (final 10%nat) (orPrice (final 1%nat) (final 2%nat)).

Definition getSalesRankDrops90 (product : Product) : Z :=
  match product_stats product with
  | Some s => match salesRankDrops90 s with Some d => d | None => 0 end
  | None => 0
  end.

Definition getSalesRank (product : Product) : option Z :=
  let avg := match product_stats product with Some s => stats_avg90 s | None => None end in
  let current := match product_stats product with Some s => stats_current s | None => None end in
  match match avg with Some a => positiveAt a 3 | None => None end with
  | Some r => Some r
  | None => match current with Some c => positiveAt c 3 | None => None end
  end.

Module Verdict.
Record t := {
  decision : Decision;
  reason : string;
  fba_profit : option Z;
  fbm_profit : option Z;
  multiplier : option jsnum
}.
End Verdict.

(** [!salesRank || salesRank < limit] *)
Definition rankBelow (salesRank : option Z) (limit : Z) : bool :=
  match salesRank with
  | Some r => (r =? 0) || (r <? limit)
  | None => true
  end.

Section Decide.

Variable toFixed : jsnum -> nat -> string.
Variable toLocaleString : Z -> string.

Local Infix "+++" := String.append (right associativity, at level 60).
Local Open Scope string_scope.
Local Open Scope Z_scope.

(** Prices are in cents: [buyPrice] is the stored price of the listing,
    [amazonPrice] what [getKeepaPrice] found. *)
Definition makeDecision (buyPrice : Z) (amazonPrice salesRank : option Z)
  (salesRankDrops90 : Z) : Verdict.t :=
  let noPrice :=
    {| Verdict.decision := REJECT; Verdict.reason := "No Amazon price";
       Verdict.fba_profit := None; Verdict.fbm_profit := None;
       Verdict.multiplier := None |} in
  match amazonPrice with
  | None => noPrice
  | Some price =>
    if price =? 0 then noPrice
    else
      let multiplier := jsdiv (inject_Z price) (inject_Z buyPrice) in
      let referralFee := mathRound (inject_Z price * CONFIG.REFERRAL_FEE_PERCENT) in
      let fbaProfit :=
        price - buyPrice - referralFee - CONFIG.CLOSING_FEE - CONFIG.FBA_FULFILLMENT_FEE in
      let fbmProfit :=
        price - buyPrice - referralFee - CONFIG.CLOSING_FEE - CONFIG.FBM_SHIPPING_COST in
      let profit := Z.max fbaProfit fbmProfit in
      let verdict (d : Decision) (why : string) :=
        {| Verdict.decision := d; Verdict.reason := why;
           Verdict.fba_profit := Some fbaProfit; Verdict.fbm_profit := Some fbmProfit;
           Verdict.multiplier := Some multiplier |} in
      let rankStr :=
        match salesRank with
        | Some r => if String.eqb (toLocaleString r) "" then "N/A" else toLocaleString r
        | None => "N/A"
        end in
      let metricsStr :=
        toFixed multiplier 1 +++ "x | Rank: " +++ rankStr +++ " | Drops: "
        +++ ZToString salesRankDrops90 +++ " | Profit: $"
        +++ toFixed (Fin (inject_Z profit / 100)) 0 in
      let rankKnockout :=
        match salesRank with
        | Some r => negb (r =? 0) && (3000000 <? r)
        | None => false
        end in
      if rankKnockout then
        verdict REJECT
          ("Rank " +++ match salesRank with Some r => toLocaleString r | None => "" end
           +++ " > 3M")
      else if jslt multiplier (Fin CONFIG.REVIEW.MULTIPLIER) then
        verdict REJECT (toFixed multiplier 1 +++ "x < 4x")
      else if salesRankDrops90 =? 0 then
        verdict REJECT "No sales (drops90 = 0)"
      else
        let meetsNormalBuy :=
          jsge multiplier (Fin CONFIG.BUY.MULTIPLIER) &&
          rankBelow salesRank CONFIG.BUY.MAX_SALES_RANK &&
          (CONFIG.BUY.MIN_DROPS_90 <=? salesRankDrops90) in
        let meetsHighBuyPrice :=
          (CONFIG.BUY.HIGH_BUY_PRICE_THRESHOLD <=? buyPrice) &&
          jsge multiplier (Fin CONFIG.BUY.HIGH_BUY_PRICE_MIN_MULT) &&
          rankBelow salesRank CONFIG.BUY.HIGH_BUY_PRICE_MAX_RANK &&
          (CONFIG.BUY.HIGH_BUY_PRICE_MIN_DROPS <=? salesRankDrops90) in
        let meetsHighProfit :=
          (CONFIG.BUY.HIGH_PROFIT_THRESHOLD <=? profit) &&
          rankBelow salesRank CONFIG.BUY.HIGH_PROFIT_MAX_RANK &&
          (CONFIG.BUY.HIGH_PROFIT_MIN_DROPS <=? salesRankDrops90) in
        let meetsReview :=
          jsge multiplier (Fin CONFIG.REVIEW.MULTIPLIER) &&
          rankBelow salesRank CONFIG.REVIEW.MAX_SALES_RANK &&
          (CONFIG.REVIEW.MIN_DROPS_90 <=? salesRankDrops90) in
        if meetsNormalBuy then verdict BUY metricsStr
        else if meetsHighBuyPrice then verdict BUY ("HIGH BUY PRICE | " +++ metricsStr)
        else if meetsHighProfit then verdict BUY ("HIGH PROFIT | " +++ metricsStr)
        else if meetsReview then verdict REVIEW metricsStr
        else verdict REJECT metricsStr
  end.

(** The evaluation of one Keepa product in [evaluateBooks]. *)
Definition decide (buyPrice : Z) (product : Product) : Verdict.t :=
  makeDecision buyPrice (getKeepaPrice product) (getSalesRank product)
    (getSalesRankDrops90 product).

End Decide.

(** A product whose only figures are a current FBA offer of [cents] and
    [drops] rank drops: no rank is known. *)
Definition unranked (cents drops : Z) : Product :=
  {| product_csv :=
       Some [None; None; None; None; None; None; None; None; None; None;
             Some [7999000; cents]];
     product_stats :=
       Some {| stats_avg180 := None; stats_avg90 := None; stats_current := None;
               salesRankDrops90 := Some drops |} |}.

End Script.
(** * Properties *)

(** ** Characters *)

Ltac each_ascii c := destruct c as [[] [] [] [] [] [] [] []].

Lemma isDigit_code (c : ascii) : isDigit c = true -> 0 <= code c - 48 <= 9.
Proof. unfold isDigit. intros H. apply andb_prop in H. lia. Qed.

Lemma isDigit_digitChar (c : ascii) : isDigit c = true -> c = digitChar (code c - 48).
Proof.
  intros H. unfold digitChar, code.
  replace (Z.of_nat (nat_of_ascii c) - 48 + 48) with (Z.of_nat (nat_of_ascii c)) by lia.
  now rewrite Nat2Z.id, ascii_nat_embedding.
Qed.

Lemma isDigit_not_separator (c : ascii) : isDigit c = true -> isSeparator c = false.
Proof. each_ascii c; vm_compute; intros H; try discriminate H; reflexivity. Qed.

Lemma isDigit_toUpperCase (c : ascii) : isDigit c = true -> toUpperCase c = c.
Proof.
  unfold isDigit, toUpperCase. intros H. apply andb_prop in H.
  destruct H as [_ H2]. apply Z.leb_le in H2.
  replace (97 <=? code c) with false; [reflexivity|].
  symmetry. apply Z.leb_gt. lia.
Qed.

Lemma isX_toUpperCase (c : ascii) :
  isX (toUpperCase c) = true -> toUpperCase c = "X"%char /\ isDigit c = false.
Proof. each_ascii c; vm_compute; intros H; try discriminate H; split; reflexivity. Qed.

Lemma digit_cases (k : Z) :
  0 <= k <= 9 ->
  k = 0 \/ k = 1 \/ k = 2 \/ k = 3 \/ k = 4 \/ k = 5 \/ k = 6 \/ k = 7 \/ k = 8 \/ k = 9.
Proof. lia. Qed.

Ltac each_digit H :=
  apply digit_cases in H;
  repeat (destruct H as [H | H]); subst.

Lemma numToString_digit (k : Z) : 0 <= k <= 9 -> numToString (Some k) = [digitChar k].
Proof. intros H. each_digit H; reflexivity. Qed.

Lemma digitChar_isDigit (k : Z) : 0 <= k <= 9 -> isDigit (digitChar k) = true.
Proof. intros H. each_digit H; reflexivity. Qed.

Lemma parseInt10_digitChar (k : Z) : 0 <= k <= 9 -> parseInt10 (Some (digitChar k)) = Some k.
Proof. intros H. each_digit H; reflexivity. Qed.

Lemma parseInt10_digit (c : ascii) :
  isDigit c = true -> parseInt10 (Some c) = Some (code c - 48).
Proof. intros H. simpl. now rewrite H. Qed.

Lemma stripSeparators_digits (s : jsstr) :
  forallb isDigit s = true -> stripSeparators s = s.
Proof.
  induction s as [|c s IH]; simpl; [reflexivity|].
  intros H. apply andb_prop in H. destruct H as [Hc Hs].
  rewrite (isDigit_not_separator c Hc). simpl. now rewrite IH.
Qed.

(** What the regular expression leaves of a 10-character string. *)
Lemma matchesIsbnChars_10 (c0 c1 c2 c3 c4 c5 c6 c7 c8 c9 : ascii) :
  matchesIsbnChars [c0; c1; c2; c3; c4; c5; c6; c7; c8; c9] = true ->
  forallb isDigit [c0; c1; c2; c3; c4; c5; c6; c7; c8] = true /\
  (isDigit c9 = true \/ isX (toUpperCase c9) = true).
Proof.
  simpl. intros H.
  repeat (apply andb_prop in H; let Hd := fresh "Hd" in destruct H as [Hd H]; rewrite Hd).
  split; [reflexivity|]. now apply orb_prop in H.
Qed.

(** ** Identifier conversion *)

Lemma length10 {A} (s : list A) :
  List.length s = 10%nat ->
  exists c0 c1 c2 c3 c4 c5 c6 c7 c8 c9, s = [c0; c1; c2; c3; c4; c5; c6; c7; c8; c9].
Proof.
  intros H. do 10 (destruct s as [|? s]; [discriminate H|]).
  destruct s; [|discriminate H]. repeat eexists.
Qed.

Ltac split_digits H :=
  simpl in H;
  repeat (apply andb_prop in H; let Hd := fresh "Hd" in destruct H as [Hd H]);
  clear H.

Lemma check13_range (sum : Z) : 0 <= sum -> 0 <= Z.rem (10 - Z.rem sum 10) 10 <= 9.
Proof.
  intros H. rewrite (Z.rem_mod_nonneg sum 10) by lia.
  pose proof (Z.mod_pos_bound sum 10 ltac:(lia)).
  rewrite Z.rem_mod_nonneg by lia.
  pose proof (Z.mod_pos_bound (10 - sum mod 10) 10 ltac:(lia)). lia.
Qed.

(** The 13-character string built from nine digits: its weighted sum is
    defined, and so is the check digit. *)
Lemma weightedSum13_digits (c0 c1 c2 c3 c4 c5 c6 c7 c8 : ascii) (tail : jsstr) :
  forallb isDigit [c0; c1; c2; c3; c4; c5; c6; c7; c8] = true ->
  exists sum, 0 <= sum /\
    weightedSum (str "978" ++ [c0; c1; c2; c3; c4; c5; c6; c7; c8] ++ tail) 12 weight13
    = Some sum.
Proof.
  intros H. split_digits H.
  unfold weightedSum. cbn [seq fold_left str list_ascii_of_string app charAt nth_error].
  rewrite !parseInt10_digit by (assumption || reflexivity).
  eexists. split; [|reflexivity].
  repeat match goal with Hd : isDigit _ = true |- _ => apply isDigit_code in Hd end.
  change (code "9") with 57. change (code "7") with 55. change (code "8") with 56.
  unfold weight13. simpl Nat.even. cbv iota. lia.
Qed.

Lemma isbn10to13_digits (x : jsstr) (c0 c1 c2 c3 c4 c5 c6 c7 c8 c9 : ascii) :
  stripSeparators x = [c0; c1; c2; c3; c4; c5; c6; c7; c8; c9] ->
  forallb isDigit [c0; c1; c2; c3; c4; c5; c6; c7; c8] = true ->
  exists sum k,
    0 <= k <= 9 /\
    weightedSum (str "978" ++ [c0; c1; c2; c3; c4; c5; c6; c7; c8] ++ [digitChar k]) 12 weight13
    = Some sum /\
    check13 (Some sum) = Some k /\
    isbn10to13 x = Some (str "978" ++ [c0; c1; c2; c3; c4; c5; c6; c7; c8] ++ [digitChar k]).
Proof.
  intros Hx Hd.
  destruct (weightedSum13_digits c0 c1 c2 c3 c4 c5 c6 c7 c8 [] Hd) as [sum [Hpos Hsum]].
  exists sum, (Z.rem (10 - Z.rem sum 10) 10).
  pose proof (check13_range sum Hpos) as Hk.
  split; [exact Hk|]. split; [|split; [reflexivity|]].
  - destruct (weightedSum13_digits c0 c1 c2 c3 c4 c5 c6 c7 c8
                [digitChar (Z.rem (10 - Z.rem sum 10) 10)] Hd) as [sum' [_ Hsum']].
    rewrite Hsum'. rewrite <- Hsum.
    unfold weightedSum in *.
    cbn [seq fold_left str list_ascii_of_string app charAt nth_error] in *.
    congruence.
  - unfold isbn10to13. rewrite Hx.
    change (negb (List.length [c0; c1; c2; c3; c4; c5; c6; c7; c8; c9] =? 10)%nat) with false.
    cbv iota.
    change (substring 0 9 [c0; c1; c2; c3; c4; c5; c6; c7; c8; c9])
      with [c0; c1; c2; c3; c4; c5; c6; c7; c8].
    rewrite app_nil_r in Hsum. cbv zeta. rewrite Hsum.
    unfold check13, option_map. rewrite (numToString_digit _ Hk).
    now rewrite <- app_assoc.
Qed.

(** C10: every 10-character all-digit string, whatever its own checksum, is
    converted to a 13-character string that starts with 978 and that
    [validateIsbn] accepts. *)
Theorem isbn10to13_always_valid13 (s : jsstr) :
  List.length s = 10%nat ->
  forallb isDigit s = true ->
  exists y,
    isbn10to13 s = Some y /\
    List.length y = 13%nat /\
    startsWith (str "978") y = true /\
    valid (validateIsbn y) = true.
Proof.
  intros Hlen Hdig.
  destruct (length10 s Hlen) as (c0 & c1 & c2 & c3 & c4 & c5 & c6 & c7 & c8 & c9 & ->).
  assert (Hd9 : forallb isDigit [c0; c1; c2; c3; c4; c5; c6; c7; c8] = true).
  { simpl in Hdig |- *.
    repeat (apply andb_prop in Hdig; let Hd := fresh "Hd" in destruct Hdig as [Hd Hdig];
            rewrite Hd). reflexivity. }
  destruct (isbn10to13_digits _ c0 c1 c2 c3 c4 c5 c6 c7 c8 c9
              (stripSeparators_digits _ Hdig) Hd9) as (sum & k & Hk & Hsum & Hchk & Hconv).
  eexists. split; [exact Hconv|]. split; [reflexivity|]. split; [reflexivity|].
  assert (Hall : forallb isDigit
            (str "978" ++ [c0; c1; c2; c3; c4; c5; c6; c7; c8] ++ [digitChar k]) = true).
  { pose proof (digitChar_isDigit k Hk) as Hkd. split_digits Hd9.
    simpl. now repeat match goal with H : isDigit _ = true |- _ => rewrite H; clear H end. }
  unfold validateIsbn. rewrite (stripSeparators_digits _ Hall).
  cbn [str list_ascii_of_string app].
  assert (Hm : matchesIsbnChars
            ("9" :: "7" :: "8" :: c0 :: c1 :: c2 :: c3 :: c4 :: c5 :: c6 :: c7 :: c8
               :: [digitChar k])%char = true).
  { pose proof (digitChar_isDigit k Hk) as Hkd. split_digits Hd9.
    simpl. now repeat match goal with H : isDigit _ = true |- _ => rewrite H; clear H end. }
  rewrite Hm. cbn [negb List.length Nat.eqb].
  cbn [str list_ascii_of_string app] in Hsum. rewrite Hsum, Hchk.
  cbn [charAt nth_error]. rewrite (parseInt10_digitChar k Hk).
  now rewrite Z.eqb_refl.
Qed.

(** The conversion accepts a 10-digit string whose own checksum is wrong and
    hands back an identifier that validates. *)
Lemma isbn10to13_always_valid13_witness :
  valid (validateIsbn (str "1234567890")) = false /\
  exists y,
    isbn10to13 (str "1234567890") = Some y /\
    List.length y = 13%nat /\
    startsWith (str "978") y = true /\
    valid (validateIsbn y) = true.
Proof.
  split; [reflexivity|].
  apply (isbn10to13_always_valid13 (str "1234567890")); reflexivity.
Defined.

Lemma weightedSum10_digits (c0 c1 c2 c3 c4 c5 c6 c7 c8 : ascii) :
  forallb isDigit [c0; c1; c2; c3; c4; c5; c6; c7; c8] = true ->
  exists sum, 0 <= sum /\
    forall tail, weightedSum ([c0; c1; c2; c3; c4; c5; c6; c7; c8] ++ tail) 9 weight10 = Some sum.
Proof.
  intros H. split_digits H.
  unfold weightedSum. cbn [seq fold_left app charAt nth_error].
  rewrite !parseInt10_digit by assumption.
  eexists. split; [|intros; reflexivity].
  repeat match goal with Hd : isDigit _ = true |- _ => apply isDigit_code in Hd end.
  unfold weight10. simpl Z.of_nat. lia.
Qed.

Lemma rem11_cases (s : Z) :
  0 <= s ->
  let r := Z.rem s 11 in
  r = 0 \/ r = 1 \/ r = 2 \/ r = 3 \/ r = 4 \/ r = 5 \/ r = 6 \/ r = 7 \/ r = 8 \/ r = 9
  \/ r = 10.
Proof.
  intros H r. subst r. rewrite Z.rem_mod_nonneg by lia.
  pose proof (Z.mod_pos_bound s 11 ltac:(lia)). lia.
Qed.

Lemma rem11_sum (s d r : Z) :
  0 <= s -> 0 <= d <= 10 -> Z.rem (s + d) 11 = 0 -> Z.rem s 11 = r ->
  (r = 0 /\ d = 0) \/ (0 < r /\ d = 11 - r).
Proof.
  intros Hs Hd H Hr. rewrite Z.rem_mod_nonneg in H, Hr by lia.
  revert H Hr. Z.div_mod_to_equations. lia.
Qed.

(** C4 (as amended): the round trip through the 13-digit form returns the
    normal form of a valid 10-character identifier, that is the identifier
    with its separators stripped and its check character upper-cased; an
    identifier already in that form comes back unchanged. *)
Theorem isbn_roundtrip (x : jsstr) :
  valid (validateIsbn x) = true ->
  List.length (stripSeparators x) = 10%nat ->
  exists y,
    isbn10to13 x = Some y /\
    isbn13to10 y = Some (normalForm10 x) /\
    (normalForm10 x = x -> isbn13to10 y = Some x).
Proof.
  intros Hvalid Hlen.
  destruct (length10 _ Hlen) as (c0 & c1 & c2 & c3 & c4 & c5 & c6 & c7 & c8 & c9 & Hclean).
  unfold validateIsbn in Hvalid. rewrite Hclean in Hvalid.
  destruct (matchesIsbnChars [c0; c1; c2; c3; c4; c5; c6; c7; c8; c9]) eqn:Hm;
    [|discriminate Hvalid].
  apply matchesIsbnChars_10 in Hm. destruct Hm as [Hd9 Hlast].
  destruct (isbn10to13_digits x c0 c1 c2 c3 c4 c5 c6 c7 c8 c9 Hclean Hd9)
    as (sum13 & k & Hk & _ & _ & Hconv).
  exists (str "978" ++ [c0; c1; c2; c3; c4; c5; c6; c7; c8] ++ [digitChar k]).
  split; [exact Hconv|].
  match goal with
  | |- ?A /\ (?n = x -> ?B) => enough (Hback : A) by (split; [exact Hback | intros <-; exact Hback])
  end.
  destruct (weightedSum10_digits c0 c1 c2 c3 c4 c5 c6 c7 c8 Hd9) as (s9 & Hs9 & Hsum).
  (* the validator's verdict, as arithmetic *)
  pose proof (Hsum [c9]) as Hsum10. cbn [app] in Hsum10.
  cbn [negb List.length Nat.eqb] in Hvalid. cbv zeta in Hvalid.
  rewrite Hsum10 in Hvalid. cbn [charAt nth_error option_map] in Hvalid.
  (* the way back *)
  assert (Hall : forallb isDigit
            (str "978" ++ [c0; c1; c2; c3; c4; c5; c6; c7; c8] ++ [digitChar k]) = true).
  { pose proof (digitChar_isDigit k Hk) as Hkd. split_digits Hd9.
    simpl. now repeat match goal with H : isDigit _ = true |- _ => rewrite H; clear H end. }
  unfold isbn13to10. rewrite (stripSeparators_digits _ Hall).
  cbn [str list_ascii_of_string app List.length Nat.eqb negb orb startsWith Ascii.eqb
       Bool.eqb andb].
  change (substring 3 12
            ("9" :: "7" :: "8" :: c0 :: c1 :: c2 :: c3 :: c4 :: c5 :: c6 :: c7 :: c8
               :: [digitChar k])%char)
    with ([c0; c1; c2; c3; c4; c5; c6; c7; c8] ++ []).
  cbv zeta. rewrite (Hsum []). cbn [option_map].
  unfold normalForm10. rewrite Hclean. cbn [firstn skipn map app].
  do 2 f_equal.
  change ([c0; c1; c2; c3; c4; c5; c6; c7; c8; toUpperCase c9])
    with ([c0; c1; c2; c3; c4; c5; c6; c7; c8] ++ [toUpperCase c9]).
  f_equal.
  destruct (isX (toUpperCase c9)) eqn:HX.
  - (* check character X *)
    destruct (isX_toUpperCase c9 HX) as [-> _].
    destruct (Z.rem (s9 + 10) 11 =? 0) eqn:Hz; [|discriminate Hvalid].
    apply Z.eqb_eq in Hz.
    destruct (rem11_sum s9 10 _ Hs9 ltac:(lia) Hz eq_refl) as [[_ Habs]|[_ Hr]]; [lia|].
    assert (Hr1 : Z.rem s9 11 = 1) by lia. now rewrite Hr1.
  - (* check character a digit *)
    destruct Hlast as [Hd|Habs]; [|congruence].
    rewrite (isDigit_toUpperCase c9 Hd) in *.
    rewrite (parseInt10_digit c9 Hd) in Hvalid. cbn [option_map] in Hvalid.
    destruct (Z.rem (s9 + (code c9 - 48)) 11 =? 0) eqn:Hz; [|discriminate Hvalid].
    apply Z.eqb_eq in Hz.
    pose proof (isDigit_code c9 Hd) as Hc9.
    rewrite (isDigit_digitChar c9 Hd).
    destruct (rem11_sum s9 (code c9 - 48) _ Hs9 ltac:(lia) Hz eq_refl) as [[Hr Hv]|[Hpos Hv]].
    + now rewrite Hr, Hv.
    + pose proof (rem11_cases s9 Hs9) as Hcases. cbv zeta in Hcases.
      repeat (destruct Hcases as [Hr | Hcases]);
        try (rewrite Hr in Hv, Hpos |- *; try lia; rewrite Hv; reflexivity).
      rewrite Hcases in Hv, Hpos |- *; try lia; rewrite Hv; reflexivity.
Qed.

Lemma isbn_roundtrip_witness :
  valid (validateIsbn (str "0-8044-2957-X")) = true /\
  List.length (stripSeparators (str "0-8044-2957-X")) = 10%nat /\
  exists y,
    isbn10to13 (str "0-8044-2957-X") = Some y /\
    isbn13to10 y = Some (normalForm10 (str "0-8044-2957-X")) /\
    (normalForm10 (str "0-8044-2957-X") = str "0-8044-2957-X" ->
     isbn13to10 y = Some (str "0-8044-2957-X")).
Proof.
  split; [reflexivity|]. split; [reflexivity|].
  apply (isbn_roundtrip (str "0-8044-2957-X")); reflexivity.
Defined.

(** C4 as stated fails: [validateIsbn] accepts a lower-case check character,
    and the round trip hands it back in upper case. *)
Lemma isbn_roundtrip_lowercase_check :
  valid (validateIsbn (str "080442957x")) = true /\
  List.length (str "080442957x") = 10%nat /\
  exists y,
    isbn10to13 (str "080442957x") = Some y /\
    isbn13to10 y = Some (str "080442957X") /\
    isbn13to10 y <> Some (str "080442957x").
Proof.
  split; [reflexivity|]. split; [reflexivity|].
  exists (str "9780804429573"). split; [reflexivity|]. split; [reflexivity|].
  vm_compute. discriminate.
Qed.

(** What [validateIsbn] does establish for a 13-character identifier: it is
    numeric and its last digit is the weighted check digit. *)
Lemma validateIsbn_13_checks (s : jsstr) :
  List.length (stripSeparators s) = 13%nat ->
  valid (validateIsbn s) = true ->
  forallb isDigit (stripSeparators s) = true /\
  exists sum d,
    weightedSum (stripSeparators s) 12 weight13 = Some sum /\
    parseInt10 (charAt (stripSeparators s) 12) = Some d /\
    Z.rem (10 - Z.rem sum 10) 10 = d.
Proof.
  intros Hlen Hvalid. unfold validateIsbn in Hvalid.
  remember (stripSeparators s) as clean eqn:Hclean. clear Hclean s.
  destruct clean as [|c0 [|c1 [|c2 [|c3 [|c4 [|c5 [|c6 [|c7 [|c8 [|c9 [|c10 [|c11 [|c12
    [|? ?]]]]]]]]]]]]]]; try discriminate Hlen. clear Hlen.
  set (clean := [c0; c1; c2; c3; c4; c5; c6; c7; c8; c9; c10; c11; c12]) in *.
  destruct (matchesIsbnChars clean) eqn:Hm; [|discriminate Hvalid].
  cbn [negb List.length Nat.eqb clean] in Hvalid. cbv zeta in Hvalid. fold clean in Hvalid.
  destruct (weightedSum clean 12 weight13) as [sum|]; [|discriminate Hvalid].
  change (charAt clean 12) with (Some c12) in *.
  cbn [check13 option_map] in Hvalid.
  destruct (parseInt10 (Some c12)) as [d|] eqn:Hd; [|discriminate Hvalid].
  split.
  - subst clean. simpl in Hm.
    repeat (apply andb_prop in Hm; let H := fresh "Hdig" in destruct Hm as [H Hm]).
    simpl in Hd. destruct (isDigit c12) eqn:Hlast; [|discriminate Hd].
    simpl. now repeat match goal with H : isDigit _ = true |- _ => rewrite H; clear H end.
  - exists sum, d. split; [reflexivity|]. split; [reflexivity|].
    destruct (_ =? d) eqn:E; [|discriminate Hvalid]. now apply Z.eqb_eq.
Qed.

(** C5: [validateIsbn] has no prefix test. A 13-digit string with a correct
    checksum and a prefix other than 978 and 979 is accepted, whereas the
    crawler's [isValidIsbn13] turns the same string down. *)
Theorem validateIsbn_accepts_unrecognized_prefix :
  valid (validateIsbn (str "1234567890128")) = true /\
  error (validateIsbn (str "1234567890128")) = None /\
  startsWith (str "978") (str "1234567890128") = false /\
  startsWith (str "979") (str "1234567890128") = false /\
  isValidIsbn13 (str "1234567890128") = false.
Proof. repeat split; reflexivity. Qed.

(** ** Order on JS numbers *)

Lemma Qlt_bool_iff (a b : Q) : Qlt_bool a b = true <-> (a < b)%Q.
Proof.
  unfold Qlt_bool. rewrite negb_true_iff. split; intros H.
  - apply Qnot_le_lt. intros Hle. apply Qle_bool_iff in Hle. congruence.
  - destruct (Qle_bool b a) eqn:E; [|reflexivity].
    apply Qle_bool_iff in E. exfalso. exact (Qlt_not_le _ _ H E).
Qed.

Lemma Qlt_bool_false (a b : Q) : Qlt_bool a b = false <-> (b <= a)%Q.
Proof.
  unfold Qlt_bool. rewrite negb_false_iff. apply Qle_bool_iff.
Qed.

(** Above a number that is not below the bound, nothing is below the bound. *)
Lemma jslt_above (m1 m2 : jsnum) (bound : Q) :
  jslt m1 (Fin bound) = false -> jslt m1 m2 = true ->
  jslt m2 (Fin bound) = false /\ jsge m2 (Fin bound) = true.
Proof.
  destruct m1 as [a| | |], m2 as [b| | |]; simpl; try discriminate; intros H1 H2;
    try (split; reflexivity).
  apply Qlt_bool_false in H1. apply Qlt_bool_iff in H2.
  assert (Hb : (bound <= b)%Q) by (apply Qlt_le_weak; eapply Qle_lt_trans; eassumption).
  split; [now apply Qlt_bool_false | now apply Qle_bool_iff].
Qed.

(** ** The decision *)

Section Decisions.

Variable toFixed : jsnum -> nat -> string.
Variable toLocaleString : Z -> string.

Local Notation "'evaluate'" := (evaluateBook toFixed toLocaleString).

Lemma unpriced_or_priced (now : Z) (raw : KeepaProductRaw.t) :
  unpriced now raw \/ exists rank price, pricedAt now raw rank price.
Proof.
  unfold unpriced, pricedAt.
  destruct (avgSalesRank (getSalesRankMetrics raw)) as [rank|]; [|now left].
  destruct (Z.eq_dec rank 0) as [->|Hr]; [left; now left|].
  destruct (Z_lt_le_dec DECISION.KNOCKOUT.MAX_SALES_RANK rank) as [Hk|Hk];
    [left; right; now left|].
  destruct (sellPrice now raw) as [price|] eqn:Hs.
  - destruct (truthy (Some price)) eqn:Ht.
    + right. exists rank, price. repeat split; assumption.
    + left. right. now right.
  - left. right. now right.
Qed.

Lemma evaluate_metrics (now : Z) (raw : KeepaProductRaw.t) (buy : Q) :
  EvaluationResult.salesRank (evaluate now raw buy) = avgSalesRank (getSalesRankMetrics raw) /\
  EvaluationResult.salesRankDrops90 (evaluate now raw buy)
  = metrics_salesRankDrops90 (getSalesRankMetrics raw).
Proof.
  unfold evaluateBook.
  destruct (avgSalesRank (getSalesRankMetrics raw)) as [rank|]; [|split; reflexivity].
  destruct (rank =? 0); [split; reflexivity|].
  destruct (DECISION.KNOCKOUT.MAX_SALES_RANK <? rank); [split; reflexivity|].
  cbv zeta.
  destruct (sellPriceOf _ _) as [price|]; [|split; reflexivity].
  destruct (negb (truthy (Some price))); [split; reflexivity|].
  destruct (jslt _ _); [split; reflexivity|].
  destruct (_ =? 0); [split; reflexivity|].
  destruct (_ || _); [split; reflexivity|].
  destruct (_ && _); split; reflexivity.
Qed.

Lemma evaluate_unpriced (now : Z) (raw : KeepaProductRaw.t) (buy : Q) :
  unpriced now raw ->
  EvaluationResult.decision (evaluate now raw buy) = REJECT /\
  EvaluationResult.reason (evaluate now raw buy) <> ""%string /\
  EvaluationResult.amazonPrice (evaluate now raw buy) = None /\
  EvaluationResult.multiplier (evaluate now raw buy) = None.
Proof.
  unfold unpriced, sellPrice, evaluateBook.
  destruct (avgSalesRank (getSalesRankMetrics raw)) as [rank|];
    [|intros _; simpl; repeat split; discriminate].
  destruct (rank =? 0) eqn:H0; [intros _; simpl; repeat split; discriminate|].
  destruct (DECISION.KNOCKOUT.MAX_SALES_RANK <? rank) eqn:Hk;
    [intros _; simpl; repeat split; discriminate|].
  apply Z.eqb_neq in H0. apply Z.ltb_ge in Hk.
  intros [H|[H|H]]; [contradiction|lia|]. cbv zeta.
  destruct (sellPriceOf _ _) as [price|]; [rewrite H|]; simpl; repeat split; discriminate.
Qed.

Lemma evaluate_priced (now : Z) (raw : KeepaProductRaw.t) (buy : Q) (rank : Z) (price : Q) :
  pricedAt now raw rank price ->
  let r := evaluate now raw buy in
  let m := jsdiv price buy in
  let drops := metrics_salesRankDrops90 (getSalesRankMetrics raw) in
  EvaluationResult.amazonPrice r = Some price /\
  EvaluationResult.multiplier r = Some m /\
  EvaluationResult.decision r =
    (if jslt m (Fin DECISION.REVIEW.MULTIPLIER) then REJECT
     else if drops =? 0 then REJECT else tierOf buy rank drops price) /\
  EvaluationResult.fbmProfit r =
    (if jslt m (Fin DECISION.REVIEW.MULTIPLIER) then None
     else Some (calculateFBMProfit buy price)) /\
  (jslt m (Fin DECISION.REVIEW.MULTIPLIER) = true \/ drops = 0 ->
   EvaluationResult.reason r <> ""%string).
Proof.
  intros (Hrank & H0 & Hk & Hs & Ht). unfold sellPrice in Hs.
  unfold evaluateBook, tierOf. rewrite Hrank.
  apply Z.eqb_neq in H0. rewrite H0. apply Z.ltb_ge in Hk. rewrite Hk.
  cbv zeta. rewrite Hs, Ht. cbn [negb].
  destruct (jslt (jsdiv price buy) (Fin DECISION.REVIEW.MULTIPLIER)) eqn:Hm.
  { simpl. repeat split. discriminate. }
  destruct (metrics_salesRankDrops90 (getSalesRankMetrics raw) =? 0) eqn:Hd.
  { simpl. repeat split. discriminate. }
  apply Z.eqb_neq in Hd.
  destruct (_ || _).
  { simpl. repeat split. intros [?|?]; [discriminate|contradiction]. }
  destruct (_ && _); simpl; repeat split; intros [?|?]; (discriminate || contradiction).
Qed.


(** C7: missing data is a REJECT with a reason, not an error. Whatever the
    snapshot and the buy price, when the average rank is absent, when there
    is no usable sell price, or when the 90-day drop count is zero, the
    result is REJECT and carries a non-empty reason. *)
Theorem evaluateBook_missing_data_rejects (now : Z) (raw : KeepaProductRaw.t) (buy : Q) :
  avgSalesRank (getSalesRankMetrics raw) = None \/
  truthy (sellPrice now raw) = false \/
  metrics_salesRankDrops90 (getSalesRankMetrics raw) = 0 ->
  EvaluationResult.decision (evaluate now raw buy) = REJECT /\
  EvaluationResult.reason (evaluate now raw buy) <> ""%string.
Proof.
  intros H.
  destruct (unpriced_or_priced now raw) as [Hu|(rank & price & Hp)].
  - destruct (evaluate_unpriced now raw buy Hu) as (Hd & Hr & _). now split.
  - destruct (evaluate_priced now raw buy rank price Hp) as (_ & _ & Hd & _ & Hr).
    destruct Hp as (Hrank & _ & _ & Hs & Ht).
    destruct H as [H|[H|H]]; [congruence| rewrite Hs in H; congruence |].
    rewrite Hd. rewrite H in *. split.
    + now destruct (jslt _ _).
    + apply Hr. now right.
Qed.

(** C2: with rank and drop count equal, a run whose multiplier is strictly
    larger than that of a run that ended in BUY does not end in REJECT. *)
Theorem decision_monotone_in_multiplier
  (now1 now2 : Z) (raw1 raw2 : KeepaProductRaw.t) (buy1 buy2 : Q) (m1 m2 : jsnum) :
  let r1 := evaluate now1 raw1 buy1 in
  let r2 := evaluate now2 raw2 buy2 in
  EvaluationResult.salesRank r1 = EvaluationResult.salesRank r2 ->
  EvaluationResult.salesRankDrops90 r1 = EvaluationResult.salesRankDrops90 r2 ->
  EvaluationResult.decision r1 = BUY ->
  EvaluationResult.multiplier r1 = Some m1 ->
  EvaluationResult.multiplier r2 = Some m2 ->
  jslt m1 m2 = true ->
  EvaluationResult.decision r2 <> REJECT.
Proof.
  intros r1 r2 Hrank Hdrops Hbuy Hm1 Hm2 Hlt. subst r1 r2.
  destruct (evaluate_metrics now1 raw1 buy1) as [Hr1 Hd1].
  destruct (evaluate_metrics now2 raw2 buy2) as [Hr2 Hd2].
  rewrite Hr1, Hr2 in Hrank. rewrite Hd1, Hd2 in Hdrops.
  destruct (unpriced_or_priced now1 raw1) as [Hu|(rank & price1 & Hp1)].
  { destruct (evaluate_unpriced now1 raw1 buy1 Hu) as (Hd & _). congruence. }
  destruct (unpriced_or_priced now2 raw2) as [Hu|(rank2 & price2 & Hp2)].
  { destruct (evaluate_unpriced now2 raw2 buy2 Hu) as (_ & _ & _ & Hm). congruence. }
  destruct (evaluate_priced now1 raw1 buy1 rank price1 Hp1) as (_ & Hmul1 & Hdec1 & _).
  destruct (evaluate_priced now2 raw2 buy2 rank2 price2 Hp2) as (_ & Hmul2 & Hdec2 & _).
  destruct Hp1 as (Hrk1 & _). destruct Hp2 as (Hrk2 & _).
  assert (rank2 = rank) by congruence. subst rank2.
  rewrite <- Hdrops in Hdec2.
  set (drops := metrics_salesRankDrops90 (getSalesRankMetrics raw1)) in *.
  unfold tierOf in Hdec1, Hdec2. cbv zeta in Hdec1, Hdec2.
  rewrite Hm1 in Hmul1. injection Hmul1 as E1. subst m1.
  rewrite Hm2 in Hmul2. injection Hmul2 as E2. subst m2.
  rewrite Hbuy in Hdec1. rewrite Hdec2.
  destruct (jslt (jsdiv price1 buy1) (Fin DECISION.REVIEW.MULTIPLIER)) eqn:Hk1;
    [discriminate Hdec1|].
  destruct (jslt_above _ _ _ Hk1 Hlt) as [Hk2 Hge2]. rewrite Hk2.
  destruct (drops =? 0); [discriminate Hdec1|].
  rewrite Hge2.
  assert (Hreview : (rank <? DECISION.REVIEW.MAX_SALES_RANK)
                    && (DECISION.REVIEW.MIN_DROPS_90 <=? drops) = true).
  { match type of Hdec1 with
    | _ = (if ?c then _ else _) => destruct c eqn:Hor
    end.
    - apply orb_prop in Hor.
      unfold DECISION.BUY.MAX_SALES_RANK_CHEAP, DECISION.BUY.MAX_SALES_RANK,
        DECISION.BUY.MIN_DROPS_90, DECISION.BUY.HIGH_PROFIT_MAX_RANK,
        DECISION.BUY.HIGH_PROFIT_MIN_DROPS in Hor.
      unfold DECISION.REVIEW.MAX_SALES_RANK, DECISION.REVIEW.MIN_DROPS_90.
      apply andb_true_intro.
      destruct Hor as [Hor|Hor]; apply andb_prop in Hor; destruct Hor as [Hor Hdr];
        apply andb_prop in Hor; destruct Hor as [_ Hrk];
        apply Z.leb_le in Hdr; apply Z.ltb_lt in Hrk;
        (split; [apply Z.ltb_lt | apply Z.leb_le]);
        try (destruct (Qlt_bool buy1 _)); lia.
    - match type of Hdec1 with
      | _ = (if ?c then _ else _) => destruct c; discriminate Hdec1
      end. }
  rewrite andb_true_l, Hreview.
  match goal with |- (if ?c then _ else _) <> _ => destruct c; discriminate end.
Qed.



(** *** The fallback sell price *)

Lemma cents_truthy (v : Z) : 0 < v -> truthy (Some (inject_Z v / 100)%Q) = true.
Proof.
  intros Hv. unfold truthy. apply negb_true_iff.
  destruct (Qeq_bool (inject_Z v / 100) 0) eqn:E; [|reflexivity].
  apply Qeq_bool_eq in E. unfold Qeq in E. simpl in E. lia.
Qed.

Lemma getLastPrice_truthy (c : option (list Z)) (q : Q) :
  getLastPrice c = Some q -> truthy (Some q) = true.
Proof.
  unfold getLastPrice. destruct c as [l|]; [|discriminate].
  destruct (List.length l <? 2)%nat; [discriminate|].
  destruct (0 <? last l 0) eqn:Hpos; [|discriminate].
  intros H. injection H as <-. apply cents_truthy. now apply Z.ltb_lt.
Qed.

Lemma positiveAt_truthy (a : list Z) (i : nat) (q : Q) :
  option_map (fun v => (inject_Z v / 100)%Q) (positiveAt a i) = Some q ->
  truthy (Some q) = true.
Proof.
  unfold positiveAt. destruct (nth_error a i) as [v|]; [|discriminate].
  destruct (0 <? v) eqn:Hpos; [|discriminate].
  simpl. intros H. injection H as <-. apply cents_truthy. now apply Z.ltb_lt.
Qed.

Lemma getAmazonPrices_usable (raw : KeepaProductRaw.t) :
  usableRow (current (getAmazonPrices raw)) /\ usableRow (avg180 (getAmazonPrices raw)).
Proof.
  unfold getAmazonPrices, usableRow. split; cbn [current avg180 fba newFBM used].
  - intros q [H|[H|H]]; eapply getLastPrice_truthy; eassumption.
  - destruct (stats raw) as [s|]; [destruct (avg s) as [a|]|];
      cbn [fba newFBM used]; intros q [H|[H|H]];
      try discriminate H; eapply positiveAt_truthy; eassumption.
Qed.

Lemma orElse_chain (p : PriceTriple) :
  usableRow p -> orElse (fba p) (orElse (newFBM p) (used p)) = bestAvailable p.
Proof.
  unfold usableRow, orElse, bestAvailable. intros H.
  destruct (fba p) as [a|] eqn:Ha.
  - now rewrite (H a (or_introl eq_refl)).
  - cbn [truthy]. destruct (newFBM p) as [b|] eqn:Hb.
    + now rewrite (H b (or_intror (or_introl eq_refl))).
    + reflexivity.
Qed.

Lemma bestAvailable_usable (p : PriceTriple) (q : Q) :
  usableRow p -> bestAvailable p = Some q -> truthy (Some q) = true.
Proof.
  unfold bestAvailable. intros H Hq. apply H.
  destruct (fba p); [now left|]. destruct (newFBM p); [right; now left|]. right; now right.
Qed.

Lemma sellPriceOf_fallback (raw : KeepaProductRaw.t) (analysis : AmazonPresence.t) :
  realisticPrice analysis = None ->
  sellPriceOf (getAmazonPrices raw) analysis = fallbackPrice (getAmazonPrices raw).
Proof.
  intros Hnone. unfold sellPriceOf, fallbackPrice. rewrite Hnone. cbn [truthy]. cbv zeta.
  destruct (getAmazonPrices_usable raw) as [Hc Ha].
  rewrite (orElse_chain _ Hc), (orElse_chain _ Ha).
  destruct (bestAvailable (avg180 (getAmazonPrices raw))) as [a|] eqn:Ea;
    destruct (bestAvailable (current (getAmazonPrices raw))) as [c|] eqn:Ec;
    try reflexivity.
  - now rewrite (bestAvailable_usable _ _ Ha Ea), (bestAvailable_usable _ _ Hc Ec).
  - unfold orElse. now rewrite (bestAvailable_usable _ _ Ha Ea).
Qed.

(** The price a run reports is the price it settled on. *)
Lemma amazonPrice_is_sellPrice (now : Z) (raw : KeepaProductRaw.t) (buy price : Q) :
  EvaluationResult.amazonPrice (evaluate now raw buy) = Some price ->
  sellPrice now raw = Some price.
Proof.
  intros H.
  destruct (unpriced_or_priced now raw) as [Hu|(rank & price' & Hp)].
  { destruct (evaluate_unpriced now raw buy Hu) as (_ & _ & Hnone & _). congruence. }
  destruct (evaluate_priced now raw buy rank price' Hp) as (Hpr & _).
  destruct Hp as (_ & _ & _ & Hs & _). congruence.
Qed.

(** C6 (as amended): when the presence analysis yields no realistic price,
    the sell price is the smaller of two best available prices, the best
    180-day average and the best current price, each chosen by channel
    priority FBA, third-party new, used; when only one of the two exists it
    is that one. The price a run reports and divides by the buy price is
    this one. *)
Theorem fallback_sell_price (now : Z) (raw : KeepaProductRaw.t) (buy : Q) :
  realisticPrice (analyzeAmazonPresence now raw) = None ->
  sellPrice now raw = fallbackPrice (getAmazonPrices raw) /\
  forall price,
    EvaluationResult.amazonPrice (evaluate now raw buy) = Some price ->
    fallbackPrice (getAmazonPrices raw) = Some price /\
    EvaluationResult.multiplier (evaluate now raw buy) = Some (jsdiv price buy).
Proof.
  intros Hnone.
  assert (Hs : sellPrice now raw = fallbackPrice (getAmazonPrices raw))
    by (unfold sellPrice; now apply sellPriceOf_fallback).
  split; [exact Hs|]. intros price Hp.
  split; [rewrite <- Hs; now apply amazonPrice_is_sellPrice with (buy := buy)|].
  destruct (unpriced_or_priced now raw) as [Hu|(rank & price' & Hpa)].
  { destruct (evaluate_unpriced now raw buy Hu) as (_ & _ & Hno & _). congruence. }
  destruct (evaluate_priced now raw buy rank price' Hpa) as (Hpr & Hm & _).
  assert (price' = price) by congruence. now subst.
Qed.

End Decisions.

(** *** Concrete runs *)

Lemma evaluateBook_missing_data_rejects_witness :
  metrics_salesRankDrops90 (getSalesRankMetrics (fbaOffer 3500 900000 0)) = 0 /\
  EvaluationResult.decision
    (evaluateBook markFixed markLocale someday (fbaOffer 3500 900000 0) 5) = REJECT /\
  EvaluationResult.reason
    (evaluateBook markFixed markLocale someday (fbaOffer 3500 900000 0) 5) <> ""%string.
Proof.
  split; [reflexivity|].
  apply (evaluateBook_missing_data_rejects markFixed markLocale someday
           (fbaOffer 3500 900000 0) 5).
  right; right; reflexivity.
Defined.

(** A cheap book bought at 7x and rank 1.8M; at 10x but a buy price of $7
    the same rank only reaches REVIEW. *)
Lemma decision_monotone_in_multiplier_witness :
  EvaluationResult.decision
    (evaluateBook markFixed markLocale someday (fbaOffer 3500 1800000 5) 5) = BUY /\
  EvaluationResult.decision
    (evaluateBook markFixed markLocale someday (fbaOffer 7000 1800000 5) 7) <> REJECT.
Proof.
  split; [reflexivity|].
  apply (decision_monotone_in_multiplier markFixed markLocale someday someday
           (fbaOffer 3500 1800000 5) (fbaOffer 7000 1800000 5) 5 7
           (jsdiv (inject_Z 3500 / 100) 5) (jsdiv (inject_Z 7000 / 100) 7));
    reflexivity.
Defined.



Lemma fallback_sell_price_witness :
  realisticPrice (analyzeAmazonPresence someday fbaTodayNewOnAverage) = None /\
  sellPrice someday fbaTodayNewOnAverage = fallbackPrice (getAmazonPrices fbaTodayNewOnAverage) /\
  forall price,
    EvaluationResult.amazonPrice
      (evaluateBook markFixed markLocale someday fbaTodayNewOnAverage 3) = Some price ->
    fallbackPrice (getAmazonPrices fbaTodayNewOnAverage) = Some price /\
    EvaluationResult.multiplier
      (evaluateBook markFixed markLocale someday fbaTodayNewOnAverage 3)
    = Some (jsdiv price 3).
Proof.
  split; [reflexivity|].
  apply (fallback_sell_price markFixed markLocale someday fbaTodayNewOnAverage 3).
  reflexivity.
Defined.

(** C6 as stated fails: the fallback is not one row's first non-null price.
    With a current FBA offer of $30 and only a third-party-new average of
    $20, the run sells at $20 although the FBA channel has a price; with the
    rows exchanged it sells at the current third-party-new $20, not at the
    FBA average of $30. *)
Lemma fallback_is_not_one_best_price :
  (realisticPrice (analyzeAmazonPresence someday fbaTodayNewOnAverage) = None /\
   exists price best,
     EvaluationResult.amazonPrice
       (evaluateBook markFixed markLocale someday fbaTodayNewOnAverage 3) = Some price /\
     bestAvailable (current (getAmazonPrices fbaTodayNewOnAverage)) = Some best /\
     fba (current (getAmazonPrices fbaTodayNewOnAverage)) = Some best /\
     (price == 20)%Q /\ (best == 30)%Q /\ ~ (price == best)%Q) /\
  (realisticPrice (analyzeAmazonPresence someday newTodayFbaOnAverage) = None /\
   exists price best,
     EvaluationResult.amazonPrice
       (evaluateBook markFixed markLocale someday newTodayFbaOnAverage 3) = Some price /\
     bestAvailable (avg180 (getAmazonPrices newTodayFbaOnAverage)) = Some best /\
     fba (avg180 (getAmazonPrices newTodayFbaOnAverage)) = Some best /\
     (price == 20)%Q /\ (best == 30)%Q /\ ~ (price == best)%Q).
Proof.
  split; (split; [reflexivity|]); do 2 eexists;
    repeat (split; [reflexivity|]); vm_compute; discriminate.
Qed.

(** ** The stockout walk *)

Lemma cutoff_before_now (now : Z) : cutoff90Days now < now.
Proof. unfold cutoff90Days. lia. Qed.

Lemma minutes_scaled (a b : Z) : (minutes a b == inject_Z (b - a) * (1 # 60000))%Q.
Proof. unfold minutes. reflexivity. Qed.

Lemma minutes_positive (a b : Z) : Qlt_bool 0 (minutes a b) = true <-> a < b.
Proof.
  rewrite Qlt_bool_iff, minutes_scaled. unfold Qlt. simpl. lia.
Qed.

Lemma minutes_nonpositive (a b : Z) : Qle_bool (minutes a b) 0 = true <-> b <= a.
Proof.
  rewrite Qle_bool_iff, minutes_scaled. unfold Qle. simpl. lia.
Qed.

Lemma minutes_chain (a b c : Z) : (minutes a b + minutes b c == minutes a c)%Q.
Proof.
  rewrite !minutes_scaled. rewrite <- Qmult_plus_distr_l, <- inject_Z_plus.
  now replace (b - a + (c - b)) with (c - a) by lia.
Qed.

Lemma minutes_none (a : Z) : (minutes a a == 0)%Q.
Proof. rewrite minutes_scaled, Z.sub_diag. reflexivity. Qed.

Lemma sound_walk0 : sound walk0.
Proof. unfold sound, walk0; simpl. repeat split; try lra. congruence. Qed.

(** Adding a positive period keeps the accumulators sound, whether or not it
    is a stockout. *)
Lemma sound_add_stockout (st : Walk) (d : Q) (prices : list Q) :
  sound st -> (0 < d)%Q ->
  sound {| totalPeriods := totalPeriods st + d;
           stockoutPeriods := stockoutPeriods st + d;
           buyBoxWhenAmazonOut := buyBoxWhenAmazonOut st ++ prices |}.
Proof.
  unfold sound. intros (H0 & Hle & Hbb) Hd. simpl. repeat split; lra.
Qed.

Lemma sound_add_in_stock (st : Walk) (d : Q) :
  sound st -> (0 < d)%Q ->
  sound {| totalPeriods := totalPeriods st + d;
           stockoutPeriods := stockoutPeriods st;
           buyBoxWhenAmazonOut := buyBoxWhenAmazonOut st |}.
Proof.
  unfold sound. intros (H0 & Hle & Hbb) Hd. simpl. repeat split; try lra. exact Hbb.
Qed.

Lemma sound_walkStep (now : Z) (buyBox : option (list Z)) (t price t' : Z) (st : Walk) :
  sound st -> sound (walkStep now buyBox t price t' st).
Proof.
  intros Hs. unfold walkStep.
  destruct (keepaTime t' <? cutoff90Days now); [exact Hs|]. cbv zeta.
  destruct (Qle_bool _ 0) eqn:Hd; [exact Hs|].
  assert (Hpos : (0 < minutes (Z.max (keepaTime t) (cutoff90Days now))
                            (Z.min (keepaTime t') now))%Q).
  { apply Qnot_le_lt. intros Hle. apply Qle_bool_iff in Hle. congruence. }
  destruct (price =? -1); [now apply sound_add_stockout | now apply sound_add_in_stock].
Qed.

Lemma sound_walkHistory (now : Z) (buyBox : option (list Z)) (amazon1P : list Z) :
  forall st, sound st -> sound (walkHistory now buyBox amazon1P st).
Proof.
  assert (H : forall l st,
             sound st ->
             sound (walkHistory now buyBox l st) /\
             forall x, sound (walkHistory now buyBox (x :: l) st)).
  { induction l as [|y l IH]; intros st Hs.
    - split; [exact Hs|intros x; exact Hs].
    - split.
      + apply IH. exact Hs.
      + intros x. cbn [walkHistory]. destruct l as [|t' l']; [exact Hs|].
        apply IH. now apply sound_walkStep. }
  intros st Hs. now apply H.
Qed.

Lemma sound_lastPeriod (now : Z) (buyBox : option (list Z)) (amazon1P : list Z) (st : Walk) :
  sound st -> sound (lastPeriod now buyBox amazon1P st).
Proof.
  intros Hs. unfold lastPeriod.
  destruct (2 <=? List.length amazon1P)%nat; [|exact Hs].
  cbv zeta. destruct (_ <? now); [|exact Hs].
  destruct (Qlt_bool 0 _) eqn:Hd; [|exact Hs].
  apply Qlt_bool_iff in Hd.
  destruct (_ =? -1); [now apply sound_add_stockout | now apply sound_add_in_stock].
Qed.

Lemma sound_presenceWalk (now : Z) (buyBox : option (list Z)) (amazon1P : list Z) :
  sound (presenceWalk now buyBox amazon1P).
Proof.
  unfold presenceWalk. apply sound_lastPeriod, sound_walkHistory, sound_walk0.
Qed.

(** The rounded percentage of a part of a positive whole. *)
Lemma mathRound_percent (part whole : Q) :
  (0 <= part)%Q -> (part <= whole)%Q -> (0 < whole)%Q ->
  0 <= mathRound (part / whole * 100) <= 100.
Proof.
  intros H0 Hle Hpos. unfold mathRound.
  assert (Hlo : (0 <= part / whole)%Q) by (apply Qle_shift_div_l; lra).
  assert (Hhi : (part / whole <= 1)%Q) by (apply Qle_shift_div_r; lra).
  split.
  - assert (H : Qfloor 0 <= Qfloor (part / whole * 100 + (1 # 2)))
      by (apply Qfloor_resp_le; lra).
    exact H.
  - assert (H : Qfloor (part / whole * 100 + (1 # 2)) <= Qfloor (100 + (1 # 2)))
      by (apply Qfloor_resp_le; lra).
    exact H.
Qed.

Lemma mathRound_zero (part whole : Q) :
  (part == 0)%Q -> mathRound (part / whole * 100) = 0.
Proof.
  intros H. unfold mathRound.
  assert (E : (part / whole * 100 + (1 # 2) == 1 # 2)%Q).
  { rewrite H. unfold Qdiv. rewrite Qmult_0_l. reflexivity. }
  now rewrite E.
Qed.

(** *** Induction over whole samples *)

Lemma pairs_ind (P : list Z -> Prop) :
  P [] -> (forall x, P [x]) -> (forall t v rest, P rest -> P (t :: v :: rest)) ->
  forall l, P l.
Proof.
  intros Hnil Hone Hstep.
  assert (H : forall l, P l /\ forall x, P (x :: l)).
  { induction l as [|y l [IH1 IH2]]; split; auto. }
  intros l. apply H.
Qed.

Lemma secondToLast_skip (a b c d : Z) (l : list Z) :
  secondToLast (a :: b :: c :: d :: l) = secondToLast (c :: d :: l).
Proof.
  unfold secondToLast. cbn [List.length]. rewrite !Nat.sub_succ, !Nat.sub_0_r. reflexivity.
Qed.

Lemma lastPeriod_skip (now : Z) (buyBox : option (list Z)) (a b c d : Z) (l : list Z)
  (st : Walk) :
  lastPeriod now buyBox (a :: b :: c :: d :: l) st = lastPeriod now buyBox (c :: d :: l) st.
Proof.
  unfold lastPeriod. rewrite secondToLast_skip.
  change (last (a :: b :: c :: d :: l) 0) with (last (c :: d :: l) 0).
  reflexivity.
Qed.

Lemma keepaTime_mono (t t' : Z) : t <= t' -> keepaTime t <= keepaTime t'.
Proof. unfold keepaTime. lia. Qed.

(** *** The observed duration *)

(** One step of the walk adds the stretch of the window between the two
    samples. *)
Lemma walkStep_total (now : Z) (buyBox : option (list Z)) (t price t' : Z) (st : Walk) :
  t <= t' ->
  (totalPeriods (walkStep now buyBox t price t' st)
   == totalPeriods st
      + minutes (clamp (cutoff90Days now) now (keepaTime t))
                (clamp (cutoff90Days now) now (keepaTime t')))%Q.
Proof.
  intros Hle. apply keepaTime_mono in Hle.
  pose proof (cutoff_before_now now) as Hc.
  unfold walkStep, clamp.
  destruct (keepaTime t' <? cutoff90Days now) eqn:Hold.
  { apply Z.ltb_lt in Hold.
    replace (Z.min (Z.max (keepaTime t') (cutoff90Days now)) now)
      with (Z.min (Z.max (keepaTime t) (cutoff90Days now)) now) by lia.
    rewrite minutes_none. lra. }
  apply Z.ltb_ge in Hold. cbv zeta.
  destruct (Qle_bool _ 0) eqn:Hd.
  { apply minutes_nonpositive in Hd.
    replace (Z.min (Z.max (keepaTime t') (cutoff90Days now)) now)
      with (Z.min (Z.max (keepaTime t) (cutoff90Days now)) now) by lia.
    rewrite minutes_none. lra. }
  assert (Hpos : Z.max (keepaTime t) (cutoff90Days now) < Z.min (keepaTime t') now).
  { destruct (Z_lt_le_dec (Z.max (keepaTime t) (cutoff90Days now))
                (Z.min (keepaTime t') now)) as [H|H]; [exact H|].
    apply minutes_nonpositive in H. congruence. }
  replace (Z.min (Z.max (keepaTime t) (cutoff90Days now)) now)
    with (Z.max (keepaTime t) (cutoff90Days now)) by lia.
  replace (Z.min (Z.max (keepaTime t') (cutoff90Days now)) now)
    with (Z.min (keepaTime t') now) by lia.
  destruct (price =? -1); reflexivity.
Qed.

Lemma walkHistory_total (now : Z) (buyBox : option (list Z)) :
  forall rest st t v,
    chronological (t :: v :: rest) = true ->
    (totalPeriods (walkHistory now buyBox (t :: v :: rest) st)
     == totalPeriods st
        + minutes (clamp (cutoff90Days now) now (keepaTime t))
                  (clamp (cutoff90Days now) now
                     (keepaTime (secondToLast (t :: v :: rest)))))%Q.
Proof.
  intros rest. induction rest as [| x | t' v' rest IH] using pairs_ind; intros st t v Hch.
  - cbn [walkHistory]. change (secondToLast [t; v]) with t. rewrite minutes_none. lra.
  - cbn [chronological] in Hch. rewrite andb_false_r in Hch. discriminate Hch.
  - cbn [chronological] in Hch. apply andb_prop in Hch. destruct Hch as [Hle Hch].
    apply Z.leb_le in Hle.
    change (walkHistory now buyBox (t :: v :: t' :: v' :: rest) st)
      with (walkHistory now buyBox (t' :: v' :: rest) (walkStep now buyBox t v t' st)).
    rewrite (IH _ t' v' Hch), secondToLast_skip, (walkStep_total now buyBox t v t' st Hle).
    rewrite <- (minutes_chain (clamp (cutoff90Days now) now (keepaTime t))
                  (clamp (cutoff90Days now) now (keepaTime t'))
                  (clamp (cutoff90Days now) now (keepaTime (secondToLast (t' :: v' :: rest))))).
    lra.
Qed.

Lemma lastPeriod_total (now : Z) (buyBox : option (list Z)) (l : list Z) (st : Walk) :
  (2 <= List.length l)%nat ->
  (totalPeriods (lastPeriod now buyBox l st)
   == totalPeriods st
      + minutes (clamp (cutoff90Days now) now (keepaTime (secondToLast l))) now)%Q.
Proof.
  intros Hlen. pose proof (cutoff_before_now now) as Hc.
  unfold lastPeriod, clamp. apply Nat.leb_le in Hlen. rewrite Hlen. cbv zeta.
  destruct (_ <? now) eqn:Hlt.
  - apply Z.ltb_lt in Hlt.
    replace (Z.min (Z.max (keepaTime (secondToLast l)) (cutoff90Days now)) now)
      with (Z.max (keepaTime (secondToLast l)) (cutoff90Days now)) by lia.
    destruct (Qlt_bool 0 _) eqn:Hd.
    + destruct (_ =? -1); reflexivity.
    + assert (Hp : Z.max (keepaTime (secondToLast l)) (cutoff90Days now) < now) by lia.
      apply minutes_positive in Hp. congruence.
  - apply Z.ltb_ge in Hlt.
    replace (Z.min (Z.max (keepaTime (secondToLast l)) (cutoff90Days now)) now)
      with now by lia.
    rewrite minutes_none. lra.
Qed.

(** The walk over a well-formed history adds up to the observed duration. *)
Lemma presenceWalk_total (now : Z) (buyBox : option (list Z)) (t v : Z) (rest : list Z) :
  chronological (t :: v :: rest) = true ->
  (totalPeriods (presenceWalk now buyBox (t :: v :: rest))
   == inject_Z (observedMs now (Some (t :: v :: rest))) / inject_Z (60 * 1000))%Q.
Proof.
  intros Hch. unfold presenceWalk.
  rewrite lastPeriod_total by (cbn [List.length]; lia).
  rewrite (walkHistory_total now buyBox rest walk0 t v Hch).
  cbn [totalPeriods walk0 observedMs].
  rewrite Qplus_0_l, minutes_chain. reflexivity.
Qed.

Lemma presenceWalk_observed (now : Z) (buyBox : option (list Z)) (t v : Z) (rest : list Z) :
  chronological (t :: v :: rest) = true ->
  Qlt_bool 0 (totalPeriods (presenceWalk now buyBox (t :: v :: rest))) = true
  <-> 0 < observedMs now (Some (t :: v :: rest)).
Proof.
  intros Hch. rewrite Qlt_bool_iff, (presenceWalk_total now buyBox t v rest Hch).
  assert (E : minutes 0 (observedMs now (Some (t :: v :: rest)))
              = (inject_Z (observedMs now (Some (t :: v :: rest))) / inject_Z (60 * 1000))%Q)
    by (unfold minutes; now rewrite Z.sub_0_r).
  rewrite <- E, <- Qlt_bool_iff. apply minutes_positive.
Qed.

(** *** A first-party channel that is always in stock *)

Lemma valueAt_before (tau : Z) :
  forall rest held t v,
    chronological (t :: v :: rest) = true -> tau < keepaTime t ->
    valueAt (t :: v :: rest) tau held = held.
Proof.
  intros rest. induction rest as [| x | t' v' rest IH] using pairs_ind;
    intros held t v Hch Hlt.
  - cbn [valueAt]. apply Z.leb_gt in Hlt. now rewrite Hlt.
  - cbn [chronological] in Hch. rewrite andb_false_r in Hch. discriminate Hch.
  - cbn [chronological] in Hch. apply andb_prop in Hch. destruct Hch as [Hle Hch].
    apply Z.leb_le, keepaTime_mono in Hle.
    change (valueAt (t :: v :: t' :: v' :: rest) tau held)
      with (valueAt (t' :: v' :: rest) tau (if keepaTime t <=? tau then Some v else held)).
    apply Z.leb_gt in Hlt. rewrite Hlt. apply IH; [exact Hch|].
    apply Z.leb_gt in Hlt. lia.
Qed.

Lemma valueAt_last (tau : Z) :
  forall rest held t v,
    chronological (t :: v :: rest) = true ->
    keepaTime (secondToLast (t :: v :: rest)) <= tau ->
    valueAt (t :: v :: rest) tau held = Some (last (t :: v :: rest) 0).
Proof.
  intros rest. induction rest as [| x | t' v' rest IH] using pairs_ind;
    intros held t v Hch Hle.
  - change (secondToLast [t; v]) with t in Hle. cbn [valueAt last].
    apply Z.leb_le in Hle. now rewrite Hle.
  - cbn [chronological] in Hch. rewrite andb_false_r in Hch. discriminate Hch.
  - cbn [chronological] in Hch. apply andb_prop in Hch. destruct Hch as [_ Hch].
    rewrite secondToLast_skip in Hle.
    change (valueAt (t :: v :: t' :: v' :: rest) tau held)
      with (valueAt (t' :: v' :: rest) tau (if keepaTime t <=? tau then Some v else held)).
    change (last (t :: v :: t' :: v' :: rest) 0) with (last (t' :: v' :: rest) 0).
    now apply IH.
Qed.

(** A step over a value other than the sentinel, or over no time at all,
    leaves the stockout accumulators alone. *)
Lemma walkStep_in_stock (now : Z) (buyBox : option (list Z)) (t price t' : Z) (st : Walk) :
  (Z.max (keepaTime t) (cutoff90Days now) < Z.min (keepaTime t') now -> price <> -1) ->
  stockoutPeriods (walkStep now buyBox t price t' st) = stockoutPeriods st /\
  buyBoxWhenAmazonOut (walkStep now buyBox t price t' st) = buyBoxWhenAmazonOut st.
Proof.
  intros H. unfold walkStep.
  destruct (keepaTime t' <? cutoff90Days now); [now split|]. cbv zeta.
  destruct (Qle_bool _ 0) eqn:Hd; [now split|].
  assert (Hpos : Z.max (keepaTime t) (cutoff90Days now) < Z.min (keepaTime t') now).
  { destruct (Z_lt_le_dec (Z.max (keepaTime t) (cutoff90Days now))
                (Z.min (keepaTime t') now)) as [Hlt|Hge]; [exact Hlt|].
    apply minutes_nonpositive in Hge. congruence. }
  apply H, Z.eqb_neq in Hpos. rewrite Hpos. now split.
Qed.

Lemma walkHistory_in_stock (now : Z) (buyBox : option (list Z)) :
  forall rest st (held : Z -> option Z) t v,
    chronological (t :: v :: rest) = true ->
    (forall tau, cutoff90Days now <= tau < now ->
                 valueAt (t :: v :: rest) tau (held tau) <> Some (-1)) ->
    stockoutPeriods (walkHistory now buyBox (t :: v :: rest) st) = stockoutPeriods st /\
    buyBoxWhenAmazonOut (walkHistory now buyBox (t :: v :: rest) st) = buyBoxWhenAmazonOut st.
Proof.
  intros rest. induction rest as [| x | t' v' rest IH] using pairs_ind;
    intros st held t v Hch Hfree.
  - now split.
  - cbn [chronological] in Hch. rewrite andb_false_r in Hch. discriminate Hch.
  - cbn [chronological] in Hch. apply andb_prop in Hch. destruct Hch as [Hle Hch].
    change (walkHistory now buyBox (t :: v :: t' :: v' :: rest) st)
      with (walkHistory now buyBox (t' :: v' :: rest) (walkStep now buyBox t v t' st)).
    destruct (walkStep_in_stock now buyBox t v t' st) as [Hs Hb].
    { intros Hpos Hv.
      apply (Hfree (Z.max (keepaTime t) (cutoff90Days now))); [lia|].
      change (valueAt (t :: v :: t' :: v' :: rest) ?tau ?h)
        with (valueAt (t' :: v' :: rest) tau (if keepaTime t <=? tau then Some v else h)).
      rewrite valueAt_before by (assumption || lia).
      replace (keepaTime t <=? Z.max (keepaTime t) (cutoff90Days now)) with true
        by (symmetry; apply Z.leb_le; lia).
      now rewrite Hv. }
    destruct (IH (walkStep now buyBox t v t' st)
                (fun tau => if keepaTime t <=? tau then Some v else held tau) t' v' Hch)
      as [Hs' Hb'].
    { intros tau Htau. exact (Hfree tau Htau). }
    split; congruence.
Qed.

Lemma lastPeriod_in_stock (now : Z) (buyBox : option (list Z)) (l : list Z) (st : Walk) :
  (keepaTime (secondToLast l) < now -> last l 0 <> -1) ->
  stockoutPeriods (lastPeriod now buyBox l st) = stockoutPeriods st /\
  buyBoxWhenAmazonOut (lastPeriod now buyBox l st) = buyBoxWhenAmazonOut st.
Proof.
  intros H. unfold lastPeriod.
  destruct (2 <=? List.length l)%nat; [|now split]. cbv zeta.
  destruct (_ <? now) eqn:Hlt; [|now split].
  destruct (Qlt_bool 0 _); [|now split].
  apply Z.ltb_lt, H, Z.eqb_neq in Hlt. rewrite Hlt. now split.
Qed.

(** Over a well-formed history that never reports the sentinel inside the
    window, no stockout time and no buy-box price is collected. *)
Lemma presenceWalk_in_stock (now : Z) (buyBox : option (list Z)) (t v : Z) (rest : list Z) :
  chronological (t :: v :: rest) = true ->
  neverOutOfStock now (t :: v :: rest) ->
  stockoutPeriods (presenceWalk now buyBox (t :: v :: rest)) = 0%Q /\
  buyBoxWhenAmazonOut (presenceWalk now buyBox (t :: v :: rest)) = [].
Proof.
  intros Hch Hfree. unfold presenceWalk.
  pose proof (cutoff_before_now now) as Hc.
  destruct (lastPeriod_in_stock now buyBox (t :: v :: rest)
              (walkHistory now buyBox (t :: v :: rest) walk0)) as [Hs Hb].
  { intros Hlt Hv.
    apply (Hfree (Z.max (keepaTime (secondToLast (t :: v :: rest))) (cutoff90Days now)));
      [lia|].
    rewrite (valueAt_last _ rest None t v Hch) by lia. now rewrite Hv. }
  destruct (walkHistory_in_stock now buyBox rest walk0 (fun _ => None) t v Hch Hfree)
    as [Hs' Hb'].
  split; [now rewrite Hs, Hs' | now rewrite Hb, Hb'].
Qed.

(** ** The presence analysis *)

Lemma analyze_without_history (now : Z) (raw : KeepaProductRaw.t) :
  match channel raw CSV.AMAZON with
  | Some l => (List.length l < 2)%nat
  | None => True
  end ->
  analyzeAmazonPresence now raw = noPresence.
Proof.
  unfold analyzeAmazonPresence. destruct (channel raw CSV.AMAZON) as [l|]; [|reflexivity].
  intros H. apply Nat.ltb_lt in H. now rewrite H.
Qed.

Lemma analyze_stockoutPercent (now : Z) (raw : KeepaProductRaw.t) (l : list Z) :
  channel raw CSV.AMAZON = Some l -> (2 <= List.length l)%nat ->
  let w := presenceWalk now (channel raw CSV.BUY_BOX) l in
  stockoutPercent (analyzeAmazonPresence now raw)
  = if Qlt_bool 0 (totalPeriods w)
    then Some (mathRound (stockoutPeriods w / totalPeriods w * 100)) else None.
Proof.
  intros Hl Hlen w. unfold analyzeAmazonPresence. rewrite Hl.
  replace (List.length l <? 2)%nat with false by (symmetry; apply Nat.ltb_ge; exact Hlen).
  cbv zeta. fold w.
  destruct (buyBoxWhenAmazonOut w); [|reflexivity].
  destruct (Qlt_bool 0 (totalPeriods w)); [|reflexivity].
  destruct (mathRound _) as [|p|p]; try reflexivity.
  destruct (channel raw CSV.NEW) as [ntp|]; [|reflexivity].
  destruct (2 <=? List.length ntp)%nat; [|reflexivity].
  destruct (0 <? last ntp 0); reflexivity.
Qed.

(** Without buy-box prices collected, a price comes only from the
    third-party-new fallback, and only at 0 percent. *)
Lemma analyze_without_buyBox (now : Z) (raw : KeepaProductRaw.t) (l : list Z) :
  channel raw CSV.AMAZON = Some l -> (2 <= List.length l)%nat ->
  buyBoxWhenAmazonOut (presenceWalk now (channel raw CSV.BUY_BOX) l) = [] ->
  let a := analyzeAmazonPresence now raw in
  (stockoutPercent a = Some 0 ->
   realisticPrice a = newFBM (current (getAmazonPrices raw)) /\ amazonFlag a = Some red) /\
  (stockoutPercent a <> Some 0 ->
   realisticPrice a = None /\ amazonFlag a = option_map flagOf (stockoutPercent a)).
Proof.
  intros Hl Hlen Hbb a. subst a.
  unfold analyzeAmazonPresence. rewrite Hl.
  replace (List.length l <? 2)%nat with false by (symmetry; apply Nat.ltb_ge; exact Hlen).
  cbv zeta. rewrite Hbb.
  cbn [getAmazonPrices current newFBM]. unfold getLastPrice.
  destruct (Qlt_bool 0 _);
    [destruct (mathRound _) as [|p|p]|];
    try (cbn [stockoutPercent realisticPrice amazonFlag];
         split; [discriminate | now split]).
  destruct (channel raw CSV.NEW) as [ntp|];
    [|cbn [stockoutPercent realisticPrice amazonFlag]; split; [now split | congruence]].
  assert (E : (2 <=? List.length ntp)%nat = negb (List.length ntp <? 2)%nat)
    by apply Nat.leb_antisym.
  rewrite E. destruct (List.length ntp <? 2)%nat; cbn [negb];
    [cbn [stockoutPercent realisticPrice amazonFlag]; split; [now split | congruence]|].
  destruct (0 <? last ntp 0); cbn [stockoutPercent realisticPrice amazonFlag];
    (split; [now split | congruence]).
Qed.

(** C3: for a well-formed first-party history the stockout percentage is an
    integer between 0 and 100 when the history covers a positive stretch of
    the trailing 90-day window, and null when it covers none of it. *)
Theorem stockoutPercent_range (now : Z) (raw : KeepaProductRaw.t) :
  (forall l, channel raw CSV.AMAZON = Some l -> chronological l = true) ->
  let observed := observedMs now (channel raw CSV.AMAZON) in
  0 <= observed /\
  (0 < observed ->
   exists p, stockoutPercent (analyzeAmazonPresence now raw) = Some p /\ 0 <= p <= 100) /\
  (observed = 0 -> stockoutPercent (analyzeAmazonPresence now raw) = None).
Proof.
  intros Hwf observed. subst observed.
  pose proof (cutoff_before_now now) as Hc.
  destruct (channel raw CSV.AMAZON) as [[|t [|v rest]]|] eqn:Hl;
    try (cbn [observedMs]; split; [lia|split; [lia|intros _]];
         rewrite analyze_without_history by (rewrite Hl; cbn [List.length]; exact I || lia);
         reflexivity).
  specialize (Hwf _ eq_refl).
  assert (Hlen : (2 <= List.length (t :: v :: rest))%nat) by (cbn [List.length]; lia).
  rewrite (analyze_stockoutPercent now raw _ Hl Hlen). cbv zeta.
  pose proof (presenceWalk_observed now (channel raw CSV.BUY_BOX) t v rest Hwf) as Hobs.
  destruct (sound_presenceWalk now (channel raw CSV.BUY_BOX) (t :: v :: rest))
    as (H0 & Hle & _).
  split; [cbn [observedMs]; unfold clamp; lia|]. split.
  - intros Hpos. apply Hobs in Hpos. rewrite Hpos. eexists. split; [reflexivity|].
    apply mathRound_percent; try assumption. now apply Qlt_bool_iff.
  - intros Hzero.
    destruct (Qlt_bool 0 _); [|reflexivity].
    destruct Hobs as [Hobs _]. specialize (Hobs eq_refl). lia.
Qed.

Lemma stockoutPercent_range_witness :
  chronological [7900000; 1500; 7950000; -1; 7990000; 1600] = true /\
  0 < observedMs someday (channel outOfStockLately CSV.AMAZON) /\
  exists p, stockoutPercent (analyzeAmazonPresence someday outOfStockLately) = Some p
            /\ 0 <= p <= 100.
Proof.
  split; [reflexivity|]. split; [reflexivity|].
  apply (stockoutPercent_range someday outOfStockLately).
  - intros l H. injection H as <-. reflexivity.
  - reflexivity.
Defined.

(** C8: when a well-formed first-party history never reports the sentinel
    inside the trailing window and covers a positive stretch of it, the
    stockout percentage is 0, no buy-box price is collected, the realistic
    price is the current third-party-new price and the flag is red. *)
Theorem always_in_stock_presence (now : Z) (raw : KeepaProductRaw.t) (series : list Z) :
  channel raw CSV.AMAZON = Some series ->
  chronological series = true ->
  neverOutOfStock now series ->
  0 < observedMs now (Some series) ->
  let a := analyzeAmazonPresence now raw in
  stockoutPercent a = Some 0 /\
  buyBoxWhenAmazonOut (presenceWalk now (channel raw CSV.BUY_BOX) series) = [] /\
  realisticPrice a = newFBM (current (getAmazonPrices raw)) /\
  amazonFlag a = Some red.
Proof.
  intros Hl Hch Hfree Hobs a. subst a.
  destruct series as [|t [|v rest]]; try (cbn [observedMs] in Hobs; lia).
  assert (Hlen : (2 <= List.length (t :: v :: rest))%nat) by (cbn [List.length]; lia).
  destruct (presenceWalk_in_stock now (channel raw CSV.BUY_BOX) t v rest Hch Hfree)
    as [Hs Hb].
  assert (Hp : stockoutPercent (analyzeAmazonPresence now raw) = Some 0).
  { rewrite (analyze_stockoutPercent now raw _ Hl Hlen). cbv zeta.
    apply (presenceWalk_observed now (channel raw CSV.BUY_BOX) t v rest Hch) in Hobs.
    rewrite Hobs, Hs. now rewrite mathRound_zero. }
  destruct (analyze_without_buyBox now raw _ Hl Hlen Hb) as [H _].
  destruct (H Hp) as [Hr Hf]. repeat split; assumption.
Qed.

Lemma always_in_stock_presence_witness :
  let a := analyzeAmazonPresence someday outOfStockLongAgo in
  stockoutPercent a = Some 0 /\
  buyBoxWhenAmazonOut
    (presenceWalk someday (channel outOfStockLongAgo CSV.BUY_BOX)
       [7800000; -1; 7850000; 1500; 7990000; 1600]) = [] /\
  realisticPrice a = newFBM (current (getAmazonPrices outOfStockLongAgo)) /\
  amazonFlag a = Some red.
Proof.
  apply (always_in_stock_presence someday outOfStockLongAgo
           [7800000; -1; 7850000; 1500; 7990000; 1600]).
  - reflexivity.
  - reflexivity.
  - intros tau Htau. cbn [valueAt].
    unfold someday, cutoff90Days, keepaTime, KEEPA_BASE_TIME in *.
    replace (1293840000000 + 7800000 * 60 * 1000 <=? tau) with true
      by (symmetry; apply Z.leb_le; lia).
    replace (1293840000000 + 7850000 * 60 * 1000 <=? tau) with true
      by (symmetry; apply Z.leb_le; lia).
    destruct (_ <=? tau); discriminate.
  - reflexivity.
Defined.

(** C9 (as amended): a first-party channel that is absent or holds fewer
    than two numbers, so not one whole sample, gives an analysis with all
    three fields null. In every analysis a null stockout percentage comes
    with a null price and a null flag, and a price set without buy-box
    prices is the third-party-new fallback at exactly 0 percent. *)
Theorem no_history_no_verdict (now : Z) (raw : KeepaProductRaw.t) :
  let a := analyzeAmazonPresence now raw in
  (match channel raw CSV.AMAZON with
   | Some l => (List.length l < 2)%nat
   | None => True
   end -> a = noPresence) /\
  (stockoutPercent a = None -> realisticPrice a = None /\ amazonFlag a = None) /\
  (forall l q,
     channel raw CSV.AMAZON = Some l ->
     buyBoxWhenAmazonOut (presenceWalk now (channel raw CSV.BUY_BOX) l) = [] ->
     realisticPrice a = Some q ->
     stockoutPercent a = Some 0 /\ newFBM (current (getAmazonPrices raw)) = Some q).
Proof.
  intros a. subst a. split; [apply analyze_without_history|].
  assert (Hshort : forall l, channel raw CSV.AMAZON = Some l -> (List.length l < 2)%nat ->
                             analyzeAmazonPresence now raw = noPresence).
  { intros l Hl Hlen. apply analyze_without_history. now rewrite Hl. }
  split.
  - intros Hnone.
    destruct (channel raw CSV.AMAZON) as [l|] eqn:Hl;
      [|rewrite analyze_without_history by (now rewrite Hl); now split].
    destruct (Nat.lt_ge_cases (List.length l) 2) as [Hlt|Hlen];
      [rewrite (Hshort l eq_refl Hlt); now split|].
    assert (Hbb : buyBoxWhenAmazonOut (presenceWalk now (channel raw CSV.BUY_BOX) l) = []).
    { rewrite (analyze_stockoutPercent now raw l Hl Hlen) in Hnone. cbv zeta in Hnone.
      destruct (Qlt_bool 0 _) eqn:E; [discriminate Hnone|].
      apply Qlt_bool_false in E.
      destruct (sound_presenceWalk now (channel raw CSV.BUY_BOX) l) as (H0 & Hle & Hpos).
      destruct (buyBoxWhenAmazonOut _) as [|x xs]; [reflexivity|].
      assert (0 < stockoutPeriods (presenceWalk now (channel raw CSV.BUY_BOX) l))%Q
        by (apply Hpos; discriminate).
      lra. }
    destruct (analyze_without_buyBox now raw l Hl Hlen Hbb) as [_ H].
    destruct H as [Hr Hf]; [congruence|]. rewrite Hr, Hf, Hnone. now split.
  - intros l q Hl Hbb Hq.
    destruct (Nat.lt_ge_cases (List.length l) 2) as [Hlt|Hlen];
      [rewrite (Hshort l Hl Hlt) in Hq; discriminate Hq|].
    destruct (analyze_without_buyBox now raw l Hl Hlen Hbb) as [H0 Hn].
    destruct (stockoutPercent (analyzeAmazonPresence now raw)) as [[|p|p]|] eqn:Hp;
      try (destruct Hn as [Hr _]; [discriminate|congruence]).
    destruct (H0 eq_refl) as [Hr _]. split; [reflexivity|congruence].
Qed.

Lemma no_history_no_verdict_witness :
  channel (snapshot (histories (Some [7900000]) (Some [10; 1800]) None) [] 0) CSV.AMAZON
  = Some [7900000] /\
  analyzeAmazonPresence someday
    (snapshot (histories (Some [7900000]) (Some [10; 1800]) None) [] 0) = noPresence.
Proof.
  split; [reflexivity|].
  apply (no_history_no_verdict someday
           (snapshot (histories (Some [7900000]) (Some [10; 1800]) None) [] 0)).
  cbn. lia.
Defined.

(** C9 as stated fails: a history of one sample, which is fewer than two,
    is analysed over its open last period and gets a percentage, a price and
    a flag. *)
Lemma one_sample_is_analysed :
  sampleCount (channel oneSample CSV.AMAZON) = 1%nat /\
  stockoutPercent (analyzeAmazonPresence someday oneSample) = Some 0 /\
  (exists q, realisticPrice (analyzeAmazonPresence someday oneSample) = Some q /\ (q == 18)%Q) /\
  amazonFlag (analyzeAmazonPresence someday oneSample) = Some red.
Proof.
  split; [reflexivity|]. split; [reflexivity|]. split; [|reflexivity].
  eexists. split; reflexivity.
Qed.

(** Whatever the history, a stockout percentage that is not null lies
    between 0 and 100. *)
Lemma stockoutPercent_bounds (now : Z) (raw : KeepaProductRaw.t) (p : Z) :
  stockoutPercent (analyzeAmazonPresence now raw) = Some p -> 0 <= p <= 100.
Proof.
  intros Hp.
  destruct (channel raw CSV.AMAZON) as [l|] eqn:Hl;
    [|rewrite analyze_without_history in Hp by (now rewrite Hl); discriminate Hp].
  destruct (Nat.lt_ge_cases (List.length l) 2) as [Hlt|Hlen];
    [rewrite analyze_without_history in Hp by (now rewrite Hl); discriminate Hp|].
  rewrite (analyze_stockoutPercent now raw l Hl Hlen) in Hp. cbv zeta in Hp.
  destruct (sound_presenceWalk now (channel raw CSV.BUY_BOX) l) as (H0 & Hle & _).
  destruct (Qlt_bool 0 _) eqn:E; [|discriminate Hp].
  injection Hp as <-. apply mathRound_percent; try assumption. now apply Qlt_bool_iff.
Qed.

(** * Further properties *)

(** ** Identifier conversion, the way back *)

Lemma length13 {A} (s : list A) :
  List.length s = 13%nat ->
  exists c0 c1 c2 c3 c4 c5 c6 c7 c8 c9 c10 c11 c12,
    s = [c0; c1; c2; c3; c4; c5; c6; c7; c8; c9; c10; c11; c12].
Proof.
  intros H. do 13 (destruct s as [|? s]; [discriminate H|]).
  destruct s; [|discriminate H]. repeat eexists.
Qed.

Lemma startsWith_978 (a b c : ascii) (rest : jsstr) :
  startsWith (str "978") (a :: b :: c :: rest) = true ->
  a = "9"%char /\ b = "7"%char /\ c = "8"%char.
Proof.
  cbn [str list_ascii_of_string startsWith]. intros H.
  apply andb_prop in H. destruct H as [Ha H].
  apply andb_prop in H. destruct H as [Hb H].
  apply andb_prop in H. destruct H as [Hc _].
  apply Ascii.eqb_eq in Ha, Hb, Hc. now subst.
Qed.

(** The check character [isbn13to10] appends, for a digit sum [s]. *)
Lemma check10_char (s : Z) :
  0 <= s ->
  exists ch v,
    match Z.rem s 11 with
    | 0 => str "0"
    | 1 => str "X"
    | _ => numToString (Some (11 - Z.rem s 11))
    end = [ch] /\
    0 <= v <= 10 /\ Z.rem (s + v) 11 = 0 /\
    ((isDigit ch = true /\ v = code ch - 48) \/ (ch = "X"%char /\ v = 10)).
Proof.
  intros Hs. pose proof (rem11_cases s Hs) as Hc. cbv zeta in Hc.
  assert (Hmod : Z.rem s 11 = s mod 11) by (apply Z.rem_mod_nonneg; lia).
  assert (Hsum : forall v, 0 <= v -> (s mod 11 + v) mod 11 = 0 -> Z.rem (s + v) 11 = 0).
  { intros v Hv H. rewrite Z.rem_mod_nonneg by lia.
    rewrite <- Zplus_mod_idemp_l. exact H. }
  destruct Hc as [H0|[H1|[H2|[H3|[H4|[H5|[H6|[H7|[H8|[H9|H10]]]]]]]]]].
  - rewrite H0; rewrite Hmod in H0. exists (digitChar 0), 0.
    split; [reflexivity|]. split; [lia|]. split; [apply Hsum; [lia|rewrite H0; reflexivity]|left; split; reflexivity].
  - rewrite H1; rewrite Hmod in H1. exists "X"%char, 10.
    split; [reflexivity|]. split; [lia|]. split; [apply Hsum; [lia|rewrite H1; reflexivity]|right; split; reflexivity].
  - rewrite H2; rewrite Hmod in H2. exists (digitChar 9), 9.
    split; [reflexivity|]. split; [lia|]. split; [apply Hsum; [lia|rewrite H2; reflexivity]|left; split; reflexivity].
  - rewrite H3; rewrite Hmod in H3. exists (digitChar 8), 8.
    split; [reflexivity|]. split; [lia|]. split; [apply Hsum; [lia|rewrite H3; reflexivity]|left; split; reflexivity].
  - rewrite H4; rewrite Hmod in H4. exists (digitChar 7), 7.
    split; [reflexivity|]. split; [lia|]. split; [apply Hsum; [lia|rewrite H4; reflexivity]|left; split; reflexivity].
  - rewrite H5; rewrite Hmod in H5. exists (digitChar 6), 6.
    split; [reflexivity|]. split; [lia|]. split; [apply Hsum; [lia|rewrite H5; reflexivity]|left; split; reflexivity].
  - rewrite H6; rewrite Hmod in H6. exists (digitChar 5), 5.
    split; [reflexivity|]. split; [lia|]. split; [apply Hsum; [lia|rewrite H6; reflexivity]|left; split; reflexivity].
  - rewrite H7; rewrite Hmod in H7. exists (digitChar 4), 4.
    split; [reflexivity|]. split; [lia|]. split; [apply Hsum; [lia|rewrite H7; reflexivity]|left; split; reflexivity].
  - rewrite H8; rewrite Hmod in H8. exists (digitChar 3), 3.
    split; [reflexivity|]. split; [lia|]. split; [apply Hsum; [lia|rewrite H8; reflexivity]|left; split; reflexivity].
  - rewrite H9; rewrite Hmod in H9. exists (digitChar 2), 2.
    split; [reflexivity|]. split; [lia|]. split; [apply Hsum; [lia|rewrite H9; reflexivity]|left; split; reflexivity].
  - rewrite H10; rewrite Hmod in H10. exists (digitChar 1), 1.
    split; [reflexivity|]. split; [lia|]. split; [apply Hsum; [lia|rewrite H10; reflexivity]|left; split; reflexivity].
Qed.

Lemma isX_not_separator (c : ascii) :
  isX (toUpperCase c) = true -> isSeparator c = false /\ isDigit c = false.
Proof. each_ascii c; vm_compute; intros H; try discriminate H; split; reflexivity. Qed.

(** The verdict of [validateIsbn] on ten characters without separators, as
    arithmetic: [v] is the value of the check character. *)
Lemma validateIsbn_10_value (c0 c1 c2 c3 c4 c5 c6 c7 c8 ch : ascii) (s9 v : Z) :
  forallb isDigit [c0; c1; c2; c3; c4; c5; c6; c7; c8] = true ->
  (forall tail, weightedSum ([c0; c1; c2; c3; c4; c5; c6; c7; c8] ++ tail) 9 weight10
                = Some s9) ->
  (isDigit ch = true /\ v = code ch - 48) \/ (isX (toUpperCase ch) = true /\ v = 10) ->
  valid (validateIsbn [c0; c1; c2; c3; c4; c5; c6; c7; c8; ch]) = (Z.rem (s9 + v) 11 =? 0).
Proof.
  intros Hd9 Hsum Hch.
  assert (Hsep : isSeparator ch = false).
  { destruct Hch as [[Hd _]|[Hx _]];
      [now apply isDigit_not_separator | now apply isX_not_separator]. }
  assert (Hclean : stripSeparators [c0; c1; c2; c3; c4; c5; c6; c7; c8; ch]
                   = [c0; c1; c2; c3; c4; c5; c6; c7; c8; ch]).
  { change [c0; c1; c2; c3; c4; c5; c6; c7; c8; ch]
      with ([c0; c1; c2; c3; c4; c5; c6; c7; c8] ++ [ch]).
    unfold stripSeparators. rewrite filter_app.
    fold (stripSeparators [c0; c1; c2; c3; c4; c5; c6; c7; c8]).
    rewrite (stripSeparators_digits _ Hd9). cbn [filter]. now rewrite Hsep. }
  assert (Hm : matchesIsbnChars [c0; c1; c2; c3; c4; c5; c6; c7; c8; ch] = true).
  { pose proof Hd9 as Hd. split_digits Hd. simpl.
    repeat match goal with H : isDigit _ = true |- _ => rewrite H; clear H end.
    destruct Hch as [[Hd _]|[Hx _]]; [now rewrite Hd | rewrite Hx; apply orb_true_r]. }
  unfold validateIsbn. rewrite Hclean, Hm.
  cbn [negb List.length Nat.eqb]. cbv zeta.
  pose proof (Hsum [ch]) as Hs. cbn [app] in Hs. rewrite Hs.
  cbn [charAt nth_error option_map].
  destruct Hch as [[Hd ->]|[Hx ->]].
  - rewrite (isDigit_toUpperCase ch Hd).
    replace (isX ch) with false.
    2:{ symmetry. destruct (isX ch) eqn:E; [|reflexivity].
        rewrite <- (isDigit_toUpperCase ch Hd) in E.
        apply isX_not_separator in E. destruct E as [_ E]. congruence. }
    rewrite (parseInt10_digit ch Hd). cbn [option_map].
    now destruct (Z.rem _ 11 =? 0).
  - rewrite Hx. now destruct (Z.rem _ 11 =? 0).
Qed.

(** X1: whatever its thirteenth digit, a 13-digit string that starts with
    978 is converted to a 10-character identifier that [validateIsbn]
    accepts. *)
Theorem isbn13to10_always_valid10 (s : jsstr) :
  List.length s = 13%nat ->
  forallb isDigit s = true ->
  startsWith (str "978") s = true ->
  exists y,
    isbn13to10 s = Some y /\
    List.length y = 10%nat /\
    valid (validateIsbn y) = true.
Proof.
  intros Hlen Hdig Hpre.
  destruct (length13 s Hlen)
    as (p0 & p1 & p2 & c0 & c1 & c2 & c3 & c4 & c5 & c6 & c7 & c8 & c12 & ->).
  assert (Hd9 : forallb isDigit [c0; c1; c2; c3; c4; c5; c6; c7; c8] = true).
  { pose proof Hdig as Hd. split_digits Hd. simpl.
    now repeat match goal with H : isDigit _ = true |- _ => rewrite H; clear H end. }
  destruct (weightedSum10_digits c0 c1 c2 c3 c4 c5 c6 c7 c8 Hd9) as (s9 & Hs9 & Hsum).
  destruct (check10_char s9 Hs9) as (ch & v & Hch & Hv & Hrem & Hkind).
  exists ([c0; c1; c2; c3; c4; c5; c6; c7; c8] ++ [ch]).
  split; [|split; [reflexivity|]].
  - unfold isbn13to10. rewrite (stripSeparators_digits _ Hdig), Hpre.
    cbn [List.length Nat.eqb negb orb].
    change (substring 3 12 [p0; p1; p2; c0; c1; c2; c3; c4; c5; c6; c7; c8; c12])
      with ([c0; c1; c2; c3; c4; c5; c6; c7; c8] ++ []).
    cbv zeta. rewrite (Hsum []). cbn [option_map]. cbv iota. rewrite Hch.
    now rewrite app_nil_r.
  - cbn [app].
    rewrite (validateIsbn_10_value c0 c1 c2 c3 c4 c5 c6 c7 c8 ch s9 v Hd9 Hsum).
    + rewrite Hrem. reflexivity.
    + destruct Hkind as [[Hd Hval]|[-> Hval]]; [left; now split | right; now split].
Qed.

Lemma isbn13to10_always_valid10_witness :
  valid (validateIsbn (str "9780306406150")) = false /\
  exists y,
    isbn13to10 (str "9780306406150") = Some y /\
    List.length y = 10%nat /\
    valid (validateIsbn y) = true.
Proof.
  split; [reflexivity|].
  apply (isbn13to10_always_valid10 (str "9780306406150")); reflexivity.
Defined.

(** X2: the round trip that starts from the 13-digit form. A valid
    13-character identifier with prefix 978 is converted to the 10-digit
    form and back to itself, separators stripped. *)
Theorem isbn_roundtrip_from_13 (y : jsstr) :
  valid (validateIsbn y) = true ->
  List.length (stripSeparators y) = 13%nat ->
  startsWith (str "978") (stripSeparators y) = true ->
  exists x, isbn13to10 y = Some x /\ isbn10to13 x = Some (stripSeparators y).
Proof.
  intros Hvalid Hlen Hpre.
  destruct (validateIsbn_13_checks y Hlen Hvalid) as (Hdig & sum & d & Hsum & Hlast & Hrem).
  destruct (length13 _ Hlen)
    as (p0 & p1 & p2 & c0 & c1 & c2 & c3 & c4 & c5 & c6 & c7 & c8 & c12 & Hclean).
  rewrite Hclean in *.
  destruct (startsWith_978 _ _ _ _ Hpre) as (-> & -> & ->).
  assert (Hd9 : forallb isDigit [c0; c1; c2; c3; c4; c5; c6; c7; c8] = true).
  { pose proof Hdig as Hd. split_digits Hd. simpl.
    now repeat match goal with H : isDigit _ = true |- _ => rewrite H; clear H end. }
  assert (Hd12 : isDigit c12 = true) by (pose proof Hdig as Hd; split_digits Hd; assumption).
  destruct (weightedSum10_digits c0 c1 c2 c3 c4 c5 c6 c7 c8 Hd9) as (s9 & Hs9 & Hsum9).
  destruct (check10_char s9 Hs9) as (ch & v & Hch & Hv & _ & Hkind).
  exists ([c0; c1; c2; c3; c4; c5; c6; c7; c8] ++ [ch]). split.
  - unfold isbn13to10. rewrite Hclean.
    cbn [str list_ascii_of_string List.length Nat.eqb negb orb startsWith Ascii.eqb
         Bool.eqb andb].
    change (substring 3 12 ("9" :: "7" :: "8" :: c0 :: c1 :: c2 :: c3 :: c4 :: c5 :: c6
                              :: c7 :: c8 :: [c12])%char)
      with ([c0; c1; c2; c3; c4; c5; c6; c7; c8] ++ []).
    cbv zeta. rewrite (Hsum9 []). cbn [option_map]. cbv iota.
    cbn [str list_ascii_of_string] in Hch. rewrite Hch.
    now rewrite app_nil_r.
  - assert (Hsep : isSeparator ch = false).
    { destruct Hkind as [[Hd _]|[-> _]]; [now apply isDigit_not_separator | reflexivity]. }
    assert (Hstrip : stripSeparators ([c0; c1; c2; c3; c4; c5; c6; c7; c8] ++ [ch])
                     = [c0; c1; c2; c3; c4; c5; c6; c7; c8; ch]).
    { unfold stripSeparators. rewrite filter_app.
      fold (stripSeparators [c0; c1; c2; c3; c4; c5; c6; c7; c8]).
      rewrite (stripSeparators_digits _ Hd9). cbn [filter]. now rewrite Hsep. }
    destruct (isbn10to13_digits _ c0 c1 c2 c3 c4 c5 c6 c7 c8 ch Hstrip Hd9)
      as (sum' & k & Hk & Hsum' & Hchk & Hconv).
    rewrite Hconv. f_equal.
    cbn [str list_ascii_of_string app]. do 12 f_equal.
    (* both check digits come from the same sum *)
    assert (Esum : sum' = sum).
    { unfold weightedSum in Hsum, Hsum'.
      cbn [seq fold_left str list_ascii_of_string app charAt nth_error] in Hsum, Hsum'.
      congruence. }
    subst sum'.
    assert (Hk' : Z.rem (10 - Z.rem sum 10) 10 = k)
      by (unfold check13, option_map in Hchk; congruence).
    cbn [charAt nth_error] in Hlast. rewrite (parseInt10_digit c12 Hd12) in Hlast.
    assert (Hd : code c12 - 48 = d) by congruence.
    rewrite (isDigit_digitChar c12 Hd12). congruence.
Qed.

Lemma isbn_roundtrip_from_13_witness :
  exists x,
    isbn13to10 (str "978-0-8044-2957-3") = Some x /\
    isbn10to13 x = Some (stripSeparators (str "978-0-8044-2957-3")).
Proof.
  apply (isbn_roundtrip_from_13 (str "978-0-8044-2957-3")); reflexivity.
Defined.

(** ** The crawler's checks against the Keepa client's *)

Lemma isDigit_of_toUpperCase (c : ascii) : isDigit (toUpperCase c) = true -> isDigit c = true.
Proof. each_ascii c; vm_compute; intros H; try discriminate H; reflexivity. Qed.

Lemma matchesIsbnChars_digits (s : jsstr) :
  forallb isDigit s = true -> s <> [] -> matchesIsbnChars s = true.
Proof.
  assert (H : forall u : list ascii, forallb isDigit u = true -> digitsThenOptX u = true).
  { intros u. induction u as [|c u IH]; [reflexivity|].
    cbn [forallb]. intros Hd. apply andb_prop in Hd. destruct Hd as [Hc Hu].
    cbn [digitsThenOptX]. destruct u as [|c' u']; [now rewrite Hc|].
    rewrite Hc. now apply IH. }
  destruct s as [|c s]; [congruence|]. intros Hd _.
  cbn [forallb] in Hd. apply andb_prop in Hd. destruct Hd as [Hc Hs].
  cbn [matchesIsbnChars]. rewrite Hc. now apply H.
Qed.

Lemma isValidIsbn13_validates (s : jsstr) :
  isValidIsbn13 s = true -> valid (validateIsbn s) = true.
Proof.
  unfold isValidIsbn13. intros H.
  destruct (List.length s =? 13)%nat eqn:Hlen; [|discriminate H].
  destruct (forallb isDigit s) eqn:Hdig; [|discriminate H].
  cbn [negb orb] in H.
  destruct (negb (startsWith (str "978") s) && negb (startsWith (str "979") s));
    [discriminate H|].
  cbv zeta in H. apply Nat.eqb_eq in Hlen.
  unfold validateIsbn. rewrite (stripSeparators_digits s Hdig).
  assert (Hne : s <> []) by (intros ->; discriminate Hlen).
  rewrite (matchesIsbnChars_digits s Hdig Hne). rewrite Hlen.
  destruct s as [|c s']; [congruence|].
  cbn [negb Nat.eqb]. cbv zeta.
  destruct (check13 _) as [a|]; [|discriminate H].
  destruct (parseInt10 _) as [b|]; [|discriminate H].
  now rewrite H.
Qed.

Lemma isValidIsbn10_validates (s : jsstr) :
  isValidIsbn10 s = true -> valid (validateIsbn s) = true.
Proof.
  unfold isValidIsbn10. intros H.
  destruct (List.length s =? 10)%nat eqn:Hlen; [|discriminate H].
  apply Nat.eqb_eq in Hlen.
  destruct (length10 s Hlen) as (c0 & c1 & c2 & c3 & c4 & c5 & c6 & c7 & c8 & c9 & ->).
  cbn [negb seq isbn10Digits charAt nth_error] in H.
  repeat match type of H with
         | context [isDigit ?c] =>
             lazymatch c with
             | toUpperCase _ => fail
             | _ => let Hd := fresh "Hd" in destruct (isDigit c) eqn:Hd; [|discriminate H]
             end
         end.
  assert (Hd9 : forallb isDigit [c0; c1; c2; c3; c4; c5; c6; c7; c8] = true).
  { simpl. now repeat match goal with Hx : isDigit _ = true |- _ => rewrite Hx end. }
  destruct (weightedSum10_digits c0 c1 c2 c3 c4 c5 c6 c7 c8 Hd9) as (s9 & Hs9 & Hsum).
  assert (Es9 : 0 + (code c0 - 48) * weight10 0 + (code c1 - 48) * weight10 1
                + (code c2 - 48) * weight10 2 + (code c3 - 48) * weight10 3
                + (code c4 - 48) * weight10 4 + (code c5 - 48) * weight10 5
                + (code c6 - 48) * weight10 6 + (code c7 - 48) * weight10 7
                + (code c8 - 48) * weight10 8 = s9).
  { pose proof (Hsum []) as E. unfold weightedSum in E.
    cbn [seq fold_left app charAt nth_error] in E.
    rewrite !parseInt10_digit in E by assumption. congruence. }
  rewrite Es9 in H. cbv zeta in H.
  destruct (isX (toUpperCase c9)) eqn:HX.
  - rewrite (validateIsbn_10_value c0 c1 c2 c3 c4 c5 c6 c7 c8 c9 s9 10 Hd9 Hsum);
      [exact H | right; now split].
  - destruct (parseInt10 (Some (toUpperCase c9))) as [d|] eqn:Hp; [|discriminate H].
    cbn [option_map] in H. cbn [parseInt10] in Hp.
    destruct (isDigit (toUpperCase c9)) eqn:Hup; [|discriminate Hp].
    pose proof (isDigit_of_toUpperCase c9 Hup) as Hlast.
    rewrite (isDigit_toUpperCase c9 Hlast) in Hp.
    rewrite (validateIsbn_10_value c0 c1 c2 c3 c4 c5 c6 c7 c8 c9 s9 d Hd9 Hsum);
      [exact H | left; split; [exact Hlast | congruence]].
Qed.

Lemma isValidIsbn_then_valid (s : jsstr) :
  isValidIsbn s = true -> valid (validateIsbn s) = true.
Proof.
  unfold isValidIsbn. intros H. apply orb_prop in H.
  destruct H as [H|H]; [now apply isValidIsbn10_validates | now apply isValidIsbn13_validates].
Qed.

(** X3: an identifier the crawler's [isValidIsbn] accepts is accepted by the
    Keepa client's [validateIsbn] as well. *)
Theorem isValidIsbn_validates (s : jsstr) :
  isValidIsbn s = true -> valid (validateIsbn s) = true.
Proof.
  exact (isValidIsbn_then_valid s).
Qed.

Lemma isValidIsbn_validates_witness :
  valid (validateIsbn (str "080442957x")) = true /\
  valid (validateIsbn (str "9780306406157")) = true.
Proof.
  split.
  - apply (isValidIsbn_validates (str "080442957x")). reflexivity.
  - apply (isValidIsbn_validates (str "9780306406157")). reflexivity.
Defined.

Lemma stripSeparators_idempotent (s : jsstr) :
  stripSeparators (stripSeparators s) = stripSeparators s.
Proof.
  unfold stripSeparators. induction s as [|c s IH]; [reflexivity|].
  cbn [filter]. destruct (negb (isSeparator c)) eqn:E; [|exact IH].
  cbn [filter]. rewrite E. now rewrite IH.
Qed.

Lemma validated_some (v s : jsstr) :
  validated v = Some s -> s = stripSeparators v /\ isValidIsbn s = true.
Proof.
  unfold validated. destruct (isValidIsbn (stripSeparators v)) eqn:E; [|discriminate].
  intros H. injection H as <-. now split.
Qed.

(** X4: whatever the eBay item, an identifier [extractISBN] returns has no
    separators, passes the crawler's checksum test and is one the Keepa
    client's [validateIsbn] accepts; an item without ISBN, GTIN and aspects
    yields none. *)
Theorem extractISBN_validated (item : EbayItem) :
  (forall s, extractISBN item = Some s ->
     stripSeparators s = s /\ isValidIsbn s = true /\ valid (validateIsbn s) = true) /\
  (item_isbn item = None -> item_gtin item = None -> localizedAspects item = None ->
   extractISBN item = None).
Proof.
  split.
  - intros s H.
    assert (Hv : exists v, validated v = Some s).
    { unfold extractISBN in H.
      destruct (item_isbn item) as [[|first rest]|];
        try (destruct (validated first) eqn:E1; [exists first; congruence|]);
        (destruct (item_gtin item) as [[|g gs]|];
         try (destruct (validated (g :: gs)) eqn:E2; [exists (g :: gs); congruence|]);
         (destruct (localizedAspects item) as [aspects|]; [|discriminate H];
          destruct (find _ aspects) as [a|]; [|discriminate H];
          exists (aspect_value a); exact H)). }
    destruct Hv as [v Hv]. apply validated_some in Hv. destruct Hv as [-> Hvalid].
    split; [apply stripSeparators_idempotent|]. split; [exact Hvalid|].
    now apply isValidIsbn_then_valid.
  - intros H1 H2 H3. unfold extractISBN. now rewrite H1, H2, H3.
Qed.

Lemma extractISBN_validated_witness :
  extractISBN {| item_isbn := Some [str "12345"];
                 item_gtin := Some (str "978-0-306-40615-7");
                 localizedAspects := None |} = Some (str "9780306406157") /\
  valid (validateIsbn (str "9780306406157")) = true.
Proof.
  split; [reflexivity|].
  apply (extractISBN_validated
           {| item_isbn := Some [str "12345"];
              item_gtin := Some (str "978-0-306-40615-7");
              localizedAspects := None |}).
  reflexivity.
Defined.

(** ** Checksum sensitivity *)

Lemma code_inj (a b : ascii) : code a = code b -> a = b.
Proof.
  unfold code. intros H. apply Nat2Z.inj in H.
  rewrite <- (ascii_nat_embedding a), <- (ascii_nat_embedding b). now rewrite H.
Qed.

Lemma validateIsbn_wrong_length (s : jsstr) :
  List.length (stripSeparators s) <> 10%nat ->
  List.length (stripSeparators s) <> 13%nat ->
  valid (validateIsbn s) = false.
Proof.
  intros H10 H13. unfold validateIsbn.
  destruct (stripSeparators s) as [|c clean] eqn:E; [reflexivity|].
  apply Nat.eqb_neq in H10, H13. rewrite H10, H13.
  now destruct (negb (matchesIsbnChars (c :: clean))).
Qed.

Lemma rem10_check (sum : Z) :
  0 <= sum -> Z.rem (10 - Z.rem sum 10) 10 = (10 - sum mod 10) mod 10.
Proof.
  intros H. rewrite (Z.rem_mod_nonneg sum 10) by lia.
  pose proof (Z.mod_pos_bound sum 10 ltac:(lia)).
  apply Z.rem_mod_nonneg; lia.
Qed.

Lemma stripSeparators_cons_inv (x : ascii) (s : jsstr) :
  stripSeparators (x :: s) = x :: s -> isSeparator x = false /\ stripSeparators s = s.
Proof.
  unfold stripSeparators. cbn [filter]. destruct (isSeparator x); cbn [negb]; intros H.
  - exfalso. pose proof (filter_length_le (fun c => negb (isSeparator c)) s) as Hle.
    rewrite H in Hle. cbn [List.length] in Hle. lia.
  - injection H as H. now split.
Qed.

Lemma replaceAt_length (i : nat) (c : ascii) (s : jsstr) :
  List.length (replaceAt i c s) = List.length s.
Proof.
  revert i. induction s as [|x s IH]; intros [|i]; cbn [replaceAt List.length]; auto.
Qed.

(** A separator written over a character of a string without separators
    shortens what is left after stripping. *)
Lemma stripSeparators_replaceAt_separator (i : nat) (c : ascii) (s : jsstr) :
  stripSeparators s = s -> (i < List.length s)%nat -> isSeparator c = true ->
  S (List.length (stripSeparators (replaceAt i c s))) = List.length s.
Proof.
  revert i. induction s as [|x s IH]; intros i Hs Hi Hc; [cbn in Hi; lia|].
  destruct (stripSeparators_cons_inv x s Hs) as [Hx Hs'].
  destruct i as [|i]; cbn [replaceAt]; unfold stripSeparators; cbn [filter].
  - rewrite Hc. cbn [negb]. fold (stripSeparators s). now rewrite Hs'.
  - rewrite Hx. cbn [negb List.length]. fold (stripSeparators (replaceAt i c s)).
    rewrite IH; [reflexivity|exact Hs'| cbn [List.length] in Hi; lia |exact Hc].
Qed.

Lemma stripSeparators_replaceAt_other (i : nat) (c : ascii) (s : jsstr) :
  stripSeparators s = s -> isSeparator c = false ->
  stripSeparators (replaceAt i c s) = replaceAt i c s.
Proof.
  revert i. induction s as [|x s IH]; intros i Hs Hc; [now destruct i|].
  destruct (stripSeparators_cons_inv x s Hs) as [Hx Hs'].
  destruct i as [|i]; cbn [replaceAt]; unfold stripSeparators; cbn [filter].
  - rewrite Hc. cbn [negb]. fold (stripSeparators s). now rewrite Hs'.
  - rewrite Hx. cbn [negb]. fold (stripSeparators (replaceAt i c s)). now rewrite IH.
Qed.

(** The verdict of [validateIsbn] on thirteen digits, as arithmetic. *)
Lemma validateIsbn_13_digits (a0 a1 a2 a3 a4 a5 a6 a7 a8 a9 a10 a11 a12 : ascii) :
  forallb isDigit [a0; a1; a2; a3; a4; a5; a6; a7; a8; a9; a10; a11; a12] = true ->
  valid (validateIsbn [a0; a1; a2; a3; a4; a5; a6; a7; a8; a9; a10; a11; a12])
  = (((code a0 - 48) + 3 * (code a1 - 48) + (code a2 - 48) + 3 * (code a3 - 48)
      + (code a4 - 48) + 3 * (code a5 - 48) + (code a6 - 48) + 3 * (code a7 - 48)
      + (code a8 - 48) + 3 * (code a9 - 48) + (code a10 - 48) + 3 * (code a11 - 48)
      + (code a12 - 48)) mod 10 =? 0).
Proof.
  intros Hdig.
  unfold validateIsbn. rewrite (stripSeparators_digits _ Hdig).
  rewrite (matchesIsbnChars_digits _ Hdig) by discriminate.
  cbn [negb List.length Nat.eqb]. cbv zeta.
  pose proof Hdig as Hd. split_digits Hd.
  unfold weightedSum. cbn [seq fold_left charAt nth_error].
  rewrite !parseInt10_digit by assumption.
  unfold weight13. cbn [Nat.even check13 option_map].
  repeat match goal with H : isDigit _ = true |- _ => apply isDigit_code in H end.
  rewrite rem10_check by lia.
  match goal with
  | |- valid (if negb (?x =? ?y) then _ else _) = (?t mod 10 =? 0) =>
      destruct (x =? y) eqn:E1; destruct (t mod 10 =? 0) eqn:E2; try reflexivity;
      cbn [negb valid]; exfalso;
      [apply Z.eqb_eq in E1; apply Z.eqb_neq in E2
      |apply Z.eqb_neq in E1; apply Z.eqb_eq in E2];
      revert E1 E2; Z.div_mod_to_equations; lia
  end.
Qed.

(** X5: one wrong character is always caught in a 13-digit identifier.
    Exchanging any single character of an identifier without separators that
    [validateIsbn] accepts for a different character gives a string it
    rejects. *)
Theorem validateIsbn_13_single_error (s : jsstr) (i : nat) (old c : ascii) :
  stripSeparators s = s ->
  List.length s = 13%nat ->
  valid (validateIsbn s) = true ->
  nth_error s i = Some old ->
  c <> old ->
  valid (validateIsbn (replaceAt i c s)) = false.
Proof.
  intros Hs Hlen Hvalid Hnth Hne.
  assert (Hi : (i < List.length s)%nat) by (apply nth_error_Some; congruence).
  assert (Hlen0 : List.length (stripSeparators s) = 13%nat) by (now rewrite Hs).
  destruct (validateIsbn_13_checks s Hlen0 Hvalid) as (Hdig & _). rewrite Hs in Hdig.
  destruct (valid (validateIsbn (replaceAt i c s))) eqn:Hv; [exfalso|reflexivity].
  destruct (isSeparator c) eqn:Hsep.
  { pose proof (stripSeparators_replaceAt_separator i c s Hs Hi Hsep) as Hshort.
    rewrite validateIsbn_wrong_length in Hv; [discriminate Hv|lia|lia]. }
  pose proof (stripSeparators_replaceAt_other i c s Hs Hsep) as Hs'.
  assert (Hlen' : List.length (stripSeparators (replaceAt i c s)) = 13%nat)
    by (now rewrite Hs', replaceAt_length).
  destruct (validateIsbn_13_checks _ Hlen' Hv) as (Hdig' & _). rewrite Hs' in Hdig'.
  clear Hs Hs' Hlen0 Hlen' Hi Hsep.
  destruct (length13 s Hlen)
    as (a0 & a1 & a2 & a3 & a4 & a5 & a6 & a7 & a8 & a9 & a10 & a11 & a12 & ->).
  clear Hlen.
  rewrite (validateIsbn_13_digits _ _ _ _ _ _ _ _ _ _ _ _ _ Hdig) in Hvalid.
  apply Z.eqb_eq in Hvalid.
  assert (Hcode : code c <> code old) by (intros E; apply Hne; now apply code_inj).
  split_digits Hdig.
  repeat match goal with H : isDigit _ = true |- _ => apply isDigit_code in H end.
  do 13 (destruct i as [|i];
         [cbn [nth_error] in Hnth; injection Hnth as <-; cbn [replaceAt] in Hv, Hdig';
          rewrite (validateIsbn_13_digits _ _ _ _ _ _ _ _ _ _ _ _ _ Hdig') in Hv;
          apply Z.eqb_eq in Hv;
          cbn [forallb] in Hdig';
          repeat (apply andb_prop in Hdig'; destruct Hdig' as [? Hdig']);
          repeat match goal with H : isDigit _ = true |- _ => apply isDigit_code in H end;
          revert Hvalid Hv; Z.div_mod_to_equations; lia|]).
  cbn [nth_error] in Hnth. destruct i; discriminate Hnth.
Qed.

Lemma validateIsbn_13_single_error_witness :
  valid (validateIsbn (str "9780306406157")) = true /\
  valid (validateIsbn (replaceAt 4 "8"%char (str "9780306406157"))) = false.
Proof.
  split; [reflexivity|].
  apply (validateIsbn_13_single_error (str "9780306406157") 4 "3"%char "8"%char);
    try reflexivity.
  discriminate.
Defined.

Lemma validateIsbn_valid_matches (s : jsstr) :
  valid (validateIsbn s) = true -> matchesIsbnChars (stripSeparators s) = true.
Proof.
  unfold validateIsbn. destruct (stripSeparators s) as [|c clean]; [discriminate|].
  now destruct (matchesIsbnChars (c :: clean)).
Qed.

Lemma checkValue_range (c : ascii) :
  isDigit c = true \/ isX (toUpperCase c) = true -> 0 <= checkValue c <= 10.
Proof.
  unfold checkValue. intros [Hd|Hx].
  - apply isDigit_code in Hd. destruct (isX (toUpperCase c)); lia.
  - rewrite Hx. lia.
Qed.

Lemma checkValue_inj (a b : ascii) :
  isDigit a = true \/ isX (toUpperCase a) = true ->
  isDigit b = true \/ isX (toUpperCase b) = true ->
  checkValue a = checkValue b -> toUpperCase a = toUpperCase b.
Proof.
  unfold checkValue. intros Ha Hb.
  destruct (isX (toUpperCase a)) eqn:Xa; destruct (isX (toUpperCase b)) eqn:Xb.
  - intros _. destruct (isX_toUpperCase a Xa) as [-> _].
    now destruct (isX_toUpperCase b Xb) as [-> _].
  - destruct Hb as [Hb|Hb]; [|congruence]. apply isDigit_code in Hb. lia.
  - destruct Ha as [Ha|Ha]; [|congruence]. apply isDigit_code in Ha. lia.
  - destruct Ha as [Ha|Ha]; [|congruence]. destruct Hb as [Hb|Hb]; [|congruence].
    intros E. assert (code a = code b) by lia.
    now rewrite (code_inj a b).
Qed.

(** The verdict of [validateIsbn] on ten characters, as arithmetic. *)
Lemma validateIsbn_10_chars (c0 c1 c2 c3 c4 c5 c6 c7 c8 c9 : ascii) :
  forallb isDigit [c0; c1; c2; c3; c4; c5; c6; c7; c8] = true ->
  isDigit c9 = true \/ isX (toUpperCase c9) = true ->
  valid (validateIsbn [c0; c1; c2; c3; c4; c5; c6; c7; c8; c9])
  = ((10 * (code c0 - 48) + 9 * (code c1 - 48) + 8 * (code c2 - 48) + 7 * (code c3 - 48)
      + 6 * (code c4 - 48) + 5 * (code c5 - 48) + 4 * (code c6 - 48) + 3 * (code c7 - 48)
      + 2 * (code c8 - 48) + checkValue c9) mod 11 =? 0).
Proof.
  intros Hd9 Hkind.
  destruct (weightedSum10_digits c0 c1 c2 c3 c4 c5 c6 c7 c8 Hd9) as (s9 & Hs9 & Hsum).
  assert (Es9 : s9 = 10 * (code c0 - 48) + 9 * (code c1 - 48) + 8 * (code c2 - 48)
                     + 7 * (code c3 - 48) + 6 * (code c4 - 48) + 5 * (code c5 - 48)
                     + 4 * (code c6 - 48) + 3 * (code c7 - 48) + 2 * (code c8 - 48)).
  { pose proof (Hsum []) as E. unfold weightedSum in E.
    cbn [seq fold_left app charAt nth_error] in E.
    pose proof Hd9 as Hd. split_digits Hd.
    rewrite !parseInt10_digit in E by assumption.
    unfold weight10 in E. cbn [Z.of_nat Pos.of_succ_nat Pos.succ] in E.
    injection E as E. lia. }
  pose proof (checkValue_range c9 Hkind) as Hv.
  rewrite (validateIsbn_10_value c0 c1 c2 c3 c4 c5 c6 c7 c8 c9 s9 (checkValue c9) Hd9 Hsum).
  - rewrite Z.rem_mod_nonneg by lia. now rewrite Es9.
  - unfold checkValue. destruct Hkind as [Hd|Hx].
    + left. split; [exact Hd|].
      destruct (isX (toUpperCase c9)) eqn:E; [|reflexivity].
      apply isX_not_separator in E. destruct E as [_ E]. congruence.
    + right. split; [exact Hx|]. now rewrite Hx.
Qed.

(** X6: one wrong character is always caught in a 10-character identifier.
    Exchanging any single character of an identifier without separators that
    [validateIsbn] accepts for a different one (other than X for x in the
    check position) gives a string it rejects. *)
Theorem validateIsbn_10_single_error (s : jsstr) (i : nat) (old c : ascii) :
  stripSeparators s = s ->
  List.length s = 10%nat ->
  valid (validateIsbn s) = true ->
  nth_error s i = Some old ->
  toUpperCase c <> toUpperCase old ->
  valid (validateIsbn (replaceAt i c s)) = false.
Proof.
  intros Hs Hlen Hvalid Hnth Hne.
  assert (Hi : (i < List.length s)%nat) by (apply nth_error_Some; congruence).
  pose proof (validateIsbn_valid_matches s Hvalid) as Hm. rewrite Hs in Hm.
  destruct (valid (validateIsbn (replaceAt i c s))) eqn:Hv; [exfalso|reflexivity].
  destruct (isSeparator c) eqn:Hsep.
  { pose proof (stripSeparators_replaceAt_separator i c s Hs Hi Hsep) as Hshort.
    rewrite validateIsbn_wrong_length in Hv; [discriminate Hv|lia|lia]. }
  pose proof (stripSeparators_replaceAt_other i c s Hs Hsep) as Hs'.
  pose proof (validateIsbn_valid_matches _ Hv) as Hm'. rewrite Hs' in Hm'.
  clear Hs Hs' Hi Hsep.
  destruct (length10 s Hlen) as (c0 & c1 & c2 & c3 & c4 & c5 & c6 & c7 & c8 & c9 & ->).
  clear Hlen.
  apply matchesIsbnChars_10 in Hm. destruct Hm as [Hd9 Hkind].
  rewrite (validateIsbn_10_chars _ _ _ _ _ _ _ _ _ _ Hd9 Hkind) in Hvalid.
  apply Z.eqb_eq in Hvalid.
  pose proof (checkValue_range c9 Hkind) as Hrange.
  assert (Hcode : code c <> code old)
    by (intros E; apply Hne; now rewrite (code_inj c old E)).
  split_digits Hd9.
  do 9 (destruct i as [|i];
        [cbn [nth_error] in Hnth; injection Hnth as <-; cbn [replaceAt] in Hv, Hm';
         apply matchesIsbnChars_10 in Hm'; destruct Hm' as [Hd9' Hkind'];
         rewrite (validateIsbn_10_chars _ _ _ _ _ _ _ _ _ _ Hd9' Hkind') in Hv;
         apply Z.eqb_eq in Hv;
         split_digits Hd9';
         repeat match goal with H : isDigit _ = true |- _ => apply isDigit_code in H end;
         revert Hvalid Hv; Z.div_mod_to_equations; lia|]).
  destruct i as [|i]; [|cbn [nth_error] in Hnth; destruct i; discriminate Hnth].
  cbn [nth_error] in Hnth. injection Hnth as <-. cbn [replaceAt] in Hv, Hm'.
  apply matchesIsbnChars_10 in Hm'. destruct Hm' as [Hd9' Hkind'].
  rewrite (validateIsbn_10_chars _ _ _ _ _ _ _ _ _ _ Hd9' Hkind') in Hv.
  apply Z.eqb_eq in Hv.
  pose proof (checkValue_range c Hkind') as Hrange'.
  assert (Hval : checkValue c <> checkValue c9)
    by (intros E; apply Hne; now apply checkValue_inj).
  repeat match goal with H : isDigit _ = true |- _ => apply isDigit_code in H end.
  revert Hvalid Hv. Z.div_mod_to_equations. lia.
Qed.

Lemma validateIsbn_10_single_error_witness :
  valid (validateIsbn (str "080442957X")) = true /\
  valid (validateIsbn (replaceAt 9 "7"%char (str "080442957X"))) = false.
Proof.
  split; [reflexivity|].
  apply (validateIsbn_10_single_error (str "080442957X") 9 "X"%char "7"%char);
    try reflexivity.
  vm_compute. discriminate.
Defined.

(** ** Price extraction and presence analysis *)

Lemma cents_positive (v : Z) : 0 < v -> (0 < inject_Z v / 100)%Q.
Proof.
  intros Hv. apply Qlt_shift_div_l; [reflexivity|].
  rewrite Qmult_0_l. change 0%Q with (inject_Z 0). now rewrite <- Zlt_Qlt.
Qed.

Lemma getLastPrice_positive (c : option (list Z)) (q : Q) :
  getLastPrice c = Some q -> (0 < q)%Q.
Proof.
  unfold getLastPrice. destruct c as [l|]; [|discriminate].
  destruct (List.length l <? 2)%nat; [discriminate|].
  destruct (0 <? last l 0) eqn:Hpos; [|discriminate].
  intros H. injection H as <-. apply cents_positive. now apply Z.ltb_lt.
Qed.

Lemma positiveAt_positive (a : list Z) (i : nat) (v : Z) :
  positiveAt a i = Some v -> 0 < v.
Proof.
  unfold positiveAt. destruct (nth_error a i) as [x|]; [|discriminate].
  destruct (0 <? x) eqn:Hpos; [|discriminate].
  intros H. injection H as <-. now apply Z.ltb_lt.
Qed.

Lemma getAmazonPrices_entries_positive (raw : KeepaProductRaw.t) (q : Q) :
  In (Some q) (priceEntries (getAmazonPrices raw)) -> (0 < q)%Q.
Proof.
  unfold priceEntries, getAmazonPrices. cbn [current avg180 fba newFBM used In].
  assert (Havg : forall a i,
            option_map (fun v => (inject_Z v / 100)%Q) (positiveAt a i) = Some q -> (0 < q)%Q).
  { intros a i H. destruct (positiveAt a i) as [v|] eqn:E; [|discriminate H].
    injection H as <-. apply cents_positive. now apply positiveAt_positive in E. }
  intros [H|[H|[H|H]]]; try (now apply getLastPrice_positive in H).
  destruct (stats raw) as [s|]; [destruct (avg s) as [a|]|]; cbn [fba newFBM used] in H;
    destruct H as [H|[H|[H|[]]]]; try discriminate H; eapply Havg; eassumption.
Qed.

(** X7: every price [getAmazonPrices] reports, current or 180-day average,
    on any channel, is strictly positive; a zero or negative Keepa value
    (such as -1 for "no offer") is reported as null. *)
Theorem getAmazonPrices_positive (raw : KeepaProductRaw.t) (q : Q) :
  In (Some q) (priceEntries (getAmazonPrices raw)) -> (0 < q)%Q.
Proof.
  exact (getAmazonPrices_entries_positive raw q).
Qed.

Lemma getAmazonPrices_positive_witness :
  In (Some (inject_Z 3000 / 100)%Q) (priceEntries (getAmazonPrices fbaTodayNewOnAverage)) /\
  (0 < inject_Z 3000 / 100)%Q.
Proof.
  split; [left; reflexivity|].
  apply (getAmazonPrices_positive fbaTodayNewOnAverage (inject_Z 3000 / 100)%Q).
  left. reflexivity.
Defined.

Lemma amazonFlag_flagOf (now : Z) (raw : KeepaProductRaw.t) :
  amazonFlag (analyzeAmazonPresence now raw)
  = option_map flagOf (stockoutPercent (analyzeAmazonPresence now raw)).
Proof.
  unfold analyzeAmazonPresence.
  destruct (channel raw CSV.AMAZON) as [l|]; [|reflexivity].
  destruct (List.length l <? 2)%nat; [reflexivity|]. cbv zeta.
  destruct (buyBoxWhenAmazonOut _); [|reflexivity].
  destruct (Qlt_bool 0 _); [|reflexivity].
  destruct (mathRound _) as [|p|p]; try reflexivity.
  destruct (channel raw CSV.NEW) as [ntp|]; [|reflexivity].
  destruct (2 <=? List.length ntp)%nat; [|reflexivity].
  destruct (0 <? last ntp 0); reflexivity.
Qed.

(** X8: the flag of an analysis is always the one its stockout percentage
    determines (green above 50, yellow from 20, else red; null without a
    percentage): forcing red in the third-party-new fallback changes nothing. *)
Theorem amazonFlag_follows_percent (now : Z) (raw : KeepaProductRaw.t) :
  amazonFlag (analyzeAmazonPresence now raw)
  = option_map flagOf (stockoutPercent (analyzeAmazonPresence now raw)).
Proof.
  exact (amazonFlag_flagOf now raw).
Qed.

(** *** Collected buy-box prices and their median *)

Lemma Forall_insertSorted (P : Q -> Prop) (x : Q) (l : list Q) :
  P x -> Forall P l -> Forall P (insertSorted x l).
Proof.
  intros Hx Hl. induction Hl as [|y l Hy Hl IH]; cbn [insertSorted].
  - now constructor.
  - destruct (Qle_bool x y); repeat constructor; assumption.
Qed.

Lemma Forall_sortAscending (P : Q -> Prop) (l : list Q) :
  Forall P l -> Forall P (sortAscending l).
Proof.
  unfold sortAscending. induction 1 as [|x l Hx Hl IH]; cbn [fold_right].
  - constructor.
  - now apply Forall_insertSorted.
Qed.

Lemma insertSorted_length (x : Q) (l : list Q) :
  List.length (insertSorted x l) = S (List.length l).
Proof.
  induction l as [|y l IH]; cbn [insertSorted]; [reflexivity|].
  destruct (Qle_bool x y); cbn [List.length]; [reflexivity|now rewrite IH].
Qed.

Lemma sortAscending_length (l : list Q) : List.length (sortAscending l) = List.length l.
Proof.
  unfold sortAscending. induction l as [|x l IH]; cbn [fold_right List.length];
    [reflexivity|]. now rewrite insertSorted_length, IH.
Qed.

Lemma Forall_nth_positive (l : list Q) (i : nat) :
  Forall (fun q => (0 < q)%Q) l -> (i < List.length l)%nat -> (0 < nth i l 0)%Q.
Proof.
  intros Hl Hi. rewrite Forall_forall in Hl. apply Hl. now apply nth_In.
Qed.

(** The median of positive prices is positive. *)
Lemma median_positive (l : list Q) :
  l <> [] -> Forall (fun q => (0 < q)%Q) l -> (0 < median l)%Q.
Proof.
  intros Hne Hl. unfold median.
  pose proof (Forall_sortAscending _ l Hl) as Hs.
  pose proof (sortAscending_length l) as Hlen.
  assert (Hpos : (0 < List.length (sortAscending l))%nat).
  { rewrite Hlen. destruct l; [congruence|cbn; lia]. }
  set (sorted := sortAscending l) in *.
  assert (Hmid : (List.length sorted / 2 < List.length sorted)%nat)
    by (apply Nat.div_lt; lia).
  destruct (Nat.even (List.length sorted)).
  - assert (H1 : (0 < nth (List.length sorted / 2 - 1) sorted 0)%Q)
      by (apply Forall_nth_positive; [exact Hs|lia]).
    assert (H2 : (0 < nth (List.length sorted / 2) sorted 0)%Q)
      by (apply Forall_nth_positive; [exact Hs|lia]).
    apply Qlt_shift_div_l; [reflexivity|]. lra.
  - now apply Forall_nth_positive.
Qed.

Lemma buyBoxDuring_positive (periodStart periodEnd : Z) (buyBox : list Z) :
  Forall (fun q => (0 < q)%Q) (buyBoxDuring periodStart periodEnd buyBox).
Proof.
  induction buyBox as [| x | bbT bbPrice rest IH] using pairs_ind;
    try (cbn [buyBoxDuring]; constructor).
  cbn [buyBoxDuring]. destruct rest as [|y rest']; [constructor|].
  apply Forall_app. split; [|exact IH].
  destruct (_ && (0 <? bbPrice)) eqn:E; [|constructor].
  apply andb_prop in E. destruct E as [_ E]. apply Z.ltb_lt in E.
  constructor; [now apply cents_positive|constructor].
Qed.

Lemma presenceWalk_positive (now : Z) (buyBox : option (list Z)) (amazon1P : list Z) :
  Forall (fun q => (0 < q)%Q) (buyBoxWhenAmazonOut (presenceWalk now buyBox amazon1P)).
Proof.
  assert (Hstep : forall t price t' st,
            Forall (fun q => (0 < q)%Q) (buyBoxWhenAmazonOut st) ->
            Forall (fun q => (0 < q)%Q)
              (buyBoxWhenAmazonOut (walkStep now buyBox t price t' st))).
  { intros t price t' st Hst. unfold walkStep.
    destruct (_ <? cutoff90Days now); [exact Hst|]. cbv zeta.
    destruct (Qle_bool _ 0); [exact Hst|].
    destruct (price =? -1); cbn [buyBoxWhenAmazonOut]; [|exact Hst].
    apply Forall_app. split; [exact Hst|].
    unfold recordBuyBox. destruct buyBox as [bb|]; [|constructor].
    destruct (2 <=? List.length bb)%nat; [apply buyBoxDuring_positive|constructor]. }
  assert (Hwalk : forall l st,
            Forall (fun q => (0 < q)%Q) (buyBoxWhenAmazonOut st) ->
            Forall (fun q => (0 < q)%Q) (buyBoxWhenAmazonOut (walkHistory now buyBox l st))).
  { intros l. induction l as [| x | t price rest IH] using pairs_ind; intros st Hst;
      try exact Hst.
    cbn [walkHistory]. destruct rest as [|t' rest']; [exact Hst|].
    apply IH. now apply Hstep. }
  unfold presenceWalk, lastPeriod.
  pose proof (Hwalk amazon1P walk0 (Forall_nil _)) as Hw.
  destruct (2 <=? List.length amazon1P)%nat; [|exact Hw]. cbv zeta.
  destruct (_ <? now); [|exact Hw].
  destruct (Qlt_bool 0 _); [|exact Hw].
  destruct (_ =? -1); cbn [buyBoxWhenAmazonOut]; [|exact Hw].
  apply Forall_app. split; [exact Hw|].
  destruct buyBox as [bb|]; [|constructor].
  destruct (2 <=? List.length bb)%nat; [|constructor].
  destruct (0 <? last bb 0) eqn:E; [|constructor].
  apply Z.ltb_lt in E. constructor; [now apply cents_positive|constructor].
Qed.

Lemma realisticPrice_above_zero (now : Z) (raw : KeepaProductRaw.t) (q : Q) :
  realisticPrice (analyzeAmazonPresence now raw) = Some q -> (0 < q)%Q.
Proof.
  unfold analyzeAmazonPresence.
  destruct (channel raw CSV.AMAZON) as [l|]; [|discriminate].
  destruct (List.length l <? 2)%nat; [discriminate|]. cbv zeta.
  pose proof (presenceWalk_positive now (channel raw CSV.BUY_BOX) l) as Hbb.
  destruct (buyBoxWhenAmazonOut _) as [|x xs] eqn:E.
  - destruct (Qlt_bool 0 _); [|discriminate].
    destruct (mathRound _) as [|p|p]; try discriminate.
    destruct (channel raw CSV.NEW) as [ntp|]; [|discriminate].
    destruct (2 <=? List.length ntp)%nat; [|discriminate].
    destruct (0 <? last ntp 0) eqn:Hpos; [|discriminate].
    cbn [realisticPrice]. intros H. injection H as <-.
    apply cents_positive. now apply Z.ltb_lt.
  - cbn [realisticPrice]. intros H. injection H as <-.
    apply median_positive; [discriminate|exact Hbb].
Qed.

(** X9: a realistic price, whenever the analysis reports one, is strictly
    positive: it is a median of positive buy-box prices or a positive current
    third-party-new price. *)
Theorem realisticPrice_positive (now : Z) (raw : KeepaProductRaw.t) (q : Q) :
  realisticPrice (analyzeAmazonPresence now raw) = Some q -> (0 < q)%Q.
Proof.
  exact (realisticPrice_above_zero now raw q).
Qed.

Lemma realisticPrice_positive_witness :
  exists q, realisticPrice (analyzeAmazonPresence someday oneSample) = Some q /\ (0 < q)%Q.
Proof.
  eexists. split; [reflexivity|].
  apply (realisticPrice_positive someday oneSample). reflexivity.
Defined.

(** *** A first-party channel that is never in stock *)

Lemma walkStep_out (now : Z) (buyBox : option (list Z)) (t t' : Z) (st : Walk) :
  (stockoutPeriods st == totalPeriods st)%Q ->
  (stockoutPeriods (walkStep now buyBox t (-1) t' st)
   == totalPeriods (walkStep now buyBox t (-1) t' st))%Q.
Proof.
  intros H. unfold walkStep.
  destruct (_ <? cutoff90Days now); [exact H|]. cbv zeta.
  destruct (Qle_bool _ 0); [exact H|].
  cbn [Z.eqb Pos.eqb stockoutPeriods totalPeriods]. now rewrite H.
Qed.

Lemma walkHistory_out (now : Z) (buyBox : option (list Z)) :
  forall l st,
    alwaysOut l = true ->
    (stockoutPeriods st == totalPeriods st)%Q ->
    (stockoutPeriods (walkHistory now buyBox l st)
     == totalPeriods (walkHistory now buyBox l st))%Q.
Proof.
  intros l. induction l as [| x | t v rest IH] using pairs_ind; intros st Hout Hst;
    try exact Hst.
  cbn [alwaysOut] in Hout. apply andb_prop in Hout. destruct Hout as [Hv Hout].
  apply Z.eqb_eq in Hv. subst v.
  cbn [walkHistory]. destruct rest as [|t' rest']; [exact Hst|].
  apply IH; [exact Hout|]. now apply walkStep_out.
Qed.

Lemma alwaysOut_last (l : list Z) :
  chronological l = true -> alwaysOut l = true -> l <> [] -> last l 0 = -1.
Proof.
  induction l as [| x | t v rest IH] using pairs_ind; intros Hch Hout Hne.
  - congruence.
  - discriminate Hch.
  - cbn [alwaysOut] in Hout. apply andb_prop in Hout. destruct Hout as [Hv Hout].
    apply Z.eqb_eq in Hv. subst v.
    destruct rest as [|t' [|v' rest']]; [reflexivity| |].
    + cbn [chronological] in Hch. rewrite andb_false_r in Hch. discriminate Hch.
    + change (last (t :: -1 :: t' :: v' :: rest') 0) with (last (t' :: v' :: rest') 0).
      apply IH; [|exact Hout|discriminate].
      cbn [chronological] in Hch. apply andb_prop in Hch. now destruct Hch.
Qed.

(** X10: when every sample of a well-formed first-party history carries the
    sentinel and the history covers a positive stretch of the window, the
    stockout percentage is 100 and the flag green; without collected buy-box
    prices there is no realistic price, the third-party-new fallback staying
    out. *)
Theorem always_out_of_stock (now : Z) (raw : KeepaProductRaw.t) (series : list Z) :
  channel raw CSV.AMAZON = Some series ->
  chronological series = true ->
  alwaysOut series = true ->
  0 < observedMs now (Some series) ->
  let a := analyzeAmazonPresence now raw in
  stockoutPercent a = Some 100 /\
  amazonFlag a = Some green /\
  (buyBoxWhenAmazonOut (presenceWalk now (channel raw CSV.BUY_BOX) series) = [] ->
   realisticPrice a = None).
Proof.
  intros Hl Hch Hout Hobs a. subst a.
  destruct series as [|t [|v rest]]; try (cbn [observedMs] in Hobs; lia).
  assert (Hlen : (2 <= List.length (t :: v :: rest))%nat) by (cbn [List.length]; lia).
  set (w := presenceWalk now (channel raw CSV.BUY_BOX) (t :: v :: rest)).
  assert (Heq : (stockoutPeriods w == totalPeriods w)%Q).
  { subst w. unfold presenceWalk.
    pose proof (walkHistory_out now (channel raw CSV.BUY_BOX) (t :: v :: rest) walk0 Hout
                  (Qeq_refl 0)) as Hw.
    unfold lastPeriod. destruct (2 <=? _)%nat; [|exact Hw]. cbv zeta.
    destruct (_ <? now); [|exact Hw]. destruct (Qlt_bool 0 _); [|exact Hw].
    rewrite (alwaysOut_last _ Hch Hout) by discriminate.
    cbn [Z.eqb Pos.eqb stockoutPeriods totalPeriods]. now rewrite Hw. }
  assert (Hpos : Qlt_bool 0 (totalPeriods w) = true)
    by (now apply (presenceWalk_observed now (channel raw CSV.BUY_BOX) t v rest Hch)).
  assert (Hp : stockoutPercent (analyzeAmazonPresence now raw) = Some 100).
  { rewrite (analyze_stockoutPercent now raw _ Hl Hlen). cbv zeta. fold w. rewrite Hpos.
    f_equal. unfold mathRound. apply Qlt_bool_iff in Hpos.
    assert (E : (stockoutPeriods w / totalPeriods w * 100 + (1 # 2) == 201 # 2)%Q).
    { rewrite Heq. field. lra. }
    now rewrite E. }
  split; [exact Hp|]. split.
  - rewrite amazonFlag_flagOf, Hp. reflexivity.
  - intros Hbb. destruct (analyze_without_buyBox now raw _ Hl Hlen Hbb) as [_ H].
    apply H. rewrite Hp. discriminate.
Qed.

Lemma always_out_of_stock_witness :
  let a := analyzeAmazonPresence someday neverInStock in
  stockoutPercent a = Some 100 /\
  amazonFlag a = Some green /\
  (buyBoxWhenAmazonOut
     (presenceWalk someday (channel neverInStock CSV.BUY_BOX) [7900000; -1; 7950000; -1]) = [] ->
   realisticPrice a = None).
Proof.
  apply (always_out_of_stock someday neverInStock [7900000; -1; 7950000; -1]); reflexivity.
Defined.

(** X11: whatever the histories hold, in order or not, a stockout percentage
    that is reported lies between 0 and 100. *)
Theorem stockoutPercent_within_0_100 (now : Z) (raw : KeepaProductRaw.t) (p : Z) :
  stockoutPercent (analyzeAmazonPresence now raw) = Some p -> 0 <= p <= 100.
Proof.
  exact (stockoutPercent_bounds now raw p).
Qed.

Lemma stockoutPercent_within_0_100_witness :
  stockoutPercent (analyzeAmazonPresence someday outOfStockLately) = Some 40 /\
  0 <= 40 <= 100.
Proof.
  split; [reflexivity|].
  apply (stockoutPercent_within_0_100 someday outOfStockLately 40). reflexivity.
Defined.

(** ** The decision, further *)

Lemma getSalesRankMetrics_positive (raw : KeepaProductRaw.t) (rank : Z) :
  avgSalesRank (getSalesRankMetrics raw) = Some rank -> 0 < rank.
Proof.
  unfold getSalesRankMetrics. destruct (stats raw) as [s|]; [|discriminate].
  cbn [avgSalesRank].
  destruct (match avg s with Some a => positiveAt a STATS.SALES_RANK | None => None end)
    as [r|] eqn:E180.
  - intros H. injection H as <-. destruct (avg s); [|discriminate E180].
    now apply positiveAt_positive in E180.
  - destruct (avg90 s) as [a|]; [|discriminate].
    intros H. now apply positiveAt_positive in H.
Qed.

Lemma Qmin_positive (a b : Q) : (0 < a)%Q -> (0 < b)%Q -> (0 < Qmin a b)%Q.
Proof. intros Ha Hb. unfold Qmin. now destruct (Qle_bool a b). Qed.

Lemma bestAvailable_entry (p : PriceTriple) (q : Q) :
  bestAvailable p = Some q -> fba p = Some q \/ newFBM p = Some q \/ used p = Some q.
Proof.
  unfold bestAvailable. destruct (fba p); [intros H; now left|].
  destruct (newFBM p); [intros H; right; now left|]. intros H. right; now right.
Qed.

(** The sell price a run settles on is strictly positive. *)
Lemma sellPrice_positive (now : Z) (raw : KeepaProductRaw.t) (price : Q) :
  sellPrice now raw = Some price -> (0 < price)%Q.
Proof.
  unfold sellPrice. destruct (realisticPrice (analyzeAmazonPresence now raw)) as [p|] eqn:Er.
  - unfold sellPriceOf. rewrite Er.
    pose proof (realisticPrice_above_zero now raw p Er) as Hp.
    assert (Ht : truthy (Some p) = true).
    { unfold truthy. apply negb_true_iff.
      destruct (Qeq_bool p 0) eqn:E; [|reflexivity].
      apply Qeq_bool_eq in E. rewrite E in Hp. discriminate Hp. }
    rewrite Ht. intros H. now injection H as <-.
  - rewrite (sellPriceOf_fallback raw _ Er). unfold fallbackPrice.
    assert (Hrow : forall q, bestAvailable (avg180 (getAmazonPrices raw)) = Some q \/
                             bestAvailable (current (getAmazonPrices raw)) = Some q ->
                             (0 < q)%Q).
    { intros q Hq. apply (getAmazonPrices_entries_positive raw q). unfold priceEntries.
      cbn [In]. destruct Hq as [Hq|Hq]; apply bestAvailable_entry in Hq;
        destruct Hq as [Hq|[Hq|Hq]]; rewrite Hq; tauto. }
    destruct (bestAvailable (avg180 _)) as [a|] eqn:Ea;
      destruct (bestAvailable (current _)) as [c|] eqn:Ec; intros H;
      try discriminate H; injection H as <-.
    + apply Qmin_positive; apply Hrow; [now left|now right].
    + apply Hrow. now left.
    + apply Hrow. now right.
Qed.

Section DecisionsMore.

Variable toFixed : jsnum -> nat -> string.
Variable toLocaleString : Z -> string.

Local Notation "'evaluate'" := (evaluateBook toFixed toLocaleString).

Lemma append_literal_nonempty (a : string) (c : ascii) (b : string) :
  String.append a (String c b) <> ""%string.
Proof. destruct a; simpl; discriminate. Qed.

Lemma append_nonempty_l (a b : string) : a <> ""%string -> String.append a b <> ""%string.
Proof. destruct a; [congruence|simpl; discriminate]. Qed.

(** X12: every result of [evaluateBook], whatever the decision, carries a
    non-empty reason. *)
Theorem evaluateBook_reason_nonempty (now : Z) (raw : KeepaProductRaw.t) (buy : Q) :
  EvaluationResult.reason (evaluate now raw buy) <> ""%string.
Proof.
  unfold evaluateBook.
  destruct (avgSalesRank (getSalesRankMetrics raw)) as [rank|]; [|discriminate].
  destruct (rank =? 0); [discriminate|].
  destruct (DECISION.KNOCKOUT.MAX_SALES_RANK <? rank); [discriminate|].
  cbv zeta.
  destruct (sellPriceOf _ _) as [price|]; [|discriminate].
  destruct (negb (truthy (Some price))); [discriminate|].
  destruct (jslt _ _); [discriminate|].
  destruct (_ =? 0); [discriminate|].
  destruct (_ || _).
  { cbn [EvaluationResult.reason].
    destruct (_ && _); [apply append_nonempty_l|]; apply append_literal_nonempty. }
  destruct (_ && _); cbn [EvaluationResult.reason]; [apply append_literal_nonempty|].
  destruct (String.eqb _ ""%string) eqn:E; [apply append_literal_nonempty|].
  now apply String.eqb_neq.
Qed.

Lemma evaluateBook_BUY_facts (now : Z) (raw : KeepaProductRaw.t) (buy : Q) :
  let r := evaluate now raw buy in
  EvaluationResult.decision r = BUY ->
  exists rank price,
    EvaluationResult.salesRank r = Some rank /\ 0 < rank < 2000000 /\
    EvaluationResult.amazonPrice r = Some price /\ (0 < price)%Q /\
    EvaluationResult.multiplier r = Some (jsdiv price buy) /\
    jslt (jsdiv price buy) (Fin 4) = false /\
    ((0 < buy)%Q -> (4 * buy <= price)%Q) /\
    3 <= EvaluationResult.salesRankDrops90 r /\
    EvaluationResult.fbmProfit r = Some (calculateFBMProfit buy price).
Proof.
  intros r Hbuy. subst r.
  destruct (evaluate_metrics toFixed toLocaleString now raw buy) as [Hr Hd].
  destruct (unpriced_or_priced now raw) as [Hu|(rank & price & Hp)].
  { destruct (evaluate_unpriced toFixed toLocaleString now raw buy Hu) as (Hrej & _).
    congruence. }
  destruct (evaluate_priced toFixed toLocaleString now raw buy rank price Hp)
    as (Hprice & Hm & Hdec & Hfbm & _).
  destruct Hp as (Hrank & _ & _ & Hs & _).
  rewrite Hbuy in Hdec.
  destruct (jslt (jsdiv price buy) (Fin DECISION.REVIEW.MULTIPLIER)) eqn:Hk;
    [discriminate Hdec|].
  destruct (_ =? 0); [discriminate Hdec|].
  unfold tierOf in Hdec. cbv zeta in Hdec.
  assert (Htier : rank < 2000000 /\ 3 <= metrics_salesRankDrops90 (getSalesRankMetrics raw)).
  { match type of Hdec with
    | _ = (if ?c then _ else _) => destruct c eqn:Hor
    end.
    - apply orb_prop in Hor.
      unfold DECISION.BUY.MAX_SALES_RANK_CHEAP, DECISION.BUY.MAX_SALES_RANK,
        DECISION.BUY.MIN_DROPS_90, DECISION.BUY.HIGH_PROFIT_MAX_RANK,
        DECISION.BUY.HIGH_PROFIT_MIN_DROPS in Hor.
      destruct Hor as [Hor|Hor]; apply andb_prop in Hor; destruct Hor as [Hor Hdr];
        apply andb_prop in Hor; destruct Hor as [_ Hrk];
        apply Z.leb_le in Hdr; apply Z.ltb_lt in Hrk;
        try (destruct (Qlt_bool buy _)); lia.
    - match type of Hdec with
      | _ = (if ?c then _ else _) => destruct c; discriminate Hdec
      end. }
  exists rank, price. rewrite Hr, Hd.
  pose proof (getSalesRankMetrics_positive raw rank Hrank) as Hpos.
  pose proof (sellPrice_positive now raw price Hs) as Hprice_pos.
  repeat split; try assumption; try lia.
  - intros Hbuy_pos. unfold jsdiv in Hk.
    destruct (Qeq_bool buy 0) eqn:E0.
    { apply Qeq_bool_eq in E0. rewrite E0 in Hbuy_pos. discriminate Hbuy_pos. }
    cbn [jslt] in Hk. apply Qlt_bool_false in Hk.
    unfold DECISION.REVIEW.MULTIPLIER in Hk.
    apply (Qmult_le_compat_r _ _ buy) in Hk; [|lra].
    rewrite (Qmult_comm (price / buy)), Qmult_div_r in Hk; [exact Hk|].
    intros E. rewrite E in Hbuy_pos. discriminate Hbuy_pos.
Qed.

(** X13: what a BUY guarantees. A run that ends in BUY has a known rank
    below 2,000,000, a positive sell price, at least 3 drops, a multiplier
    not below 4 (so the sell price is at least four times a positive buy
    price) and both profit figures. *)
Theorem evaluateBook_BUY_requirements (now : Z) (raw : KeepaProductRaw.t) (buy : Q) :
  let r := evaluate now raw buy in
  EvaluationResult.decision r = BUY ->
  exists rank price,
    EvaluationResult.salesRank r = Some rank /\ 0 < rank < 2000000 /\
    EvaluationResult.amazonPrice r = Some price /\ (0 < price)%Q /\
    EvaluationResult.multiplier r = Some (jsdiv price buy) /\
    jslt (jsdiv price buy) (Fin 4) = false /\
    ((0 < buy)%Q -> (4 * buy <= price)%Q) /\
    3 <= EvaluationResult.salesRankDrops90 r /\
    EvaluationResult.fbmProfit r = Some (calculateFBMProfit buy price).
Proof.
  exact (evaluateBook_BUY_facts now raw buy).
Qed.

(** X14: what a REVIEW guarantees: a known rank below 2,500,000, at least
    2 drops, a positive sell price and a multiplier not below 4. *)
Theorem evaluateBook_REVIEW_requirements (now : Z) (raw : KeepaProductRaw.t) (buy : Q) :
  let r := evaluate now raw buy in
  EvaluationResult.decision r = REVIEW ->
  exists rank price,
    EvaluationResult.salesRank r = Some rank /\ 0 < rank < 2500000 /\
    EvaluationResult.amazonPrice r = Some price /\ (0 < price)%Q /\
    jslt (jsdiv price buy) (Fin 4) = false /\
    2 <= EvaluationResult.salesRankDrops90 r.
Proof.
  intros r Hrev. subst r.
  destruct (evaluate_metrics toFixed toLocaleString now raw buy) as [Hr Hd].
  destruct (unpriced_or_priced now raw) as [Hu|(rank & price & Hp)].
  { destruct (evaluate_unpriced toFixed toLocaleString now raw buy Hu) as (Hrej & _).
    congruence. }
  destruct (evaluate_priced toFixed toLocaleString now raw buy rank price Hp)
    as (Hprice & Hm & Hdec & _).
  destruct Hp as (Hrank & _ & _ & Hs & _).
  rewrite Hrev in Hdec.
  destruct (jslt (jsdiv price buy) (Fin DECISION.REVIEW.MULTIPLIER)) eqn:Hk;
    [discriminate Hdec|].
  destruct (_ =? 0); [discriminate Hdec|].
  unfold tierOf in Hdec. cbv zeta in Hdec.
  match type of Hdec with
  | _ = (if ?c then _ else _) => destruct c; [discriminate Hdec|]
  end.
  match type of Hdec with
  | _ = (if ?c then _ else _) => destruct c eqn:Hand; [|discriminate Hdec]
  end.
  apply andb_prop in Hand. destruct Hand as [Hand Hdr].
  apply andb_prop in Hand. destruct Hand as [_ Hrk].
  apply Z.leb_le in Hdr. apply Z.ltb_lt in Hrk.
  unfold DECISION.REVIEW.MAX_SALES_RANK in Hrk. unfold DECISION.REVIEW.MIN_DROPS_90 in Hdr.
  exists rank, price. rewrite Hr, Hd.
  pose proof (getSalesRankMetrics_positive raw rank Hrank) as Hpos.
  pose proof (sellPrice_positive now raw price Hs) as Hprice_pos.
  repeat split; try assumption; lia.
Qed.

Lemma jsdiv_finite (price buy : Q) :
  (0 < buy)%Q -> jsdiv price buy = Fin (price / buy).
Proof.
  intros Hb. unfold jsdiv. destruct (Qeq_bool buy 0) eqn:E; [|reflexivity].
  apply Qeq_bool_eq in E. rewrite E in Hb. discriminate Hb.
Qed.

Lemma positive_truthy (q : Q) : (0 < q)%Q -> truthy (Some q) = true.
Proof.
  intros Hq. unfold truthy. apply negb_true_iff.
  destruct (Qeq_bool q 0) eqn:E; [|reflexivity].
  apply Qeq_bool_eq in E. rewrite E in Hq. discriminate Hq.
Qed.

(** X15: the normal tier is sufficient. A book with a known average rank
    below 1,500,000, at least 3 drops and a sell price of at least 6.01
    times a positive buy price is a BUY, whatever the presence analysis
    says. The bound stays one percent clear of the BUY multiplier: at a
    quotient of exactly 6 the source's floating-point division decides. *)
Theorem normal_tier_buys (now : Z) (raw : KeepaProductRaw.t) (buy : Q) (rank : Z) (price : Q) :
  avgSalesRank (getSalesRankMetrics raw) = Some rank ->
  rank < 1500000 ->
  sellPrice now raw = Some price ->
  (0 < buy)%Q ->
  ((601 # 100) * buy <= price)%Q ->
  3 <= metrics_salesRankDrops90 (getSalesRankMetrics raw) ->
  EvaluationResult.decision (evaluate now raw buy) = BUY.
Proof.
  intros Hrank Hrk Hs Hbuy Hclear Hdrops.
  assert (Hsix : (6 * buy <= price)%Q) by lra.
  pose proof (getSalesRankMetrics_positive raw rank Hrank) as Hpos.
  pose proof (sellPrice_positive now raw price Hs) as Hprice.
  assert (Hp : pricedAt now raw rank price).
  { unfold pricedAt, DECISION.KNOCKOUT.MAX_SALES_RANK.
    repeat split; try assumption; try lia. now apply positive_truthy. }
  destruct (evaluate_priced toFixed toLocaleString now raw buy rank price Hp)
    as (_ & _ & Hdec & _).
  rewrite Hdec. unfold tierOf. rewrite (jsdiv_finite price buy Hbuy). cbn [jslt jsge].
  assert (Hm : (6 <= price / buy)%Q) by (apply Qle_shift_div_l; [exact Hbuy|exact Hsix]).
  replace (Qlt_bool (price / buy) DECISION.REVIEW.MULTIPLIER) with false
    by (symmetry; apply Qlt_bool_false; unfold DECISION.REVIEW.MULTIPLIER; lra).
  replace (metrics_salesRankDrops90 (getSalesRankMetrics raw) =? 0) with false
    by (symmetry; apply Z.eqb_neq; lia).
  cbv zeta.
  replace (Qle_bool DECISION.BUY.MULTIPLIER (price / buy)) with true
    by (symmetry; apply Qle_bool_iff; exact Hm).
  replace (DECISION.BUY.MIN_DROPS_90 <=? metrics_salesRankDrops90 (getSalesRankMetrics raw))
    with true by (symmetry; apply Z.leb_le; exact Hdrops).
  match goal with
  | |- context [rank <? ?k] =>
      replace (rank <? k) with true; [reflexivity|]
  end.
  symmetry. apply Z.ltb_lt.
  unfold DECISION.BUY.MAX_SALES_RANK_CHEAP, DECISION.BUY.MAX_SALES_RANK.
  destruct (Qlt_bool buy _); lia.
Qed.

Lemma decisionRank_nonneg (d : Decision) : 0 <= decisionRank d.
Proof. destruct d; cbn; lia. Qed.

(** The tier never falls when the drop count grows or the rank improves. *)
Lemma tierOf_monotone (buy : Q) (rank1 rank2 drops1 drops2 : Z) (price : Q) :
  rank2 <= rank1 -> drops1 <= drops2 ->
  decisionRank (tierOf buy rank1 drops1 price) <= decisionRank (tierOf buy rank2 drops2 price).
Proof.
  intros Hrank Hdrops. unfold tierOf. cbv zeta.
  destruct (jsge (jsdiv price buy) (Fin DECISION.BUY.MULTIPLIER));
    destruct (jsge (jsdiv price buy) (Fin DECISION.REVIEW.MULTIPLIER));
    destruct (Qle_bool DECISION.BUY.HIGH_PROFIT_MIN_FBM (calculateFBMProfit buy price));
    cbn [andb];
    repeat match goal with
           | |- context [?a <? ?b] => destruct (Z.ltb_spec a b)
           | |- context [?a <=? ?b] => destruct (Z.leb_spec a b)
           end;
    cbn [andb orb decisionRank]; lia.
Qed.

(** X16: with the same rank, sell price and buy price, more drops never
    lower the decision (REJECT below REVIEW below BUY). *)
Theorem decision_monotone_in_drops
  (now1 now2 : Z) (raw1 raw2 : KeepaProductRaw.t) (buy : Q) :
  avgSalesRank (getSalesRankMetrics raw1) = avgSalesRank (getSalesRankMetrics raw2) ->
  sellPrice now1 raw1 = sellPrice now2 raw2 ->
  metrics_salesRankDrops90 (getSalesRankMetrics raw1)
  <= metrics_salesRankDrops90 (getSalesRankMetrics raw2) ->
  decisionRank (EvaluationResult.decision (evaluate now1 raw1 buy))
  <= decisionRank (EvaluationResult.decision (evaluate now2 raw2 buy)).
Proof.
  intros Hrank Hprice Hdrops.
  destruct (unpriced_or_priced now1 raw1) as [Hu|(rank & price & Hp)].
  { destruct (evaluate_unpriced toFixed toLocaleString now1 raw1 buy Hu) as (Hrej & _).
    rewrite Hrej. exact (decisionRank_nonneg _). }
  assert (Hp2 : pricedAt now2 raw2 rank price).
  { unfold pricedAt in *. rewrite <- Hrank, <- Hprice. exact Hp. }
  destruct (evaluate_priced toFixed toLocaleString now1 raw1 buy rank price Hp)
    as (_ & _ & Hdec1 & _).
  destruct (evaluate_priced toFixed toLocaleString now2 raw2 buy rank price Hp2)
    as (_ & _ & Hdec2 & _).
  rewrite Hdec1, Hdec2.
  destruct (jslt _ _); [exact (decisionRank_nonneg _)|].
  set (d1 := metrics_salesRankDrops90 (getSalesRankMetrics raw1)) in *.
  set (d2 := metrics_salesRankDrops90 (getSalesRankMetrics raw2)) in *.
  destruct (Z.eqb_spec d1 0) as [E1|E1]; [exact (decisionRank_nonneg _)|].
  destruct (Z.eqb_spec d2 0) as [E2|E2]; [|apply tierOf_monotone; lia].
  (* no drops in the second run: the first one has a negative count *)
  pose proof (tierOf_monotone buy rank rank d1 (-1) price ltac:(lia) ltac:(lia)) as Hneg.
  assert (Hrej : tierOf buy rank (-1) price = REJECT).
  { unfold tierOf. cbv zeta.
    unfold DECISION.BUY.MIN_DROPS_90, DECISION.BUY.HIGH_PROFIT_MIN_DROPS,
      DECISION.REVIEW.MIN_DROPS_90.
    cbn [Z.leb Z.compare]. now rewrite !andb_false_r. }
  rewrite Hrej in Hneg. exact Hneg.
Qed.

(** X17: with the same sell price, buy price and drop count, a better
    (smaller) average rank never lowers the decision. *)
Theorem decision_monotone_in_rank
  (now1 now2 : Z) (raw1 raw2 : KeepaProductRaw.t) (buy : Q) (rank1 rank2 : Z) :
  avgSalesRank (getSalesRankMetrics raw1) = Some rank1 ->
  avgSalesRank (getSalesRankMetrics raw2) = Some rank2 ->
  rank2 <= rank1 ->
  sellPrice now1 raw1 = sellPrice now2 raw2 ->
  metrics_salesRankDrops90 (getSalesRankMetrics raw1)
  = metrics_salesRankDrops90 (getSalesRankMetrics raw2) ->
  decisionRank (EvaluationResult.decision (evaluate now1 raw1 buy))
  <= decisionRank (EvaluationResult.decision (evaluate now2 raw2 buy)).
Proof.
  intros Hr1 Hr2 Hle Hprice Hdrops.
  destruct (unpriced_or_priced now1 raw1) as [Hu|(rank & price & Hp)].
  { destruct (evaluate_unpriced toFixed toLocaleString now1 raw1 buy Hu) as (Hrej & _).
    rewrite Hrej. exact (decisionRank_nonneg _). }
  pose proof (getSalesRankMetrics_positive raw2 rank2 Hr2) as Hpos2.
  destruct Hp as (Hrank & H0 & Hk & Hs & Ht).
  assert (rank = rank1) by congruence. subst rank.
  assert (Hp1 : pricedAt now1 raw1 rank1 price) by (repeat split; assumption).
  assert (Hp2 : pricedAt now2 raw2 rank2 price).
  { unfold pricedAt. rewrite <- Hprice. repeat split; try assumption; lia. }
  destruct (evaluate_priced toFixed toLocaleString now1 raw1 buy rank1 price Hp1)
    as (_ & _ & Hdec1 & _).
  destruct (evaluate_priced toFixed toLocaleString now2 raw2 buy rank2 price Hp2)
    as (_ & _ & Hdec2 & _).
  rewrite Hdec1, Hdec2, <- Hdrops.
  destruct (jslt _ _); [exact (decisionRank_nonneg _)|].
  destruct (_ =? 0); [exact (decisionRank_nonneg _)|].
  apply tierOf_monotone; lia.
Qed.

End DecisionsMore.

(** *** Concrete runs, further *)

Lemma evaluateBook_BUY_requirements_witness :
  EvaluationResult.decision
    (evaluateBook markFixed markLocale someday (fbaOffer 3500 900000 5) 5) = BUY /\
  exists rank price,
    EvaluationResult.salesRank
      (evaluateBook markFixed markLocale someday (fbaOffer 3500 900000 5) 5) = Some rank /\
    0 < rank < 2000000 /\
    EvaluationResult.amazonPrice
      (evaluateBook markFixed markLocale someday (fbaOffer 3500 900000 5) 5) = Some price /\
    (0 < price)%Q /\
    EvaluationResult.multiplier
      (evaluateBook markFixed markLocale someday (fbaOffer 3500 900000 5) 5)
    = Some (jsdiv price 5) /\
    jslt (jsdiv price 5) (Fin 4) = false /\
    ((0 < 5)%Q -> (4 * 5 <= price)%Q) /\
    3 <= EvaluationResult.salesRankDrops90
           (evaluateBook markFixed markLocale someday (fbaOffer 3500 900000 5) 5) /\
    EvaluationResult.fbmProfit
      (evaluateBook markFixed markLocale someday (fbaOffer 3500 900000 5) 5)
    = Some (calculateFBMProfit 5 price).
Proof.
  split; [reflexivity|].
  apply (evaluateBook_BUY_requirements markFixed markLocale someday (fbaOffer 3500 900000 5) 5).
  reflexivity.
Defined.

Lemma evaluateBook_REVIEW_requirements_witness :
  exists rank price,
    EvaluationResult.salesRank
      (evaluateBook markFixed markLocale someday (fbaOffer 2200 2200000 2) 5) = Some rank /\
    0 < rank < 2500000 /\
    EvaluationResult.amazonPrice
      (evaluateBook markFixed markLocale someday (fbaOffer 2200 2200000 2) 5) = Some price /\
    (0 < price)%Q /\
    jslt (jsdiv price 5) (Fin 4) = false /\
    2 <= EvaluationResult.salesRankDrops90
           (evaluateBook markFixed markLocale someday (fbaOffer 2200 2200000 2) 5).
Proof.
  apply (evaluateBook_REVIEW_requirements markFixed markLocale someday
           (fbaOffer 2200 2200000 2) 5).
  reflexivity.
Defined.

Lemma normal_tier_buys_witness :
  EvaluationResult.decision
    (evaluateBook markFixed markLocale someday (fbaOffer 3500 900000 5) 5) = BUY.
Proof.
  apply (normal_tier_buys markFixed markLocale someday (fbaOffer 3500 900000 5) 5
           900000 (inject_Z 3500 / 100)%Q).
  - reflexivity.
  - lia.
  - reflexivity.
  - reflexivity.
  - vm_compute. discriminate.
  - vm_compute. discriminate.
Defined.

Lemma decision_monotone_in_drops_witness :
  EvaluationResult.decision
    (evaluateBook markFixed markLocale someday (fbaOffer 3500 900000 2) 5) = REVIEW /\
  EvaluationResult.decision
    (evaluateBook markFixed markLocale someday (fbaOffer 3500 900000 5) 5) = BUY /\
  decisionRank
    (EvaluationResult.decision
       (evaluateBook markFixed markLocale someday (fbaOffer 3500 900000 2) 5))
  <= decisionRank
       (EvaluationResult.decision
          (evaluateBook markFixed markLocale someday (fbaOffer 3500 900000 5) 5)).
Proof.
  split; [reflexivity|]. split; [reflexivity|].
  apply (decision_monotone_in_drops markFixed markLocale someday someday
           (fbaOffer 3500 900000 2) (fbaOffer 3500 900000 5) 5); try reflexivity.
  vm_compute. discriminate.
Defined.

Lemma decision_monotone_in_rank_witness :
  decisionRank
    (EvaluationResult.decision
       (evaluateBook markFixed markLocale someday (fbaOffer 3500 2200000 5) 5))
  <= decisionRank
       (EvaluationResult.decision
          (evaluateBook markFixed markLocale someday (fbaOffer 3500 900000 5) 5)).
Proof.
  apply (decision_monotone_in_rank markFixed markLocale someday someday
           (fbaOffer 3500 2200000 5) (fbaOffer 3500 900000 5) 5 2200000 900000);
    try reflexivity.
  lia.
Defined.

(** ** Fees *)

(** X18: for the same sell price the FBM profit never exceeds the FBA
    profit, and a higher buy price never raises either of them. *)
Theorem profit_order (buy1 buy2 sell : Q) :
  (buy1 <= buy2)%Q ->
  (calculateFBMProfit buy2 sell <= calculateFBMProfit buy1 sell)%Q /\
  (calculateFBAProfit buy2 sell <= calculateFBAProfit buy1 sell)%Q /\
  (calculateFBMProfit buy1 sell <= calculateFBAProfit buy1 sell)%Q /\
  (calculateFBMProfit buy2 sell <= calculateFBAProfit buy2 sell)%Q.
Proof.
  intros Hle.
  unfold calculateFBAProfit, calculateFBMProfit, FEES.REFERRAL_FEE_PERCENT, FEES.CLOSING_FEE,
    FEES.FBA_FULFILLMENT_FEE, FEES.FBM_SHIPPING_COST.
  repeat split; lra.
Qed.

Lemma profit_order_witness :
  (calculateFBMProfit 5 35 <= calculateFBMProfit 4 35)%Q /\
  (calculateFBAProfit 5 35 <= calculateFBAProfit 4 35)%Q /\
  (calculateFBMProfit 4 35 <= calculateFBAProfit 4 35)%Q /\
  (calculateFBMProfit 5 35 <= calculateFBAProfit 5 35)%Q.
Proof.
  apply (profit_order 4 5 35). vm_compute. discriminate.
Defined.

(** ** Reported figures *)

Lemma getWeightInPounds_positive (raw : KeepaProductRaw.t) (w : Q) :
  getWeightInPounds raw = Some w -> (0 < w)%Q.
Proof.
  assert (Hpos : forall g, 0 < g -> (0 < inject_Z g / gramsPerPound)%Q).
  { intros g Hg. apply Qlt_shift_div_l; [reflexivity|].
    rewrite Qmult_0_l. change 0%Q with (inject_Z 0). now rewrite <- Zlt_Qlt. }
  unfold getWeightInPounds.
  destruct (itemWeight raw) as [i|], (packageWeight raw) as [p|];
    repeat match goal with
    | |- context [0 <? ?g] => destruct (0 <? g) eqn:?
    end;
    intros H; try discriminate H; injection H as <-; apply Hpos; now apply Z.ltb_lt.
Qed.

Section Figures.

Variable toFixed : jsnum -> nat -> string.
Variable toLocaleString : Z -> string.

Local Notation "'evaluate'" := (evaluateBook toFixed toLocaleString).

Lemma evaluate_weight (now : Z) (raw : KeepaProductRaw.t) (buy : Q) :
  EvaluationResult.weightLbs (evaluate now raw buy) = getWeightInPounds raw.
Proof.
  unfold evaluateBook.
  destruct (avgSalesRank (getSalesRankMetrics raw)) as [rank|]; [|reflexivity].
  destruct (rank =? 0); [reflexivity|].
  destruct (DECISION.KNOCKOUT.MAX_SALES_RANK <? rank); [reflexivity|].
  cbv zeta.
  destruct (sellPriceOf _ _) as [price|]; [|reflexivity].
  destruct (negb (truthy (Some price))); [reflexivity|].
  destruct (jslt _ _); [reflexivity|].
  destruct (_ =? 0); [reflexivity|].
  destruct (_ || _); [reflexivity|].
  destruct (_ && _); reflexivity.
Qed.

(** X19: whatever the decision, the figures an evaluation reports are
    strictly positive when present: the Amazon price, the sales rank and the
    weight; and a multiplier is reported exactly when a price is. *)
Theorem evaluateBook_figures_positive (now : Z) (raw : KeepaProductRaw.t) (buy : Q) :
  let r := evaluate now raw buy in
  (forall price, EvaluationResult.amazonPrice r = Some price -> (0 < price)%Q) /\
  (forall rank, EvaluationResult.salesRank r = Some rank -> 0 < rank) /\
  (forall w, EvaluationResult.weightLbs r = Some w -> (0 < w)%Q) /\
  (EvaluationResult.multiplier r = None <-> EvaluationResult.amazonPrice r = None).
Proof.
  intros r. subst r.
  destruct (evaluate_metrics toFixed toLocaleString now raw buy) as [Hr _].
  rewrite Hr, evaluate_weight.
  assert (Hrank : forall rank, avgSalesRank (getSalesRankMetrics raw) = Some rank -> 0 < rank)
    by (intros rank; apply getSalesRankMetrics_positive).
  assert (Hw : forall w, getWeightInPounds raw = Some w -> (0 < w)%Q)
    by (intros w; apply getWeightInPounds_positive).
  destruct (unpriced_or_priced now raw) as [Hu|(rank & price & Hp)].
  - destruct (evaluate_unpriced toFixed toLocaleString now raw buy Hu) as (_ & _ & Hprice & Hm).
    rewrite Hprice, Hm. repeat split; try assumption; discriminate.
  - destruct (evaluate_priced toFixed toLocaleString now raw buy rank price Hp)
      as (Hprice & Hm & _).
    rewrite Hprice, Hm. destruct Hp as (_ & _ & _ & Hs & _).
    repeat split; try assumption; try discriminate.
    intros q Hq. injection Hq as <-. exact (sellPrice_positive now raw price Hs).
Qed.

End Figures.

(** ** The evaluation loop *)

Lemma written_cons (d : Decision) (x : string * BookUpdate.t) (l : list (string * BookUpdate.t)) :
  written d (x :: l)
  = (if decisionEqb (BookUpdate.decision (snd x)) d then 1 else 0) + written d l.
Proof.
  unfold written. cbn [filter].
  destruct (decisionEqb (BookUpdate.decision (snd x)) d); cbn [List.length]; lia.
Qed.

Lemma written_total (l : list (string * BookUpdate.t)) :
  written BUY l + written REVIEW l + written REJECT l = Z.of_nat (List.length l).
Proof.
  induction l as [|x l IH]; [reflexivity|].
  rewrite !written_cons. cbn [List.length].
  destruct (BookUpdate.decision (snd x)); cbn [decisionEqb]; lia.
Qed.

Lemma unanswered_cons (job : Job) (pending : list Job) :
  unanswered (job :: pending)
  = (match job_keepa job with None => 1 | Some _ => 0 end) + unanswered pending.
Proof.
  unfold unanswered. cbn [filter]. destruct (job_keepa job); cbn [List.length]; lia.
Qed.

Lemma mathRound_ge (k : Z) (x : Q) : (inject_Z k <= x)%Q -> k <= mathRound x.
Proof.
  intros H. unfold mathRound. rewrite <- (Qfloor_Z k).
  apply Qfloor_resp_le. lra.
Qed.

Section Loop.

Variable toFixed : jsnum -> nat -> string.
Variable toLocaleString : Z -> string.

Local Notation "'turn'" := (evaluateNext toFixed toLocaleString).
Local Notation "'run'" := (evaluatePendingBooks toFixed toLocaleString).
Local Notation "'expected'" := (writeFor toFixed toLocaleString).

(** One turn appends the expected write and moves exactly one counter
    besides [evaluated]. *)
Lemma evaluateNext_spec (n : Tally.t) (writes : list (string * BookUpdate.t)) (job : Job) :
  let d := BookUpdate.decision (snd (expected job)) in
  snd (turn (n, writes) job) = writes ++ [expected job] /\
  Tally.evaluated (fst (turn (n, writes) job)) = Tally.evaluated n + 1 /\
  Tally.buy (fst (turn (n, writes) job))
  = Tally.buy n + (if decisionEqb d BUY then 1 else 0) /\
  Tally.review (fst (turn (n, writes) job))
  = Tally.review n + (if decisionEqb d REVIEW then 1 else 0) /\
  Tally.reject (fst (turn (n, writes) job)) + Tally.noData (fst (turn (n, writes) job))
  = Tally.reject n + Tally.noData n + (if decisionEqb d REJECT then 1 else 0) /\
  Tally.noData (fst (turn (n, writes) job))
  = Tally.noData n + (match job_keepa job with None => 1 | Some _ => 0 end).
Proof.
  unfold evaluateNext, writeFor. destruct (job_keepa job) as [raw|].
  - cbn [snd fst updateOfResult BookUpdate.decision].
    destruct (EvaluationResult.decision _);
      cbn [fst snd decisionEqb Tally.evaluated Tally.buy Tally.review Tally.reject Tally.noData];
      repeat split; lia.
  - cbn [fst snd noDataUpdate BookUpdate.decision decisionEqb
         Tally.evaluated Tally.buy Tally.review Tally.reject Tally.noData].
    repeat split; lia.
Qed.

Lemma fold_evaluateNext (pending : list Job) :
  forall (n : Tally.t) (writes : list (string * BookUpdate.t)),
    let final := fold_left turn pending (n, writes) in
    snd final = writes ++ map expected pending /\
    Tally.evaluated (fst final) = Tally.evaluated n + Z.of_nat (List.length pending) /\
    Tally.buy (fst final) = Tally.buy n + written BUY (map expected pending) /\
    Tally.review (fst final) = Tally.review n + written REVIEW (map expected pending) /\
    Tally.reject (fst final) + Tally.noData (fst final)
    = Tally.reject n + Tally.noData n + written REJECT (map expected pending) /\
    Tally.noData (fst final) = Tally.noData n + unanswered pending.
Proof.
  induction pending as [|job pending IH]; intros n writes final.
  - subst final. cbn [fold_left map fst snd List.length].
    rewrite app_nil_r. unfold written, unanswered. cbn. repeat split; lia.
  - subst final. cbn [fold_left].
    destruct (turn (n, writes) job) as [n1 writes1] eqn:E.
    pose proof (evaluateNext_spec n writes job) as S. rewrite E in S.
    cbn [fst snd] in S. cbv zeta in S.
    destruct S as (Sw & Se & Sb & Sr & Sj & Sn).
    destruct (IH n1 writes1) as (Hw & He & Hb & Hr & Hj & Hn).
    cbn [map List.length]. rewrite !written_cons, unanswered_cons.
    split; [rewrite Hw, Sw, <- app_assoc; reflexivity|].
    repeat split; lia.
Qed.

(** X20: the loop writes one update per pending book, in the order of the
    books; every book is counted once in [evaluated] and once in exactly one
    of [buy], [review], [reject] and [noData]; the tallies are the numbers of
    BUY, REVIEW and REJECT writes, the books without Keepa data being written
    as REJECT but counted in [noData] and not in [reject]. *)
Theorem evaluatePendingBooks_tally (pending : list Job) :
  let n := fst (run pending) in
  let writes := snd (run pending) in
  writes = map expected pending /\
  map fst writes = map (fun job => book_isbn (job_book job)) pending /\
  Tally.evaluated n = Z.of_nat (List.length pending) /\
  Tally.buy n = written BUY writes /\
  Tally.review n = written REVIEW writes /\
  Tally.reject n + Tally.noData n = written REJECT writes /\
  Tally.noData n = unanswered pending /\
  Tally.buy n + Tally.review n + Tally.reject n + Tally.noData n = Tally.evaluated n.
Proof.
  intros n writes. subst n writes. unfold evaluatePendingBooks.
  match goal with
  | |- context [fold_left _ pending (?n0, ?w0)] =>
      destruct (fold_evaluateNext pending n0 w0) as (Hw & He & Hb & Hr & Hj & Hn)
  end.
  cbn [app Tally.evaluated Tally.buy Tally.review Tally.reject Tally.noData] in *.
  pose proof (written_total (map expected pending)) as Ht.
  rewrite length_map in Ht.
  rewrite Hw.
  split; [reflexivity|].
  split; [rewrite map_map; reflexivity|].
  repeat split; lia.
Qed.

(** X21: an update written with decision BUY belongs to a pending book that
    Keepa knows, and carries a sales rank between 1 and 1,999,999, at least
    3 rank drops, and an Amazon price in cents that is at least four times
    the book's price plus shipping. *)
Theorem written_BUY_requirements (pending : list Job) (isbn : string) (u : BookUpdate.t) :
  In (isbn, u) (snd (run pending)) ->
  BookUpdate.decision u = BUY ->
  exists job raw rank drops cents,
    In job pending /\ book_isbn (job_book job) = isbn /\
    job_keepa job = Some raw /\
    BookUpdate.sales_rank u = Some rank /\ 0 < rank < 2000000 /\
    BookUpdate.sales_rank_drops_90 u = Some drops /\ 3 <= drops /\
    BookUpdate.amazon_price u = Some cents /\ 0 <= cents /\
    4 * (book_price (job_book job) + book_shipping (job_book job)) <= cents.
Proof.
  intros Hin Hbuy. unfold evaluatePendingBooks in Hin.
  match type of Hin with
  | context [fold_left _ pending (?n0, ?w0)] =>
      destruct (fold_evaluateNext pending n0 w0) as (Hw & _)
  end.
  rewrite Hw in Hin. cbn [app] in Hin.
  apply in_map_iff in Hin. destruct Hin as (job & Hjob & Hmem).
  unfold writeFor in Hjob. injection Hjob as Hisbn Hu.
  destruct (job_keepa job) as [raw|] eqn:Hk;
    [|subst u; discriminate Hbuy].
  subst u. cbn [updateOfResult BookUpdate.decision] in Hbuy.
  destruct (evaluateBook_BUY_facts toFixed toLocaleString _ _ _ Hbuy)
    as (rank & price & Hrank & Hrk & Hprice & Hpos & _ & _ & Hfour & Hdrops & _).
  exists job, raw, rank, (EvaluationResult.salesRankDrops90
    (evaluateBook toFixed toLocaleString (job_clock job) raw (buyPriceDollars (job_book job)))),
    (mathRound (price * 100)).
  cbn [updateOfResult BookUpdate.sales_rank BookUpdate.sales_rank_drops_90
       BookUpdate.amazon_price].
  rewrite Hprice. cbn [toCents option_map].
  repeat split; try assumption; try reflexivity; try lia.
  - apply mathRound_ge. change (inject_Z 0) with 0%Q. lra.
  - set (total := book_price (job_book job) + book_shipping (job_book job)) in *.
    apply mathRound_ge. rewrite inject_Z_mult.
    destruct (Z_lt_le_dec 0 total) as [Hgt|Hle].
    + assert (Hb : (0 < buyPriceDollars (job_book job))%Q)
        by (unfold buyPriceDollars; fold total; now apply cents_positive).
      specialize (Hfour Hb). unfold buyPriceDollars in Hfour. fold total in Hfour.
      change (inject_Z 4) with 4%Q.
      assert (E : (inject_Z total == inject_Z total / 100 * 100)%Q) by (field; discriminate).
      rewrite E. clear E. generalize dependent (inject_Z total / 100)%Q. intros x Hx. lra.
    + assert (Hq : (inject_Z total <= 0)%Q)
        by (change 0%Q with (inject_Z 0); now rewrite <- Zle_Qle).
      change (inject_Z 4) with 4%Q. generalize dependent (inject_Z total). intros x Hx. lra.
Qed.

End Loop.

Lemma written_BUY_requirements_witness :
  exists job raw rank drops cents,
    In job twoJobs /\ book_isbn (job_book job) = "9780131103627"%string /\
    job_keepa job = Some raw /\
    BookUpdate.sales_rank (updateOfResult
      (evaluateBook markFixed markLocale someday (fbaOffer 3500 900000 5) 5)) = Some rank /\
    0 < rank < 2000000 /\
    BookUpdate.sales_rank_drops_90 (updateOfResult
      (evaluateBook markFixed markLocale someday (fbaOffer 3500 900000 5) 5)) = Some drops /\
    3 <= drops /\
    BookUpdate.amazon_price (updateOfResult
      (evaluateBook markFixed markLocale someday (fbaOffer 3500 900000 5) 5)) = Some cents /\
    0 <= cents /\
    4 * (book_price (job_book job) + book_shipping (job_book job)) <= cents.
Proof.
  apply (written_BUY_requirements markFixed markLocale twoJobs "9780131103627"
           (updateOfResult
              (evaluateBook markFixed markLocale someday (fbaOffer 3500 900000 5) 5))).
  - vm_compute. right. left. reflexivity.
  - reflexivity.
Defined.

(** ** The stand-alone script *)

Lemma currentPrice_positive (product : Script.Product) (i : nat) (v : Z) :
  Script.currentPrice product i = Some v -> 0 < v.
Proof.
  unfold Script.currentPrice. destruct (Script.history product i) as [l|]; [|discriminate].
  destruct (2 <=? List.length l)%nat; [|discriminate].
  destruct (0 <? last l 0) eqn:Hpos; [|discriminate].
  intros H. injection H as <-. now apply Z.ltb_lt.
Qed.

Lemma avgPrice_positive (product : Script.Product) (i : nat) (v : Z) :
  Script.avgPrice product i = Some v -> 0 < v.
Proof.
  unfold Script.avgPrice. destruct (Script.product_stats product) as [s|]; [|discriminate].
  destruct (Script.stats_avg180 s) as [a|]; [|discriminate].
  apply positiveAt_positive.
Qed.

(** The price kept for one channel is positive and exceeds neither figure
    of the channel; a channel with a figure keeps a price. *)
Lemma finalPrice_spec (current avg : option Z) :
  (forall c, current = Some c -> 0 < c) ->
  (forall a, avg = Some a -> 0 < a) ->
  match Script.finalPrice current avg with
  | Some v =>
      0 < v /\ (forall c, current = Some c -> v <= c) /\ (forall a, avg = Some a -> v <= a)
  | None => current = None /\ avg = None
  end.
Proof.
  intros Hc Ha. unfold Script.finalPrice.
  destruct current as [c|], avg as [a|].
  - specialize (Hc c eq_refl). specialize (Ha a eq_refl).
    destruct (c =? 0) eqn:Ec; [apply Z.eqb_eq in Ec; lia|].
    destruct (a =? 0) eqn:Ea; [apply Z.eqb_eq in Ea; lia|].
    cbn [negb andb]. split; [lia|].
    split; intros x Hx; injection Hx as <-; lia.
  - specialize (Hc c eq_refl).
    destruct (c =? 0) eqn:Ec; [apply Z.eqb_eq in Ec; lia|].
    cbn [negb]. split; [lia|]. split; intros x Hx; [injection Hx as <-; lia|discriminate Hx].
  - specialize (Ha a eq_refl). split; [lia|].
    split; intros x Hx; [discriminate Hx|injection Hx as <-; lia].
  - split; reflexivity.
Qed.

(** X22: the price the script takes from a Keepa product is positive, and
    it exceeds neither the current FBA price nor the 180-day FBA average
    when the product has them: FBA comes first, and a spike of either
    figure is capped by the other. *)
Theorem getKeepaPrice_capped_by_fba (product : Script.Product) (v : Z) :
  Script.getKeepaPrice product = Some v ->
  0 < v /\
  (forall c, Script.currentPrice product 10 = Some c -> v <= c) /\
  (forall a, Script.avgPrice product 10 = Some a -> v <= a).
Proof.
  unfold Script.getKeepaPrice, Script.orPrice.
  pose proof (finalPrice_spec (Script.currentPrice product 10) (Script.avgPrice product 10)
                (currentPrice_positive product 10) (avgPrice_positive product 10)) as H10.
  pose proof (finalPrice_spec (Script.currentPrice product 1) (Script.avgPrice product 1)
                (currentPrice_positive product 1) (avgPrice_positive product 1)) as H1.
  pose proof (finalPrice_spec (Script.currentPrice product 2) (Script.avgPrice product 2)
                (currentPrice_positive product 2) (avgPrice_positive product 2)) as H2.
  destruct (Script.finalPrice (Script.currentPrice product 10) (Script.avgPrice product 10))
    as [x|].
  - destruct H10 as (Hx & Hcur & Havg).
    destruct (x =? 0) eqn:Ex; [apply Z.eqb_eq in Ex; lia|].
    intros H. injection H as <-. repeat split; assumption.
  - destruct H10 as (Hcur & Havg). rewrite Hcur, Havg.
    assert (Hpos : 0 < v ->
              0 < v /\ (forall c : Z, None = Some c -> v <= c) /\
              (forall a : Z, None = Some a -> v <= a))
      by (intros Hv; repeat split; [assumption|discriminate|discriminate]).
    destruct (Script.finalPrice (Script.currentPrice product 1) (Script.avgPrice product 1))
      as [y|].
    + destruct H1 as (Hy & _).
      destruct (y =? 0) eqn:Ey; [apply Z.eqb_eq in Ey; lia|].
      intros H. injection H as <-. now apply Hpos.
    + destruct (Script.finalPrice (Script.currentPrice product 2) (Script.avgPrice product 2))
        as [z|]; [|discriminate].
      destruct H2 as (Hz & _). intros H. injection H as <-. now apply Hpos.
Qed.

Lemma getKeepaPrice_capped_by_fba_witness :
  0 < 3500 /\
  (forall c, Script.currentPrice (Script.unranked 3500 5) 10 = Some c -> 3500 <= c) /\
  (forall a, Script.avgPrice (Script.unranked 3500 5) 10 = Some a -> 3500 <= a).
Proof.
  apply (getKeepaPrice_capped_by_fba (Script.unranked 3500 5) 3500). reflexivity.
Defined.

Lemma rankBelow_bound (salesRank : option Z) (limit : Z) :
  0 < limit -> Script.rankBelow salesRank limit = true ->
  forall r, salesRank = Some r -> r < limit.
Proof.
  intros Hl H r ->. unfold Script.rankBelow in H.
  apply orb_true_iff in H. destruct H as [H|H];
    [apply Z.eqb_eq in H; lia | now apply Z.ltb_lt].
Qed.

Lemma jslt_four_false (price buyPrice : Q) :
  jslt (jsdiv price buyPrice) (Fin 4) = false -> (0 < buyPrice)%Q -> (4 * buyPrice <= price)%Q.
Proof.
  intros H Hb. rewrite (jsdiv_finite price buyPrice Hb) in H.
  cbn [jslt] in H. apply Qlt_bool_false in H.
  apply (Qmult_le_compat_r _ _ buyPrice) in H; [|now apply Qlt_le_weak].
  assert (E : (price / buyPrice * buyPrice == price)%Q).
  { field. intros E0. rewrite E0 in Hb. discriminate Hb. }
  rewrite E in H. exact H.
Qed.

Section ScriptDecisions.

Variable toFixed : jsnum -> nat -> string.
Variable toLocaleString : Z -> string.

(** X23: the script answers BUY only for a nonzero Amazon price whose
    multiplier is not below 4, with at least 3 rank drops, and with a sales
    rank that is unknown or below 1,500,000; the two profits it reports
    then differ by the 50 cents between FBM shipping and the FBA fee. *)
Theorem makeDecision_BUY_requirements (buyPrice : Z) (amazonPrice salesRank : option Z)
  (salesRankDrops90 : Z) :
  let v := Script.makeDecision toFixed toLocaleString buyPrice amazonPrice salesRank
             salesRankDrops90 in
  Script.Verdict.decision v = BUY ->
  exists price fbm,
    amazonPrice = Some price /\ price <> 0 /\
    Script.Verdict.multiplier v = Some (jsdiv (inject_Z price) (inject_Z buyPrice)) /\
    (0 < buyPrice -> 4 * buyPrice <= price) /\
    3 <= salesRankDrops90 /\
    (forall r, salesRank = Some r -> r < 1500000) /\
    Script.Verdict.fbm_profit v = Some fbm /\
    Script.Verdict.fba_profit v = Some (fbm + 50).
Proof.
  intros v. subst v. unfold Script.makeDecision.
  destruct amazonPrice as [price|]; [|discriminate].
  destruct (price =? 0) eqn:Ep; [discriminate|].
  apply Z.eqb_neq in Ep. cbv zeta.
  match goal with |- context [if ?k then _ else _] => destruct k eqn:Ek end;
    [discriminate|].
  destruct (jslt _ _) eqn:Em; [discriminate|].
  destruct (salesRankDrops90 =? 0) eqn:Ed; [discriminate|].
  apply Z.eqb_neq in Ed.
  assert (Hfour : 0 < buyPrice -> 4 * buyPrice <= price).
  { intros Hb.
    assert (Hq : (4 * inject_Z buyPrice <= inject_Z price)%Q).
    { apply jslt_four_false; [exact Em|].
      change 0%Q with (inject_Z 0). now rewrite <- Zlt_Qlt. }
    change 4%Q with (inject_Z 4) in Hq. rewrite <- inject_Z_mult in Hq.
    now rewrite <- Zle_Qle in Hq. }
  intros Hbuy.
  eexists price, _. split; [reflexivity|]. split; [exact Ep|].
  assert (Hreq : 3 <= salesRankDrops90 /\ forall r, salesRank = Some r -> r < 1500000).
  { revert Hbuy.
    repeat match goal with
    | |- context [if ?b then _ else _] => destruct b eqn:?
    end; cbn [Script.Verdict.decision]; intros Hbuy; try discriminate Hbuy;
    repeat match goal with
    | H : _ && _ = true |- _ => apply andb_true_iff in H; destruct H
    | H : (_ <=? _) = true |- _ => apply Z.leb_le in H
    end;
    unfold Script.CONFIG.BUY.MIN_DROPS_90, Script.CONFIG.BUY.HIGH_BUY_PRICE_MIN_DROPS,
      Script.CONFIG.BUY.HIGH_PROFIT_MIN_DROPS in *;
    (split; [lia|]);
    intros r Hr;
    match goal with
    | H : Script.rankBelow _ ?limit = true |- _ =>
        pose proof (rankBelow_bound _ limit eq_refl H r Hr) as Hlim;
        unfold Script.CONFIG.BUY.MAX_SALES_RANK, Script.CONFIG.BUY.HIGH_BUY_PRICE_MAX_RANK,
          Script.CONFIG.BUY.HIGH_PROFIT_MAX_RANK in Hlim; lia
    end. }
  destruct Hreq as (Hd & Hr).
  repeat match goal with
  | |- context [if ?b then _ else _] => destruct b
  end; cbn [Script.Verdict.multiplier Script.Verdict.fbm_profit Script.Verdict.fba_profit];
  (split; [reflexivity|]); (split; [exact Hfour|]); (split; [exact Hd|]);
  (split; [exact Hr|]); (split; [reflexivity|]);
  f_equal; unfold Script.CONFIG.CLOSING_FEE, Script.CONFIG.FBA_FULFILLMENT_FEE,
    Script.CONFIG.FBM_SHIPPING_COST; lia.
Qed.

(** X24: with an Amazon price below four times a positive buy price the
    script answers REJECT whatever the rank, the drops, the buy price or the
    profit: neither the high-buy-price exception, configured with a
    multiplier of 3, nor the high-profit exception can apply below 4. *)
Theorem makeDecision_below_four_rejected (buyPrice amazonPrice : Z) (salesRank : option Z)
  (salesRankDrops90 : Z) :
  0 < buyPrice -> amazonPrice < 4 * buyPrice ->
  Script.Verdict.decision
    (Script.makeDecision toFixed toLocaleString buyPrice (Some amazonPrice) salesRank
       salesRankDrops90) = REJECT.
Proof.
  intros Hb Hlt. unfold Script.makeDecision.
  destruct (amazonPrice =? 0); [reflexivity|]. cbv zeta.
  match goal with |- context [if ?k then _ else _] => destruct k end; [reflexivity|].
  assert (Hm : jslt (jsdiv (inject_Z amazonPrice) (inject_Z buyPrice))
                 (Fin Script.CONFIG.REVIEW.MULTIPLIER) = true).
  { assert (Hq : (0 < inject_Z buyPrice)%Q)
      by (change 0%Q with (inject_Z 0); now rewrite <- Zlt_Qlt).
    rewrite (jsdiv_finite _ _ Hq). cbn [jslt]. apply Qlt_bool_iff.
    apply Qlt_shift_div_r; [exact Hq|].
    unfold Script.CONFIG.REVIEW.MULTIPLIER. change 4%Q with (inject_Z 4).
    rewrite <- inject_Z_mult. now rewrite <- Zlt_Qlt. }
  rewrite Hm. reflexivity.
Qed.

(** X25: a product of unknown sales rank is bought by the script as soon as
    its price is at least six times a positive buy price and it has 3 rank
    drops or more: in the script no rank is no knockout. *)
Theorem decide_unknown_rank_buys (buyPrice : Z) (product : Script.Product) (price : Z) :
  Script.getSalesRank product = None ->
  Script.getKeepaPrice product = Some price ->
  0 < buyPrice -> 6 * buyPrice <= price ->
  3 <= Script.getSalesRankDrops90 product ->
  Script.Verdict.decision (Script.decide toFixed toLocaleString buyPrice product) = BUY.
Proof.
  intros Hrank Hprice Hb Hsix Hdrops. unfold Script.decide. rewrite Hrank, Hprice.
  unfold Script.makeDecision.
  destruct (price =? 0) eqn:Ep; [apply Z.eqb_eq in Ep; lia|]. cbv zeta.
  cbn [Script.rankBelow andb].
  assert (Hq : (0 < inject_Z buyPrice)%Q)
    by (change 0%Q with (inject_Z 0); now rewrite <- Zlt_Qlt).
  rewrite (jsdiv_finite _ _ Hq).
  assert (Hge : (6 <= inject_Z price / inject_Z buyPrice)%Q).
  { apply Qle_shift_div_l; [exact Hq|]. change 6%Q with (inject_Z 6).
    rewrite <- inject_Z_mult. now rewrite <- Zle_Qle. }
  assert (Hm : jslt (Fin (inject_Z price / inject_Z buyPrice))
                 (Fin Script.CONFIG.REVIEW.MULTIPLIER) = false).
  { cbn [jslt]. apply Qlt_bool_false. unfold Script.CONFIG.REVIEW.MULTIPLIER. lra. }
  rewrite Hm.
  destruct (Script.getSalesRankDrops90 product =? 0) eqn:Ed; [apply Z.eqb_eq in Ed; lia|].
  assert (Hbuy : jsge (Fin (inject_Z price / inject_Z buyPrice))
                   (Fin Script.CONFIG.BUY.MULTIPLIER) = true).
  { cbn [jsge]. apply Qle_bool_iff. exact Hge. }
  rewrite Hbuy.
  assert (Hd : (Script.CONFIG.BUY.MIN_DROPS_90 <=? Script.getSalesRankDrops90 product) = true)
    by (apply Z.leb_le; unfold Script.CONFIG.BUY.MIN_DROPS_90; lia).
  rewrite Hd. reflexivity.
Qed.

End ScriptDecisions.

Lemma makeDecision_BUY_requirements_witness :
  exists price fbm,
    Some 3500 = Some price /\ price <> 0 /\
    Script.Verdict.multiplier (Script.makeDecision markFixed markLocale 500 (Some 3500) None 5)
    = Some (jsdiv (inject_Z price) (inject_Z 500)) /\
    (0 < 500 -> 4 * 500 <= price) /\
    3 <= 5 /\
    (forall r, @None Z = Some r -> r < 1500000) /\
    Script.Verdict.fbm_profit (Script.makeDecision markFixed markLocale 500 (Some 3500) None 5)
    = Some fbm /\
    Script.Verdict.fba_profit (Script.makeDecision markFixed markLocale 500 (Some 3500) None 5)
    = Some (fbm + 50).
Proof.
  apply (makeDecision_BUY_requirements markFixed markLocale 500 (Some 3500) None 5).
  reflexivity.
Defined.

Lemma makeDecision_below_four_rejected_witness :
  Script.Verdict.decision
    (Script.makeDecision markFixed markLocale 3000 (Some 11000) (Some 500000) 12) = REJECT.
Proof.
  apply (makeDecision_below_four_rejected markFixed markLocale 3000 11000 (Some 500000) 12);
    reflexivity.
Defined.

Lemma decide_unknown_rank_buys_witness :
  Script.Verdict.decision
    (Script.decide markFixed markLocale 500 (Script.unranked 3500 5)) = BUY.
Proof.
  apply (decide_unknown_rank_buys markFixed markLocale 500 (Script.unranked 3500 5) 3500).
  - reflexivity.
  - reflexivity.
  - reflexivity.
  - vm_compute. discriminate.
  - vm_compute. discriminate.
Defined.
